(** * Booking lifecycle, availability and search of the rental backend

    A shallow embedding of the route handlers of [backend/server.ts], of the
    zod shapes of [backend/schema.ts] they parse their input with, and of the
    relational schema they run against (the [CREATE TABLE] script).

    - The store is a record of tables; a table is a list of its rows.  An
      [INSERT] adds its row at the end and an [UPDATE] rewrites a row where
      it stands.  PostgreSQL gives the rows of a table no order, and the
      order of a list stands for none: a query orders its rows by the key of
      its [ORDER BY], and rows with equal keys come in no order that the
      source fixes.
    - The constraints of the [CREATE TABLE] script (primary keys, foreign
      keys, the types of the columns) are checked by the statements below
      and a violated one raises, as PostgreSQL does.
    - A handler is a function from the store to a response and a store: the
      request is served from its first line to its answer, with no other
      request in between.  Statements are not wrapped in a transaction in
      the source, so what a handler wrote before it raised stays written.
      The creation of a review is also taken statement by statement
      ([create_review_step]), for requests that overlap.
    - [nanoid()] and [new Date().toISOString()] are inputs of a handler.
    - Socket emissions ([io.emit], [io.to(..).emit]) change neither the
      store nor the response and are left out. *)

From Stdlib Require Import List String Ascii Bool ZArith QArith Lia Permutation
  Sorted.
Import ListNotations.
Local Open Scope string_scope.
Local Open Scope Z_scope.

Set Implicit Arguments.

(** ** JSON values and request bodies *)

Inductive json : Type :=
| JNull
| JBool (b : bool)
| JNum (q : Q)
| JStr (s : string)
| JCompound.                      (* an array or an object *)

(** A parsed JSON object: a key is absent ([undefined]) or bound. *)
Definition object : Type := string -> option json.

Definition empty_object : object := fun _ => None.

(** [{ ...o, k: v }] *)
Definition spread_with (o : object) (k : string) (v : json) : object :=
  fun k' => if String.eqb k' k then Some v else o k'.

Fixpoint object_of (l : list (string * json)) : object :=
  match l with
  | [] => empty_object
  | (k, v) :: l' => fun k' => if String.eqb k' k then Some v else object_of l' k'
  end.

(** JavaScript truthiness of the values the handlers test. *)
Definition truthy_string (s : option string) : bool :=
  match s with
  | Some s => negb (String.eqb s "")
  | None => false
  end.

Definition truthy_Z (n : option Z) : bool :=
  match n with
  | Some n => negb (n =? 0)
  | None => false
  end.

Definition truthy_Q (x : option Q) : bool :=
  match x with
  | Some x => negb (Qeq_bool x 0)
  | None => false
  end.

(** ** The zod combinators used by [schema.ts]

    A validator reads the value bound to a key ([None] when the key is
    absent) and returns the parsed value, or [None] for a [ZodError].
    String lengths are counted in characters of the Rocq string. *)
Module Zod.

Definition validator (A : Type) : Type := option json -> option A.

Definition between (min : nat) (max : option nat) (n : nat) : bool :=
  (min <=? n)%nat && match max with Some m => (n <=? m)%nat | None => true end.

(** [z.string().min(min).max(max)] *)
Definition string_ (min : nat) (max : option nat) : validator string :=
  fun v =>
    match v with
    | Some (JStr s) => if between min max (String.length s) then Some s else None
    | _ => None
    end.

(** [z.boolean()] *)
Definition boolean : validator bool :=
  fun v => match v with Some (JBool b) => Some b | _ => None end.

Definition is_int (q : Q) : bool := (Qnum q mod Zpos (Qden q) =? 0).
Definition to_int (q : Q) : Z := Qnum q / Zpos (Qden q).

(** [z.number().int().positive()] *)
Definition int_positive : validator Z :=
  fun v =>
    match v with
    | Some (JNum q) => if is_int q && (0 <? to_int q) then Some (to_int q) else None
    | _ => None
    end.

(** [z.number().int().min(lo).max(hi)] *)
Definition int_range (lo hi : Z) : validator Z :=
  fun v =>
    match v with
    | Some (JNum q) =>
        if is_int q && (lo <=? to_int q) && (to_int q <=? hi)
        then Some (to_int q) else None
    | _ => None
    end.

(** [z.number().nonnegative()] *)
Definition nonnegative : validator Q :=
  fun v =>
    match v with
    | Some (JNum q) => if Qle_bool 0 q then Some q else None
    | _ => None
    end.

(** [z.number().positive()] *)
Definition positive_ : validator Q :=
  fun v =>
    match v with
    | Some (JNum q) => if Qle_bool 0 q && negb (Qeq_bool q 0) then Some q else None
    | _ => None
    end.

(** [z.enum([...])]: the members with the value each one parses to. *)
Fixpoint assoc {A : Type} (s : string) (l : list (string * A)) : option A :=
  match l with
  | [] => None
  | (k, a) :: l' => if String.eqb s k then Some a else assoc s l'
  end.

Definition enum {A : Type} (members : list (string * A)) : validator A :=
  fun v => match v with Some (JStr s) => assoc s members | _ => None end.

(** [.optional()]: [undefined] passes and stays [undefined]. *)
Definition optional {A : Type} (f : validator A) : validator (option A) :=
  fun v => match v with None => Some None | Some _ => option_map Some (f v) end.

(** [.nullable()]: [null] passes and stays [null]. *)
Definition nullable {A : Type} (f : validator A) : validator (option A) :=
  fun v => match v with Some JNull => Some None | _ => option_map Some (f v) end.

(** [.default(d)]: [undefined] parses to [d]. *)
Definition default {A : Type} (d : A) (f : validator A) : validator A :=
  fun v => match v with None => Some d | Some _ => f v end.

End Zod.

(** A value that is [undefined], [null] or present; node-postgres sends
    the first two as SQL [NULL]. *)
Definition to_sql {A : Type} (v : option (option A)) : option A :=
  match v with
  | Some (Some a) => Some a
  | _ => None
  end.

(** ** Rows of the tables

    One module per table of the [CREATE TABLE] script; a field is a column,
    a nullable column is an [option].  [TEXT] is [string], [INTEGER] is [Z],
    [NUMERIC] is [Q].  Of [users] and [properties] the columns the handlers
    below read are kept. *)

Module User.
Record t : Type := mk
  { user_id : string;
    email : string;
    name : string;
    role : string }.
End User.

Module Property.
Record t : Type := mk
  { property_id : string;
    host_id : string;
    title : string;
    city : string;
    neighborhood : option string;
    property_type : string;
    guest_capacity : Z;
    amenities : option string;
    base_price_per_night : Q;
    is_active : bool;
    created_at : string }.
End Property.

Module PropertyAvailability.
Record t : Type := mk
  { availability_id : string;
    property_id : string;
    date : string;
    is_available : bool;
    price_override : option Q }.
End PropertyAvailability.

(** The five values of [z.enum(['pending', 'confirmed', 'declined',
    'cancelled', 'completed'])]; every writer of [bookings.status] goes
    through that enum. *)
Inductive booking_status : Type :=
| pending | confirmed | declined | cancelled | completed.

Definition booking_status_eqb (a b : booking_status) : bool :=
  match a, b with
  | pending, pending | confirmed, confirmed | declined, declined
  | cancelled, cancelled | completed, completed => true
  | _, _ => false
  end.

Definition booking_status_members : list (string * booking_status) :=
  [("pending", pending); ("confirmed", confirmed); ("declined", declined);
   ("cancelled", cancelled); ("completed", completed)].

Module Booking.
Record t : Type := mk
  { booking_id : string;
    property_id : string;
    guest_id : string;
    host_id : string;
    check_in : string;
    check_out : string;
    guest_count : Z;
    total_price : Q;
    service_fee : Q;
    special_requests : option string;
    status : booking_status;
    created_at : string;
    updated_at : string }.
End Booking.

Module Conversation.
Record t : Type := mk
  { conversation_id : string;
    booking_id : string;
    guest_id : string;
    host_id : string;
    created_at : string;
    updated_at : string }.
End Conversation.

Module Review.
Record t : Type := mk
  { review_id : string;
    booking_id : string;
    property_id : string;
    reviewer_id : string;
    host_id : string;
    cleanliness_rating : Z;
    accuracy_rating : Z;
    communication_rating : Z;
    location_rating : Z;
    check_in_rating : Z;
    value_rating : Z;
    overall_rating : Z;
    comment : option string;
    created_at : string;
    updated_at : string }.
End Review.

Module Notification.
Record t : Type := mk
  { notification_id : string;
    user_id : string;
    type : string;
    title : string;
    message : string;
    related_entity_type : option string;
    related_entity_id : option string;
    is_read : bool;
    created_at : string }.
End Notification.

(** ** The store *)

Record database : Type := mkdb
  { users : list User.t;
    properties : list Property.t;
    property_availability : list PropertyAvailability.t;
    bookings : list Booking.t;
    conversations : list Conversation.t;
    reviews : list Review.t;
    notifications : list Notification.t }.

Definition set_property_availability (d : database) l : database :=
  mkdb (users d) (properties d) l (bookings d) (conversations d) (reviews d)
       (notifications d).
Definition set_bookings (d : database) l : database :=
  mkdb (users d) (properties d) (property_availability d) l (conversations d)
       (reviews d) (notifications d).
Definition set_conversations (d : database) l : database :=
  mkdb (users d) (properties d) (property_availability d) (bookings d) l
       (reviews d) (notifications d).
Definition set_reviews (d : database) l : database :=
  mkdb (users d) (properties d) (property_availability d) (bookings d)
       (conversations d) l (notifications d).
Definition set_notifications (d : database) l : database :=
  mkdb (users d) (properties d) (property_availability d) (bookings d)
       (conversations d) (reviews d) l.

(** What a statement or a parse can raise. *)
Inductive exn : Type :=
| ZodError
| PgError (sqlstate : string).

Definition unique_violation : exn := PgError "23505".
Definition foreign_key_violation : exn := PgError "23503".
Definition invalid_column_reference : exn := PgError "42P10".
Definition invalid_text_representation : exn := PgError "22P02".
Definition invalid_row_count_in_limit : exn := PgError "2201W".
Definition invalid_row_count_in_offset : exn := PgError "2201X".
Definition numeric_value_out_of_range : exn := PgError "22003".
Definition character_not_in_repertoire : exn := PgError "22021".

(** *** What a column takes

    zod lets through values that the columns refuse.  PostgreSQL raises,
    and the statement writes nothing, for an [INTEGER] outside 32 bits, for
    a [BIGINT] outside 64 bits and for a [TEXT] that holds a NUL character.
    (The number is sent as JavaScript prints it: from [1e21] on that is with
    an exponent, and the error is one of syntax, [22P02]; the handlers read
    no code.) *)
Definition fits_integer (z : Z) : bool :=
  (-2147483648 <=? z) && (z <=? 2147483647).

Definition fits_bigint (z : Z) : bool :=
  (-9223372036854775808 <=? z) && (z <=? 9223372036854775807).

Fixpoint fits_text (s : string) : bool :=
  match s with
  | EmptyString => true
  | String c s' => negb (Ascii.eqb c Ascii.zero) && fits_text s'
  end.

(** A test on a parameter that may be [NULL], or not be sent. *)
Definition if_given {A : Type} (f : A -> bool) (v : option A) : bool :=
  match v with Some a => f a | None => true end.

(** *** Queries *)

(** [SELECT user_id ... FROM users WHERE user_id = $1], is there a row *)
Definition user_exists (d : database) (id : string) : bool :=
  existsb (fun u => String.eqb (User.user_id u) id) (users d).

(** [SELECT ... FROM properties WHERE property_id = $1], [rows[0]] *)
Definition select_property (d : database) (id : string) : option Property.t :=
  find (fun p => String.eqb (Property.property_id p) id) (properties d).

(** [SELECT * FROM bookings WHERE booking_id = $1], [rows[0]] *)
Definition select_booking (d : database) (id : string) : option Booking.t :=
  find (fun b => String.eqb (Booking.booking_id b) id) (bookings d).

(** [SELECT review_id FROM reviews WHERE booking_id = $1] *)
Definition select_reviews_of_booking (d : database) (id : string) : list Review.t :=
  filter (fun r => String.eqb (Review.booking_id r) id) (reviews d).

(** *** Inserts: the values of the body, the primary key, then the
    foreign keys

    Of the values of a row, the ones tested against their column are the
    ones a body supplies as it likes: the others are keys of rows of the
    store, results of [nanoid()], and timestamps. *)

Definition insert_booking (b : Booking.t) (d : database) : exn + database :=
  if negb (fits_integer (Booking.guest_count b))
  then inl numeric_value_out_of_range
  else if negb (if_given fits_text (Booking.special_requests b))
  then inl character_not_in_repertoire
  else if existsb (fun x => String.eqb (Booking.booking_id x) (Booking.booking_id b))
             (bookings d)
  then inl unique_violation
  else if match select_property d (Booking.property_id b) with
          | Some _ => user_exists d (Booking.guest_id b)
                      && user_exists d (Booking.host_id b)
          | None => false
          end
       then inr (set_bookings d (bookings d ++ [b]))
       else inl foreign_key_violation.

Definition insert_conversation (c : Conversation.t) (d : database) : exn + database :=
  if existsb (fun x => String.eqb (Conversation.conversation_id x)
                                  (Conversation.conversation_id c))
             (conversations d)
  then inl unique_violation
  else if match select_booking d (Conversation.booking_id c) with
          | Some _ => user_exists d (Conversation.guest_id c)
                      && user_exists d (Conversation.host_id c)
          | None => false
          end
       then inr (set_conversations d (conversations d ++ [c]))
       else inl foreign_key_violation.

Definition insert_notification (n : Notification.t) (d : database) : exn + database :=
  if existsb (fun x => String.eqb (Notification.notification_id x)
                                  (Notification.notification_id n))
             (notifications d)
  then inl unique_violation
  else if user_exists d (Notification.user_id n)
       then inr (set_notifications d (notifications d ++ [n]))
       else inl foreign_key_violation.

Definition insert_review (r : Review.t) (d : database) : exn + database :=
  if negb (if_given fits_text (Review.comment r))
  then inl character_not_in_repertoire
  else if existsb (fun x => String.eqb (Review.review_id x) (Review.review_id r))
             (reviews d)
  then inl unique_violation
  else if match select_booking d (Review.booking_id r),
                select_property d (Review.property_id r) with
          | Some _, Some _ => user_exists d (Review.reviewer_id r)
                              && user_exists d (Review.host_id r)
          | _, _ => false
          end
       then inr (set_reviews d (reviews d ++ [r]))
       else inl foreign_key_violation.

(** ** Responses and handlers *)

(** [res.status(s).json(body)], or the envelope of [createErrorResponse]. *)
Inductive response (A : Type) : Type :=
| Json (status : nat) (body : A)
| ErrorResponse (status : nat) (message : string) (error_code : string).

Arguments Json {A} status body.
Arguments ErrorResponse {A} status message error_code.

(** The [catch] block shared by the mutating handlers. *)
Definition catch {A : Type} (e : exn) : response A :=
  match e with
  | ZodError => ErrorResponse 400 "Validation error" "VALIDATION_ERROR"
  | PgError _ => ErrorResponse 500 "Internal server error" "INTERNAL_SERVER_ERROR"
  end.

(** The body of a [try] block: it goes on with a value, answers ([return
    res...]) or raises; the store is threaded through either way. *)
Inductive step (R A : Type) : Type :=
| Next (a : A)
| Reply (r : R)
| Raise (e : exn).

Arguments Next {R A} a.
Arguments Reply {R A} r.
Arguments Raise {R A} e.

Definition action (R A : Type) : Type := database -> step R A * database.

Definition ret {R A : Type} (a : A) : action R A := fun d => (Next a, d).

Definition bind {R A B : Type} (m : action R A) (k : A -> action R B) : action R B :=
  fun d =>
    match m d with
    | (Next a, d') => k a d'
    | (Reply r, d') => (Reply r, d')
    | (Raise e, d') => (Raise e, d')
    end.

Definition reply {R A : Type} (r : R) : action R A := fun d => (Reply r, d).

Definition raise {R A : Type} (e : exn) : action R A := fun d => (Raise e, d).

(** A read of the store. *)
Definition query {R A : Type} (f : database -> A) : action R A :=
  fun d => (Next (f d), d).

(** A statement that writes: on an error the store is as before it. *)
Definition exec {R : Type} (f : database -> exn + database) : action R unit :=
  fun d =>
    match f d with
    | inr d' => (Next tt, d')
    | inl e => (Raise e, d)
    end.

(** [schema.parse(...)] *)
Definition parse {R A : Type} (v : option A) : action R A :=
  match v with
  | Some a => ret a
  | None => raise ZodError
  end.

(** [if (c) return res...] *)
Definition reply_if {R : Type} (c : bool) (r : R) : action R unit :=
  if c then reply r else ret tt.

Declare Scope handler_scope.
Delimit Scope handler_scope with handler.
Notation "x <- m ;; k" := (bind m (fun x => k))
  (at level 100, m at next level, right associativity) : handler_scope.
Notation "m ;; k" := (bind m (fun _ => k))
  (at level 100, right associativity) : handler_scope.

(** [try { body } catch (error) { ... }] *)
Definition run {A : Type} (body : action (response A) (response A))
  : database -> response A * database :=
  fun d =>
    match body d with
    | (Next r, d') => (r, d')
    | (Reply r, d') => (r, d')
    | (Raise e, d') => (catch e, d')
    end.

(** ** Property search and fetch: [GET /api/properties], [GET /api/properties/:property_id] *)

(** [searchParams], the query after its coercion: a key is [undefined]
    ([None]) or a value; [limit] and [offset] are [None] when [parseInt]
    gave [NaN]. *)
Module SearchParams.
Record t : Type := mk
  { location : option string;
    check_in : option string;
    check_out : option string;
    guests : option Z;
    price_min : option Q;
    price_max : option Q;
    property_type : option string;
    amenities : option string;
    sort_by : option string;
    limit : option Z;
    offset : option Z }.
End SearchParams.

Record search_response : Type := mk_search_response
  { response_properties : list Property.t;
    total_count : Z }.

(** [ORDER BY]: insertion into a sorted list; rows with equal keys keep
    their table order. *)
Fixpoint insert_by {A : Type} (leb : A -> A -> bool) (x : A) (l : list A) : list A :=
  match l with
  | [] => [x]
  | y :: l' => if leb x y then x :: l else y :: insert_by leb x l'
  end.

Definition order_by {A : Type} (leb : A -> A -> bool) (l : list A) : list A :=
  fold_right (insert_by leb) [] l.

Definition price_asc (a b : Property.t) : bool :=
  Qle_bool (Property.base_price_per_night a) (Property.base_price_per_night b).
Definition price_desc (a b : Property.t) : bool := price_asc b a.
Definition created_at_desc (a b : Property.t) : bool :=
  String.leb (Property.created_at b) (Property.created_at a).

(** The [switch (sort_by)] *)
Definition sorting (sort_by : option string) : Property.t -> Property.t -> bool :=
  match sort_by with
  | Some s =>
      if String.eqb s "price_low_to_high" then price_asc
      else if String.eqb s "price_high_to_low" then price_desc
      else created_at_desc
  | None => created_at_desc
  end.

(** [SELECT DISTINCT property_id FROM property_availability
     WHERE date BETWEEN $a AND $b AND is_available = false];
    [date] is a [TEXT] column, so [BETWEEN] compares strings, here in
    byte order, and includes both ends. *)
Definition unavailable_between (d : database) (a b : string) : list string :=
  map PropertyAvailability.property_id
      (filter (fun r => String.leb a (PropertyAvailability.date r)
                        && String.leb (PropertyAvailability.date r) b
                        && negb (PropertyAvailability.is_available r))
              (property_availability d)).

Definition not_in (x : string) (l : list string) : bool :=
  negb (existsb (String.eqb x) l).

Section Search.

(** PostgreSQL's [text ILIKE pattern]. *)
Variable ilike : string -> string -> bool.

(** [col ILIKE $n] on a nullable column: [NULL] is not a match. *)
Definition ilike_null (col : option string) (pattern : string) : bool :=
  match col with
  | Some s => ilike s pattern
  | None => false
  end.

Definition contains_pattern (s : string) : string := "%" ++ s ++ "%".

(** The conjuncts the handler appends to
    [SELECT * FROM properties WHERE is_active = true], one by one. *)

Definition location_filter (q : SearchParams.t) (p : Property.t) : bool :=
  match SearchParams.location q with
  | Some l =>
      if truthy_string (Some l)
      then ilike (Property.city p) (contains_pattern l)
           || ilike_null (Property.neighborhood p) (contains_pattern l)
      else true
  | None => true
  end.

Definition guests_filter (q : SearchParams.t) (p : Property.t) : bool :=
  match SearchParams.guests q with
  | Some g => if truthy_Z (Some g) then g <=? Property.guest_capacity p else true
  | None => true
  end.

Definition price_min_filter (q : SearchParams.t) (p : Property.t) : bool :=
  match SearchParams.price_min q with
  | Some m =>
      if truthy_Q (Some m) then Qle_bool m (Property.base_price_per_night p) else true
  | None => true
  end.

Definition price_max_filter (q : SearchParams.t) (p : Property.t) : bool :=
  match SearchParams.price_max q with
  | Some m =>
      if truthy_Q (Some m) then Qle_bool (Property.base_price_per_night p) m else true
  | None => true
  end.

Definition property_type_filter (q : SearchParams.t) (p : Property.t) : bool :=
  match SearchParams.property_type q with
  | Some t =>
      if truthy_string (Some t) then String.eqb (Property.property_type p) t else true
  | None => true
  end.

Definition amenities_filter (q : SearchParams.t) (p : Property.t) : bool :=
  match SearchParams.amenities q with
  | Some a =>
      if truthy_string (Some a)
      then ilike_null (Property.amenities p) (contains_pattern a)
      else true
  | None => true
  end.

(** [if (check_in && check_out)]: [property_id NOT IN (...)] *)
Definition date_filter (d : database) (q : SearchParams.t) (p : Property.t) : bool :=
  match SearchParams.check_in q, SearchParams.check_out q with
  | Some ci, Some co =>
      if truthy_string (Some ci) && truthy_string (Some co)
      then not_in (Property.property_id p) (unavailable_between d ci co)
      else true
  | _, _ => true
  end.

(** The filters other than the one on dates. *)
Definition attribute_filters (q : SearchParams.t) (p : Property.t) : bool :=
  location_filter q p && guests_filter q p && price_min_filter q p
  && price_max_filter q p && property_type_filter q p && amenities_filter q p.

Definition where_clause (d : database) (q : SearchParams.t) (p : Property.t) : bool :=
  Property.is_active p && attribute_filters q p && date_filter d q p.

(** The parameter of [guest_capacity >= $n], sent when [guests] is
    truthy, is an [INTEGER]. *)
Definition guests_fit (q : SearchParams.t) : bool :=
  if truthy_Z (SearchParams.guests q)
  then if_given fits_integer (SearchParams.guests q)
  else true.

(** The text parameters, each sent when its filter is appended:
    PostgreSQL takes no NUL character in a text value. *)
Definition texts_fit (q : SearchParams.t) : bool :=
  (if truthy_string (SearchParams.location q)
   then if_given fits_text (SearchParams.location q) else true)
  && (if truthy_string (SearchParams.property_type q)
      then if_given fits_text (SearchParams.property_type q) else true)
  && (if truthy_string (SearchParams.amenities q)
      then if_given fits_text (SearchParams.amenities q) else true)
  && (if truthy_string (SearchParams.check_in q)
         && truthy_string (SearchParams.check_out q)
      then if_given fits_text (SearchParams.check_in q)
           && if_given fits_text (SearchParams.check_out q)
      else true).

(** [... ORDER BY ... LIMIT $l OFFSET $o]: the two row counts are
    [BIGINT] parameters; PostgreSQL rejects a [NaN], a number outside 64
    bits and a negative row count.  Whichever parameter it rejects, the
    handler answers 500. *)
Definition select_page (d : database) (q : SearchParams.t) : exn + list Property.t :=
  match SearchParams.limit q, SearchParams.offset q with
  | Some l, Some o =>
      if negb (texts_fit q) then inl character_not_in_repertoire
      else if negb (fits_bigint l && fits_bigint o && guests_fit q)
      then inl numeric_value_out_of_range
      else if l <? 0 then inl invalid_row_count_in_limit
      else if o <? 0 then inl invalid_row_count_in_offset
      else inr (firstn (Z.to_nat l)
                  (skipn (Z.to_nat o)
                     (order_by (sorting (SearchParams.sort_by q))
                        (filter (where_clause d q) (properties d)))))
  | _, _ => inl invalid_text_representation
  end.

(** [SELECT COUNT( * ) FROM properties WHERE is_active = true] *)
Definition count_active (d : database) : Z :=
  Z.of_nat (List.length (filter Property.is_active (properties d))).

Definition search_properties (d : database) (q : SearchParams.t)
  : response search_response :=
  match select_page d q with
  | inr rows => Json 200 (mk_search_response rows (count_active d))
  | inl _ => ErrorResponse 500 "Internal server error" "INTERNAL_SERVER_ERROR"
  end.

End Search.

(** [GET /api/properties/:property_id] *)
Definition get_property (d : database) (property_id : string) : response Property.t :=
  match select_property d property_id with
  | None => ErrorResponse 404 "Property not found" "PROPERTY_NOT_FOUND"
  | Some p => Json 200 p
  end.

(** ** The availability ledger: [POST /api/properties/:property_id/availability] *)

Inductive availability_column : Type :=
| col_availability_id | col_property_id | col_date | col_is_available
| col_price_override.

Definition availability_column_eqb (a b : availability_column) : bool :=
  match a, b with
  | col_availability_id, col_availability_id | col_property_id, col_property_id
  | col_date, col_date | col_is_available, col_is_available
  | col_price_override, col_price_override => true
  | _, _ => false
  end.

Definition columns_subset (a b : list availability_column) : bool :=
  forallb (fun x => existsb (availability_column_eqb x) b) a.

Definition same_columns (a b : list availability_column) : bool :=
  columns_subset a b && columns_subset b a.

(** The unique indexes of [property_availability]: its [CREATE TABLE]
    declares [availability_id TEXT PRIMARY KEY] and no other key. *)
Definition property_availability_indexes : list (list availability_column) :=
  [[col_availability_id]].

Definition same_key (a b : PropertyAvailability.t) : bool :=
  String.eqb (PropertyAvailability.property_id a) (PropertyAvailability.property_id b)
  && String.eqb (PropertyAvailability.date a) (PropertyAvailability.date b).

(** [DO UPDATE SET is_available = $4, price_override = $5] on the row in
    conflict with [new]. *)
Definition do_update (new old : PropertyAvailability.t) : PropertyAvailability.t :=
  PropertyAvailability.mk
    (PropertyAvailability.availability_id old)
    (PropertyAvailability.property_id old)
    (PropertyAvailability.date old)
    (PropertyAvailability.is_available new)
    (PropertyAvailability.price_override new).

Definition update_in_conflict (new : PropertyAvailability.t)
  (l : list PropertyAvailability.t) : list PropertyAvailability.t :=
  map (fun old => if same_key new old then do_update new old else old) l.

(** [INSERT INTO property_availability (...) VALUES (...)
     ON CONFLICT (property_id, date) DO UPDATE SET ... RETURNING *]
    against a table with the unique indexes [indexes].  PostgreSQL needs a
    unique index on exactly the columns of the conflict target and rejects
    the statement (42P10) when the table has none; with one, the row in
    conflict is updated, and a row without conflict is inserted under the
    primary key and the foreign key of the table. *)
Definition insert_on_conflict_update (indexes : list (list availability_column))
  (new : PropertyAvailability.t) (d : database)
  : exn + (PropertyAvailability.t * database) :=
  if negb (existsb (same_columns [col_property_id; col_date]) indexes)
  then inl invalid_column_reference
  else
    match find (same_key new) (property_availability d) with
    | Some old =>
        inr (do_update new old,
             set_property_availability d
               (update_in_conflict new (property_availability d)))
    | None =>
        if existsb (fun x => String.eqb (PropertyAvailability.availability_id x)
                                        (PropertyAvailability.availability_id new))
                   (property_availability d)
        then inl unique_violation
        else match select_property d (PropertyAvailability.property_id new) with
             | Some _ =>
                 inr (new, set_property_availability d
                             (property_availability d ++ [new]))
             | None => inl foreign_key_violation
             end
    end.

(** A statement with [RETURNING *]. *)
Definition exec_returning {R A : Type} (f : database -> exn + (A * database))
  : action R A :=
  fun d =>
    match f d with
    | inr (a, d') => (Next a, d')
    | inl e => (Raise e, d)
    end.

Module CreatePropertyAvailabilityInput.
Record t : Type := mk
  { property_id : string;
    date : string;
    is_available : bool;
    price_override : option (option Q) }.
End CreatePropertyAvailabilityInput.

(** The ownership test of the handlers on a property. *)
Definition not_owner_nor_admin (user : User.t) (host_id : string) : bool :=
  negb (String.eqb host_id (User.user_id user))
  && negb (String.eqb (User.role user) "admin").

(** The parsed inputs of the three mutating handlers on bookings. *)

Module CreateBookingInput.
Record t : Type := mk
  { property_id : string;
    guest_id : option string;
    check_in : string;
    check_out : string;
    guest_count : Z;
    total_price : Q;
    service_fee : Q;
    special_requests : option (option string);
    status : booking_status }.
End CreateBookingInput.

Module UpdateBookingInput.
Record t : Type := mk
  { booking_id : string;
    property_id : option string;
    guest_id : option string;
    host_id : option string;
    check_in : option string;
    check_out : option string;
    guest_count : option Z;
    total_price : option Q;
    service_fee : option Q;
    special_requests : option (option string);
    status : option booking_status }.
End UpdateBookingInput.

Module CreateReviewInput.
Record t : Type := mk
  { booking_id : string;
    property_id : string;
    reviewer_id : string;
    host_id : string;
    cleanliness_rating : Z;
    accuracy_rating : Z;
    communication_rating : Z;
    location_rating : Z;
    check_in_rating : Z;
    value_rating : Z;
    overall_rating : Z;
    comment : option (option string) }.
End CreateReviewInput.

Definition not_null_violation : exn := PgError "23502".

(** A parameter bound to a [NOT NULL] column. *)
Definition not_null {R A : Type} (v : option A) : action R A :=
  match v with
  | Some a => ret a
  | None => raise not_null_violation
  end.

Definition present {A : Type} (v : option A) : nat :=
  match v with Some _ => 1%nat | None => 0%nat end.

(** The number of entries of [updateData] other than [booking_id] whose
    value is not [undefined]: the length of [updateFields]. *)
Definition updateFields (u : UpdateBookingInput.t) : nat :=
  (present (UpdateBookingInput.property_id u)
   + present (UpdateBookingInput.guest_id u)
   + present (UpdateBookingInput.host_id u)
   + present (UpdateBookingInput.check_in u)
   + present (UpdateBookingInput.check_out u)
   + present (UpdateBookingInput.guest_count u)
   + present (UpdateBookingInput.total_price u)
   + present (UpdateBookingInput.service_fee u)
   + present (UpdateBookingInput.special_requests u)
   + present (UpdateBookingInput.status u))%nat.

Definition or_keep {A : Type} (new : option A) (old : A) : A :=
  match new with Some a => a | None => old end.

(** [SET k1 = $1, ..., updated_at = $n] on one row. *)
Definition set_fields (u : UpdateBookingInput.t) (now : string) (b : Booking.t)
  : Booking.t :=
  Booking.mk
    (Booking.booking_id b)
    (or_keep (UpdateBookingInput.property_id u) (Booking.property_id b))
    (or_keep (UpdateBookingInput.guest_id u) (Booking.guest_id b))
    (or_keep (UpdateBookingInput.host_id u) (Booking.host_id b))
    (or_keep (UpdateBookingInput.check_in u) (Booking.check_in b))
    (or_keep (UpdateBookingInput.check_out u) (Booking.check_out b))
    (or_keep (UpdateBookingInput.guest_count u) (Booking.guest_count b))
    (or_keep (UpdateBookingInput.total_price u) (Booking.total_price b))
    (or_keep (UpdateBookingInput.service_fee u) (Booking.service_fee b))
    (or_keep (UpdateBookingInput.special_requests u) (Booking.special_requests b))
    (or_keep (UpdateBookingInput.status u) (Booking.status b))
    (Booking.created_at b)
    now.

(** The foreign keys of a row that the update changed still hold. *)
Definition changed_key_ok (new : option string) (old : string)
  (exists_ : string -> bool) : bool :=
  match new with
  | Some v => String.eqb v old || exists_ v
  | None => true
  end.

Definition update_keeps_foreign_keys (d : database) (u : UpdateBookingInput.t)
  (b : Booking.t) : bool :=
  changed_key_ok (UpdateBookingInput.property_id u) (Booking.property_id b)
    (fun v => match select_property d v with Some _ => true | None => false end)
  && changed_key_ok (UpdateBookingInput.guest_id u) (Booking.guest_id b) (user_exists d)
  && changed_key_ok (UpdateBookingInput.host_id u) (Booking.host_id b) (user_exists d).

(** The values of an update that are tested against their column. *)
Definition update_fits_integer (u : UpdateBookingInput.t) : bool :=
  if_given fits_integer (UpdateBookingInput.guest_count u).

Definition update_fits_text (u : UpdateBookingInput.t) : bool :=
  if_given (if_given fits_text) (UpdateBookingInput.special_requests u).

(** [UPDATE bookings SET ... WHERE booking_id = $id RETURNING *] *)
Definition update_bookings (booking_id : string) (u : UpdateBookingInput.t)
  (now : string) (d : database) : exn + (list Booking.t * database) :=
  let hit := fun b => String.eqb (Booking.booking_id b) booking_id in
  if negb (update_fits_integer u) then inl numeric_value_out_of_range
  else if negb (update_fits_text u) then inl character_not_in_repertoire
  else if forallb (update_keeps_foreign_keys d u) (filter hit (bookings d))
  then inr (map (set_fields u now) (filter hit (bookings d)),
            set_bookings d
              (map (fun b => if hit b then set_fields u now b else b) (bookings d)))
  else inl foreign_key_violation.

Local Open Scope handler_scope.

Section Writes.

(** [z.coerce.date()] followed by what node-postgres stores for the
    resulting [Date] in a [TEXT] column: the text of the date built by
    [new Date(v)], or [None] when that date is invalid. *)
Variable coerce_date : json -> option string.

Definition date_ : Zod.validator string :=
  fun v => match v with Some j => coerce_date j | None => None end.

Definition createPropertyAvailabilityInputSchema (o : object)
  : option CreatePropertyAvailabilityInput.t :=
  match Zod.string_ 1 None (o "property_id"),
        date_ (o "date"),
        Zod.default true Zod.boolean (o "is_available"),
        Zod.optional (Zod.nullable Zod.positive_) (o "price_override") with
  | Some p, Some dt, Some a, Some po =>
      Some (CreatePropertyAvailabilityInput.mk p dt a po)
  | _, _, _, _ => None
  end.

(** The handler, run against a table with the unique indexes [indexes]. *)
Definition set_availability_on (indexes : list (list availability_column))
  (user : User.t) (property_id : string) (body : object) (nanoid : string)
  : database -> response PropertyAvailability.t * database :=
  run (
    ownerCheck <- query (fun d => select_property d property_id) ;;
    match ownerCheck with
    | None => reply (ErrorResponse 404 "Property not found" "PROPERTY_NOT_FOUND")
    | Some p =>
        reply_if (not_owner_nor_admin user (Property.host_id p))
          (ErrorResponse 403
             "Forbidden: Cannot modify availability of other user properties"
             "FORBIDDEN_ACCESS") ;;
        availabilityData <-
          parse (createPropertyAvailabilityInputSchema
                   (spread_with body "property_id" (JStr property_id))) ;;
        newAvailability <-
          exec_returning
            (insert_on_conflict_update indexes
               (PropertyAvailability.mk
                  ("avail_" ++ nanoid)
                  property_id
                  (CreatePropertyAvailabilityInput.date availabilityData)
                  (CreatePropertyAvailabilityInput.is_available availabilityData)
                  (to_sql (CreatePropertyAvailabilityInput.price_override
                             availabilityData)))) ;;
        ret (Json 201 newAvailability)
    end).

(** [POST /api/properties/:property_id/availability] on the schema of the
    repository. *)
Definition set_availability := set_availability_on property_availability_indexes.

(** *** Booking creation: [POST /api/bookings] *)

Definition createBookingInputSchema (o : object) : option CreateBookingInput.t :=
  match Zod.string_ 1 None (o "property_id"),
        Zod.optional (Zod.string_ 1 None) (o "guest_id"),
        date_ (o "check_in"),
        date_ (o "check_out"),
        Zod.int_positive (o "guest_count"),
        Zod.nonnegative (o "total_price"),
        Zod.nonnegative (o "service_fee"),
        Zod.optional (Zod.nullable (Zod.string_ 0 (Some 500%nat))) (o "special_requests"),
        Zod.default pending (Zod.enum booking_status_members) (o "status") with
  | Some p, Some g, Some ci, Some co, Some gc, Some tp, Some sf, Some sr, Some st =>
      Some (CreateBookingInput.mk p g ci co gc tp sf sr st)
  | _, _, _, _, _, _, _, _, _ => None
  end.

(** [nanoid_booking], [nanoid_conversation] and [nanoid_notification] are
    the three results of [nanoid()], [now] the one timestamp.  The parsed
    [status] is never empty, so [bookingData.status || 'pending'] is
    [bookingData.status]. *)
Definition create_booking (user : User.t) (body : object)
  (nanoid_booking nanoid_conversation nanoid_notification now : string)
  : database -> response Booking.t * database :=
  run (
    bookingData <-
      parse (createBookingInputSchema
               (spread_with body "guest_id" (JStr (User.user_id user)))) ;;
    propertyCheck <-
      query (fun d => select_property d (CreateBookingInput.property_id bookingData)) ;;
    match propertyCheck with
    | None => reply (ErrorResponse 404 "Property not found" "PROPERTY_NOT_FOUND")
    | Some p =>
        let host_id := Property.host_id p in
        let booking_id := "book_" ++ nanoid_booking in
        guest_id <- not_null (CreateBookingInput.guest_id bookingData) ;;
        let newBooking :=
          Booking.mk booking_id
            (CreateBookingInput.property_id bookingData)
            guest_id host_id
            (CreateBookingInput.check_in bookingData)
            (CreateBookingInput.check_out bookingData)
            (CreateBookingInput.guest_count bookingData)
            (CreateBookingInput.total_price bookingData)
            (CreateBookingInput.service_fee bookingData)
            (to_sql (CreateBookingInput.special_requests bookingData))
            (CreateBookingInput.status bookingData)
            now now in
        exec (insert_booking newBooking) ;;
        exec (insert_conversation
                (Conversation.mk ("conv_" ++ nanoid_conversation) booking_id
                   guest_id host_id now now)) ;;
        exec (insert_notification
                (Notification.mk ("not_" ++ nanoid_notification) host_id
                   "booking_request" "New Booking Request"
                   ("You have a new booking request from " ++ User.name user)
                   (Some "booking") (Some booking_id) false now)) ;;
        ret (Json 201 newBooking)
    end).

(** *** Booking update: [PATCH /api/bookings/:booking_id] *)

Definition updateBookingInputSchema (o : object) : option UpdateBookingInput.t :=
  match Zod.string_ 0 None (o "booking_id"),
        Zod.optional (Zod.string_ 0 None) (o "property_id"),
        Zod.optional (Zod.string_ 0 None) (o "guest_id"),
        Zod.optional (Zod.string_ 0 None) (o "host_id"),
        Zod.optional date_ (o "check_in"),
        Zod.optional date_ (o "check_out"),
        Zod.optional Zod.int_positive (o "guest_count"),
        Zod.optional Zod.nonnegative (o "total_price"),
        Zod.optional Zod.nonnegative (o "service_fee"),
        Zod.optional (Zod.nullable (Zod.string_ 0 (Some 500%nat))) (o "special_requests"),
        Zod.optional (Zod.enum booking_status_members) (o "status") with
  | Some b, Some p, Some g, Some h, Some ci, Some co, Some gc, Some tp, Some sf,
    Some sr, Some st =>
      Some (UpdateBookingInput.mk b p g h ci co gc tp sf sr st)
  | _, _, _, _, _, _, _, _, _, _, _ => None
  end.

(** The access test of the handlers on a booking. *)
Definition not_party_nor_admin (user : User.t) (b : Booking.t) : bool :=
  negb (String.eqb (User.role user) "admin")
  && negb (String.eqb (Booking.guest_id b) (User.user_id user))
  && negb (String.eqb (Booking.host_id b) (User.user_id user)).

(** [notificationData] of a status change, when it has a [user_id]. *)
Definition status_notification (user : User.t) (currentBooking : Booking.t)
  (status : booking_status) : option (string * string * string * string) :=
  match status with
  | confirmed =>
      Some (Booking.guest_id currentBooking, "booking_confirmed",
            "Booking Confirmed", "Your booking has been confirmed by the host")
  | declined =>
      Some (Booking.guest_id currentBooking, "booking_declined",
            "Booking Declined", "Your booking request has been declined")
  | cancelled =>
      Some (if String.eqb (User.user_id user) (Booking.guest_id currentBooking)
            then Booking.host_id currentBooking
            else Booking.guest_id currentBooking,
            "booking_cancelled", "Booking Cancelled", "A booking has been cancelled")
  | pending | completed => None
  end.

(** [now_update] and [now] are the two timestamps the handler takes,
    [nanoid] the id of the notification. *)
Definition update_booking (user : User.t) (booking_id : string) (body : object)
  (now_update nanoid now : string)
  : database -> response (option Booking.t) * database :=
  run (
    bookingCheck <- query (fun d => select_booking d booking_id) ;;
    match bookingCheck with
    | None => reply (ErrorResponse 404 "Booking not found" "BOOKING_NOT_FOUND")
    | Some currentBooking =>
        reply_if (not_party_nor_admin user currentBooking)
          (ErrorResponse 403 "Forbidden: Cannot update other user bookings"
             "FORBIDDEN_ACCESS") ;;
        updateData <-
          parse (updateBookingInputSchema
                   (spread_with body "booking_id" (JStr booking_id))) ;;
        reply_if (Nat.eqb (updateFields updateData) 0)
          (ErrorResponse 400 "No valid fields to update" "NO_UPDATE_FIELDS") ;;
        rows <- exec_returning (update_bookings booking_id updateData now_update) ;;
        let updatedBooking := hd_error rows in
        match UpdateBookingInput.status updateData with
        | Some status =>
            if negb (booking_status_eqb status (Booking.status currentBooking))
            then
              match status_notification user currentBooking status with
              | Some (user_id, type, title, message) =>
                  if truthy_string (Some user_id)
                  then exec (insert_notification
                               (Notification.mk ("not_" ++ nanoid) user_id type
                                  title message (Some "booking") (Some booking_id)
                                  false now))
                  else ret tt
              | None => ret tt
              end
            else ret tt
        | None => ret tt
        end ;;
        ret (Json 200 updatedBooking)
    end).

(** *** Review creation: [POST /api/bookings/:booking_id/reviews] *)

Definition rating : Zod.validator Z := Zod.int_range 1 5.

Definition createReviewInputSchema (o : object) : option CreateReviewInput.t :=
  match Zod.string_ 1 None (o "booking_id"),
        Zod.string_ 1 None (o "property_id"),
        Zod.string_ 1 None (o "reviewer_id"),
        Zod.string_ 1 None (o "host_id"),
        rating (o "cleanliness_rating"),
        rating (o "accuracy_rating"),
        rating (o "communication_rating"),
        rating (o "location_rating"),
        rating (o "check_in_rating"),
        rating (o "value_rating"),
        rating (o "overall_rating"),
        Zod.optional (Zod.nullable (Zod.string_ 0 (Some 1000%nat))) (o "comment") with
  | Some b, Some p, Some r, Some h, Some r1, Some r2, Some r3, Some r4, Some r5,
    Some r6, Some r7, Some c =>
      Some (CreateReviewInput.mk b p r h r1 r2 r3 r4 r5 r6 r7 c)
  | _, _, _, _, _, _, _, _, _, _, _, _ => None
  end.

Definition create_review (user : User.t) (booking_id : string) (body : object)
  (nanoid_review nanoid_notification now : string)
  : database -> response Review.t * database :=
  run (
    bookingCheck <- query (fun d => select_booking d booking_id) ;;
    match bookingCheck with
    | None => reply (ErrorResponse 404 "Booking not found" "BOOKING_NOT_FOUND")
    | Some booking =>
        reply_if (negb (String.eqb (Booking.guest_id booking) (User.user_id user)))
          (ErrorResponse 403 "Forbidden: Only guests can review bookings"
             "FORBIDDEN_ACCESS") ;;
        reply_if (negb (booking_status_eqb (Booking.status booking) completed))
          (ErrorResponse 400 "Cannot review booking that is not completed"
             "BOOKING_NOT_COMPLETED") ;;
        existingReview <- query (fun d => select_reviews_of_booking d booking_id) ;;
        reply_if (0 <? List.length existingReview)%nat
          (ErrorResponse 400 "Review already exists for this booking"
             "REVIEW_ALREADY_EXISTS") ;;
        reviewData <-
          parse (createReviewInputSchema
                   (spread_with
                      (spread_with
                         (spread_with
                            (spread_with body "booking_id" (JStr booking_id))
                            "property_id" (JStr (Booking.property_id booking)))
                         "reviewer_id" (JStr (User.user_id user)))
                      "host_id" (JStr (Booking.host_id booking)))) ;;
        let review_id := "rev_" ++ nanoid_review in
        let newReview :=
          Review.mk review_id booking_id
            (CreateReviewInput.property_id reviewData)
            (CreateReviewInput.reviewer_id reviewData)
            (CreateReviewInput.host_id reviewData)
            (CreateReviewInput.cleanliness_rating reviewData)
            (CreateReviewInput.accuracy_rating reviewData)
            (CreateReviewInput.communication_rating reviewData)
            (CreateReviewInput.location_rating reviewData)
            (CreateReviewInput.check_in_rating reviewData)
            (CreateReviewInput.value_rating reviewData)
            (CreateReviewInput.overall_rating reviewData)
            (to_sql (CreateReviewInput.comment reviewData))
            now now in
        exec (insert_review newReview) ;;
        exec (insert_notification
                (Notification.mk ("not_" ++ nanoid_notification)
                   (Booking.host_id booking) "review_received" "New Review"
                   ("You received a new review from " ++ User.name user)
                   (Some "review") (Some review_id) false now)) ;;
        ret (Json 201 newReview)
    end).

End Writes.

(** ** The seed rows of the [CREATE TABLE] script and a sample runtime

    The store after the script has run, and instances of the two functions
    of the runtime for concrete runs. *)

Definition seed_users : list User.t :=
  [ User.mk "user_001" "ahmed.ali@example.com" "Ahmed Ali" "host";
    User.mk "user_002" "sara.mohamed@example.com" "Sara Mohamed" "guest";
    User.mk "user_003" "omar.hassan@example.com" "Omar Hassan" "host";
    User.mk "user_004" "mariam.essa@example.com" "Mariam Essa" "guest";
    User.mk "user_005" "admin.ly@example.com" "Ly Admin" "admin" ].

Definition prop_001 : Property.t :=
  Property.mk "prop_001" "user_001" "Luxury Apartment in Tripoli" "Tripoli"
    (Some "Al-Hadba") "apartment" 4
    (Some "WiFi,Air Conditioning,Balcony,Kitchen,Parking") 150%Q true
    "2023-01-20T10:00:00Z".

Definition prop_002 : Property.t :=
  Property.mk "prop_002" "user_001" "Cozy Studio near Beach" "Tripoli"
    (Some "Al-Mahatta") "studio" 2
    (Some "WiFi,Air Conditioning,Kitchen,TV") 80%Q true
    "2023-01-25T10:00:00Z".

Definition prop_003 : Property.t :=
  Property.mk "prop_003" "user_003" "Traditional House in Benghazi" "Benghazi"
    (Some "Al-Wahda") "house" 6
    (Some "WiFi,Patio,Garden,Kitchen,Washer") 120%Q true
    "2023-02-05T10:00:00Z".

Definition seed_properties : list Property.t := [prop_001; prop_002; prop_003].

Definition avail_003 : PropertyAvailability.t :=
  PropertyAvailability.mk "avail_003" "prop_001" "2023-06-03" false None.

Definition seed_property_availability : list PropertyAvailability.t :=
  [ PropertyAvailability.mk "avail_001" "prop_001" "2023-06-01" true None;
    PropertyAvailability.mk "avail_002" "prop_001" "2023-06-02" true (Some 160%Q);
    avail_003;
    PropertyAvailability.mk "avail_004" "prop_002" "2023-06-01" true None;
    PropertyAvailability.mk "avail_005" "prop_002" "2023-06-02" true None;
    PropertyAvailability.mk "avail_006" "prop_003" "2023-06-01" true None ].

Definition book_001 : Booking.t :=
  Booking.mk "book_001" "prop_001" "user_002" "user_001" "2023-06-01" "2023-06-05"
    2 650%Q 65%Q (Some "Late check-in around 10 PM") confirmed
    "2023-05-01T10:00:00Z" "2023-05-01T10:00:00Z".

Definition book_002 : Booking.t :=
  Booking.mk "book_002" "prop_003" "user_004" "user_003" "2023-06-10" "2023-06-15"
    4 650%Q 65%Q (Some "Celebrating anniversary") pending
    "2023-05-15T10:00:00Z" "2023-05-15T10:00:00Z".

Definition seed_bookings : list Booking.t := [book_001; book_002].

Definition seed_conversations : list Conversation.t :=
  [ Conversation.mk "conv_001" "book_001" "user_002" "user_001"
      "2023-05-01T10:05:00Z" "2023-05-01T10:05:00Z";
    Conversation.mk "conv_002" "book_002" "user_004" "user_003"
      "2023-05-15T10:05:00Z" "2023-05-15T10:05:00Z" ].

Definition seed_reviews : list Review.t :=
  [ Review.mk "rev_001" "book_001" "prop_001" "user_002" "user_001" 5 5 5 4 5 5 5
      (Some "Amazing stay! Ahmed was a wonderful host and the apartment was exactly as described.")
      "2023-06-06T10:00:00Z" "2023-06-06T10:00:00Z" ].

Definition seed_notifications : list Notification.t :=
  [ Notification.mk "not_001" "user_001" "booking_request" "New Booking Request"
      "You have a new booking request for Luxury Apartment in Tripoli"
      (Some "booking") (Some "book_001") false "2023-05-01T10:00:00Z";
    Notification.mk "not_002" "user_002" "booking_confirmed" "Booking Confirmed"
      "Your booking for Luxury Apartment in Tripoli has been confirmed"
      (Some "booking") (Some "book_001") true "2023-05-01T12:00:00Z";
    Notification.mk "not_003" "user_003" "booking_request" "New Booking Request"
      "You have a new booking request for Traditional House in Benghazi"
      (Some "booking") (Some "book_002") false "2023-05-15T10:00:00Z" ].

Definition seed : database :=
  mkdb seed_users seed_properties seed_property_availability seed_bookings
       seed_conversations seed_reviews seed_notifications.

Definition ahmed : User.t := User.mk "user_001" "ahmed.ali@example.com" "Ahmed Ali" "host".
Definition sara : User.t := User.mk "user_002" "sara.mohamed@example.com" "Sara Mohamed" "guest".
Definition mariam : User.t := User.mk "user_004" "mariam.essa@example.com" "Mariam Essa" "guest".

(** A sample [ILIKE] for ASCII text: letters are folded to lower case,
    [%] stands for any run of characters and [_] for any one. *)
Definition lower (c : ascii) : ascii :=
  let n := nat_of_ascii c in
  if ((65 <=? n) && (n <=? 90))%nat then ascii_of_nat (n + 32) else c.

Fixpoint like (pattern s : string) : bool :=
  match pattern with
  | EmptyString => match s with EmptyString => true | String _ _ => false end
  | String c pattern' =>
      if Ascii.eqb c "%"
      then (fix any (s : string) : bool :=
              like pattern' s
              || match s with
                 | EmptyString => false
                 | String _ s' => any s'
                 end) s
      else match s with
           | EmptyString => false
           | String x s' =>
               (Ascii.eqb c "_" || Ascii.eqb (lower c) (lower x)) && like pattern' s'
           end
  end.

Definition ilike_ascii (s pattern : string) : bool := like pattern s.

(** A sample [coerce_date] for a server in UTC: a string of ten characters
    is taken for a calendar date and stored as its midnight. *)
Definition coerce_date_utc (v : json) : option string :=
  match v with
  | JStr s => if Nat.eqb (String.length s) 10 then Some (s ++ "T00:00:00.000+00:00") else None
  | _ => None
  end.

(** [prop_002] and the seed store after the property was soft-deleted
    ([UPDATE properties SET is_active = false]). *)
Definition delisted_property : Property.t :=
  Property.mk "prop_002" "user_001" "Cozy Studio near Beach" "Tripoli"
    (Some "Al-Mahatta") "studio" 2
    (Some "WiFi,Air Conditioning,Kitchen,TV") 80%Q false
    "2023-01-25T10:00:00Z".

Definition seed_delisted : database :=
  mkdb seed_users [prop_001; delisted_property; prop_003]
       seed_property_availability seed_bookings seed_conversations seed_reviews
       seed_notifications.







(** ** The server as a machine on the store

    The mutating requests modelled here, each with what the runtime
    generated while it was served.  No other route of [server.ts] writes to
    [bookings], [reviews] or [property_availability]. *)
Inductive request : Type :=
| SetAvailability (user : User.t) (property_id : string) (body : object)
    (nanoid : string)
| CreateBooking (user : User.t) (body : object)
    (nanoid_booking nanoid_conversation nanoid_notification now : string)
| UpdateBooking (user : User.t) (booking_id : string) (body : object)
    (now_update nanoid now : string)
| CreateReview (user : User.t) (booking_id : string) (body : object)
    (nanoid_review nanoid_notification now : string).

Definition serve (coerce_date : json -> option string) (r : request) (d : database)
  : database :=
  match r with
  | SetAvailability user property_id body nanoid =>
      snd (set_availability coerce_date user property_id body nanoid d)
  | CreateBooking user body n1 n2 n3 now =>
      snd (create_booking coerce_date user body n1 n2 n3 now d)
  | UpdateBooking user booking_id body now_update nanoid now =>
      snd (update_booking coerce_date user booking_id body now_update nanoid now d)
  | CreateReview user booking_id body n1 n2 now =>
      snd (create_review user booking_id body n1 n2 now d)
  end.

(** The requests of [l] served one after another, each answered before
    the next one begins.  What two requests can do when the second begins
    before the first is answered is in [overlap] below, for the creation of
    reviews. *)
Definition serve_all (coerce_date : json -> option string) (l : list request)
  (d : database) : database :=
  fold_left (fun d r => serve coerce_date r d) l d.

(** At most one review per booking. *)
Definition one_review_per_booking (d : database) : Prop :=
  forall booking_id,
    (List.length (select_reviews_of_booking d booking_id) <= 1)%nat.

(** ** Review creation, statement by statement

    [create_review] is the handler of [POST /api/bookings/:booking_id/reviews]
    from its first line to its answer.  The handler awaits four statements,
    and while it waits the server runs the handlers of other requests; a
    statement is run by PostgreSQL as a whole, and so is the code of the
    handler between two [await]s.  [create_review_step] runs the statement
    a request waits for and then the handler up to its next [await];
    [review_creation] is the statement waited for, with what the handler
    holds in [booking] and [newReview]. *)

Record review_request : Type := mk_review_request
  { caller : User.t;
    reviewed_booking : string;
    review_body : object;
    review_nanoid : string;
    review_notification_nanoid : string;
    review_now : string }.

Inductive review_creation : Type :=
| SelectBooking
| SelectExistingReview (booking : Booking.t)
| InsertReview (booking : Booking.t) (newReview : Review.t)
| InsertNotification (booking : Booking.t) (newReview : Review.t)
| Answered (r : response Review.t).

Definition create_review_step (rq : review_request) (waits_for : review_creation)
  (d : database) : review_creation * database :=
  let user := caller rq in
  let booking_id := reviewed_booking rq in
  match waits_for with
  | SelectBooking =>
      match select_booking d booking_id with
      | None =>
          (Answered (ErrorResponse 404 "Booking not found" "BOOKING_NOT_FOUND"), d)
      | Some booking =>
          if negb (String.eqb (Booking.guest_id booking) (User.user_id user))
          then (Answered (ErrorResponse 403 "Forbidden: Only guests can review bookings"
                            "FORBIDDEN_ACCESS"), d)
          else if negb (booking_status_eqb (Booking.status booking) completed)
          then (Answered (ErrorResponse 400
                            "Cannot review booking that is not completed"
                            "BOOKING_NOT_COMPLETED"), d)
          else (SelectExistingReview booking, d)
      end
  | SelectExistingReview booking =>
      if (0 <? List.length (select_reviews_of_booking d booking_id))%nat
      then (Answered (ErrorResponse 400 "Review already exists for this booking"
                        "REVIEW_ALREADY_EXISTS"), d)
      else
        match createReviewInputSchema
                (spread_with
                   (spread_with
                      (spread_with
                         (spread_with (review_body rq) "booking_id" (JStr booking_id))
                         "property_id" (JStr (Booking.property_id booking)))
                      "reviewer_id" (JStr (User.user_id user)))
                   "host_id" (JStr (Booking.host_id booking))) with
        | None => (Answered (catch ZodError), d)
        | Some reviewData =>
            (InsertReview booking
               (Review.mk ("rev_" ++ review_nanoid rq) booking_id
                  (CreateReviewInput.property_id reviewData)
                  (CreateReviewInput.reviewer_id reviewData)
                  (CreateReviewInput.host_id reviewData)
                  (CreateReviewInput.cleanliness_rating reviewData)
                  (CreateReviewInput.accuracy_rating reviewData)
                  (CreateReviewInput.communication_rating reviewData)
                  (CreateReviewInput.location_rating reviewData)
                  (CreateReviewInput.check_in_rating reviewData)
                  (CreateReviewInput.value_rating reviewData)
                  (CreateReviewInput.overall_rating reviewData)
                  (to_sql (CreateReviewInput.comment reviewData))
                  (review_now rq) (review_now rq)), d)
        end
  | InsertReview booking newReview =>
      match insert_review newReview d with
      | inl e => (Answered (catch e), d)
      | inr d' => (InsertNotification booking newReview, d')
      end
  | InsertNotification booking newReview =>
      match insert_notification
              (Notification.mk ("not_" ++ review_notification_nanoid rq)
                 (Booking.host_id booking) "review_received" "New Review"
                 ("You received a new review from " ++ User.name user)
                 (Some "review") (Some (Review.review_id newReview)) false
                 (review_now rq)) d with
      | inl e => (Answered (catch e), d)
      | inr d' => (Answered (Json 201 newReview), d')
      end
  | Answered r => (Answered r, d)
  end.

(** [n] statements of one request in a row. *)
Fixpoint create_review_steps (n : nat) (rq : review_request)
  (waits_for : review_creation) (d : database) : review_creation * database :=
  match n with
  | O => (waits_for, d)
  | S n' =>
      let (next, d') := create_review_step rq waits_for d in
      create_review_steps n' rq next d'
  end.

(** Two requests whose statements reach the database in the order
    [schedule]: at each turn the statement of the one or of the other runs. *)
Inductive turn : Type := First | Second.

Fixpoint interleave {A B : Type} (step_a : A -> database -> A * database)
  (step_b : B -> database -> B * database) (schedule : list turn)
  (a_waits_for : A) (b_waits_for : B) (d : database) : A * B * database :=
  match schedule with
  | [] => (a_waits_for, b_waits_for, d)
  | First :: rest =>
      let (next, d') := step_a a_waits_for d in
      interleave step_a step_b rest next b_waits_for d'
  | Second :: rest =>
      let (next, d') := step_b b_waits_for d in
      interleave step_a step_b rest a_waits_for next d'
  end.

(** Two review creations that overlap. *)
Definition overlap (schedule : list turn) (a b : review_request)
  : review_creation -> review_creation -> database
    -> review_creation * review_creation * database :=
  interleave (create_review_step a) (create_review_step b) schedule.

(** C4 as stated, "at most one review ever exists", for two attempts
    whatever the order of their statements: no booking has two reviews at
    the end. *)
Definition one_review_per_booking_ever : Prop :=
  forall (d : database) (a b : review_request) (schedule : list turn),
    one_review_per_booking d ->
    one_review_per_booking (snd (overlap schedule a b SelectBooking SelectBooking d)).

(** Every conversation belongs to a booking of the store (the foreign key
    of [conversations.booking_id]). *)
Definition conversations_reference_bookings (d : database) : Prop :=
  forall c, In c (conversations d) ->
            select_booking d (Conversation.booking_id c) <> None.

(** [PRIMARY KEY (property_id)] *)
Definition property_ids_unique (d : database) : Prop :=
  NoDup (map Property.property_id (properties d)).

(** The edges of the state machine of the specification:
    pending to confirmed, declined or cancelled; confirmed to cancelled or
    completed. *)
Definition specified_edge (a b : booking_status) : bool :=
  match a, b with
  | pending, confirmed | pending, declined | pending, cancelled
  | confirmed, cancelled | confirmed, completed => true
  | _, _ => false
  end.

(** [PATCH /api/bookings/:booking_id] read as enforcing those edges: a
    request for a status that is no edge away is answered with a validation
    error and changes nothing. *)
Definition status_machine_enforced (coerce_date : json -> option string) : Prop :=
  forall d user booking_id body now_update nanoid now b s,
    select_booking d booking_id = Some b ->
    Zod.enum booking_status_members (body "status") = Some s ->
    s <> Booking.status b ->
    specified_edge (Booking.status b) s = false ->
    exists message,
      update_booking coerce_date user booking_id body now_update nanoid now d
      = (ErrorResponse 400 message "VALIDATION_ERROR", d).

(** The same handler read as reserving the decision on a pending booking
    to its host and the admins: the guest who asks for [confirmed] or
    [declined] gets an error and changes nothing. *)
Definition decision_reserved_to_host (coerce_date : json -> option string) : Prop :=
  forall d user booking_id body now_update nanoid now b s,
    select_booking d booking_id = Some b ->
    Booking.status b = pending ->
    Booking.guest_id b = User.user_id user ->
    Booking.host_id b <> User.user_id user ->
    User.role user <> "admin" ->
    Zod.enum booking_status_members (body "status") = Some s ->
    s = confirmed \/ s = declined ->
    exists status message error_code,
      update_booking coerce_date user booking_id body now_update nanoid now d
      = (ErrorResponse status message error_code, d).


(** Request bodies and stores of the concrete runs. *)
Definition status_only (s : string) : object := object_of [("status", JStr s)].

Definition stay (property_id : string) : object :=
  object_of [ ("property_id", JStr property_id);
              ("check_in", JStr "2023-07-01");
              ("check_out", JStr "2023-07-05");
              ("guest_count", JNum 2%Q);
              ("total_price", JNum 500%Q);
              ("service_fee", JNum 50%Q) ].

Definition five_stars : object :=
  object_of [ ("cleanliness_rating", JNum 5%Q); ("accuracy_rating", JNum 5%Q);
              ("communication_rating", JNum 5%Q); ("location_rating", JNum 4%Q);
              ("check_in_rating", JNum 5%Q); ("value_rating", JNum 5%Q);
              ("overall_rating", JNum 5%Q);
              ("comment", JStr "Amazing stay! Highly recommended.") ].

(** The seed store once [book_002] has been marked completed. *)
Definition seed_completed : database :=
  snd (update_booking coerce_date_utc mariam "book_002" (status_only "completed")
         "2023-06-16T09:00:00.000Z" "a" "2023-06-16T09:00:00.000Z" seed).

(** Two review creations of [mariam] for [book_002], and an order of
    their statements in which each has looked for a review before the
    other inserts one. *)
Definition first_attempt : review_request :=
  mk_review_request mariam "book_002" five_stars "r" "n" "2023-06-20T10:00:00.000Z".

Definition second_attempt : review_request :=
  mk_review_request mariam "book_002" five_stars "r2" "n2" "2023-06-20T10:00:00.100Z".

Definition both_look_before_either_writes : list turn :=
  [First; First; Second; Second; First; First; Second; Second].

Definition houses_only : SearchParams.t :=
  SearchParams.mk None None None None None None (Some "house") None None
    (Some 10) (Some 0).


(** [updateData] of a body that has [status] and nothing else. *)
Definition status_patch (booking_id : string) (s : booking_status)
  : UpdateBookingInput.t :=
  UpdateBookingInput.mk booking_id None None None None None None None None None
    (Some s).

(** The row after [SET status = s, updated_at = now]. *)
Definition with_status (s : booking_status) (now : string) (b : Booking.t) : Booking.t :=
  set_fields (status_patch (Booking.booking_id b) s) now b.

(** The body reassigns neither the property nor a party of the booking. *)
Definition keeps_parties (body : object) : Prop :=
  body "property_id" = None /\ body "guest_id" = None /\ body "host_id" = None.

(** The caller passes the access test of the handlers on a booking. *)
Definition party_or_admin (user : User.t) (b : Booking.t) : Prop :=
  User.role user = "admin"
  \/ Booking.guest_id b = User.user_id user
  \/ Booking.host_id b = User.user_id user.

(** The notification of a status change can be inserted: its id is new
    and the two parties of the booking are rows of [users]. *)
Definition notification_insertable (d : database) (nanoid : string) (b : Booking.t)
  : Prop :=
  existsb (fun x => String.eqb (Notification.notification_id x) ("not_" ++ nanoid))
          (notifications d) = false
  /\ user_exists d (Booking.guest_id b) = true
  /\ user_exists d (Booking.host_id b) = true.

(** ** The other routes of [server.ts] on these tables *)

(** [... LIMIT $l OFFSET $o] on the rows a query selected and ordered:
    PostgreSQL rejects a [NaN], a number outside 64 bits and a negative
    row count. *)
Definition limit_offset {A : Type} (limit offset : option Z) (rows : list A)
  : exn + list A :=
  match limit, offset with
  | Some l, Some o =>
      if negb (fits_bigint l && fits_bigint o) then inl numeric_value_out_of_range
      else if l <? 0 then inl invalid_row_count_in_limit
      else if o <? 0 then inl invalid_row_count_in_offset
      else inr (firstn (Z.to_nat l) (skipn (Z.to_nat o) rows))
  | _, _ => inl invalid_text_representation
  end.

(** The [catch] block of the routes that parse nothing. *)
Definition internal_server_error {A : Type} : response A :=
  ErrorResponse 500 "Internal server error" "INTERNAL_SERVER_ERROR".

(** *** [authenticateToken] *)

(** The two fields of the decoded token the middleware reads. *)
Module JwtPayload.
Record t : Type := mk
    { user_id : option string;
      userId : option string }.
End JwtPayload.

(** [next()] with [req.user] set, or the answer of the middleware. *)
Inductive authentication : Type :=
| Authenticated (user : User.t)
| Rejected (status : nat) (message : string) (error_code : string).

(** [s.split(sep)] for a separator of one character. *)
Fixpoint split (sep : ascii) (s : string) : list string :=
  match s with
  | EmptyString => [EmptyString]
  | String c s' =>
      if Ascii.eqb c sep then EmptyString :: split sep s'
      else match split sep s' with
           | w :: ws => String c w :: ws
           | [] => [String c EmptyString]
           end
  end.

(** [authHeader && authHeader.split(' ')[1]] *)
Definition token_of (authHeader : option string) : option string :=
  match authHeader with
  | Some h => if String.eqb h "" then Some "" else nth_error (split " " h) 1
  | None => None
  end.

(** [a || b] on two optional strings. *)
Definition or_else (a b : option string) : option string :=
  if truthy_string a then a else b.

(** [SELECT user_id, email, name, role, created_at FROM users WHERE user_id = $1];
    an [undefined] parameter is sent as [NULL] and matches no row. *)
Definition select_user (d : database) (id : option string) : option User.t :=
  match id with
  | Some id => find (fun u => String.eqb (User.user_id u) id) (users d)
  | None => None
  end.

Section Authentication.

(** [jwt.verify(token, JWT_SECRET)]: the payload, or [None] when it throws. *)
Variable verify : string -> option JwtPayload.t.

Definition authenticateToken (d : database) (authorization : option string)
  : authentication :=
  let token := token_of authorization in
  if negb (truthy_string token)
  then Rejected 401 "Access token required" "AUTH_TOKEN_MISSING"
  else
    match token with
    | Some token =>
        match verify token with
        | Some decoded =>
            let userId := or_else (JwtPayload.user_id decoded)
                                  (JwtPayload.userId decoded) in
            match select_user d userId with
            | None => Rejected 401 "Invalid token" "AUTH_TOKEN_INVALID"
            | Some user => Authenticated user
            end
        | None => Rejected 403 "Invalid or expired token" "AUTH_TOKEN_INVALID"
        end
    | None => Rejected 401 "Access token required" "AUTH_TOKEN_MISSING"
    end.

(** A route behind the middleware: [app.x(path, authenticateToken, handler)]. *)
Definition authenticated {A : Type}
  (handler : User.t -> database -> response A * database)
  (authorization : option string) (d : database) : response A * database :=
  match authenticateToken d authorization with
  | Authenticated user => handler user d
  | Rejected status message error_code =>
      (ErrorResponse status message error_code, d)
  end.

End Authentication.

(** *** Property listings: [DELETE] and [PATCH /api/properties/:property_id] *)

Definition set_properties (d : database) l : database :=
  mkdb (users d) l (property_availability d) (bookings d) (conversations d)
       (reviews d) (notifications d).

Definition with_is_active (a : bool) (p : Property.t) : Property.t :=
  Property.mk (Property.property_id p) (Property.host_id p) (Property.title p)
    (Property.city p) (Property.neighborhood p) (Property.property_type p)
    (Property.guest_capacity p) (Property.amenities p)
    (Property.base_price_per_night p) a (Property.created_at p).

(** [UPDATE properties SET is_active = false, updated_at = $1
     WHERE property_id = $2]; [updated_at] is not among the columns kept. *)
Definition delete_from_search (property_id : string) (d : database) : exn + database :=
  inr (set_properties d
         (map (fun p => if String.eqb (Property.property_id p) property_id
                        then with_is_active false p else p)
              (properties d))).

(** [DELETE /api/properties/:property_id]: answers 204 with no body. *)
Definition delete_property (user : User.t) (property_id : string)
  : database -> response unit * database :=
  run (
    ownerCheck <- query (fun d => select_property d property_id) ;;
    match ownerCheck with
    | None => reply (ErrorResponse 404 "Property not found" "PROPERTY_NOT_FOUND")
    | Some p =>
        reply_if (not_owner_nor_admin user (Property.host_id p))
          (ErrorResponse 403 "Forbidden: Cannot delete other user properties"
             "FORBIDDEN_ACCESS") ;;
        exec (delete_from_search property_id) ;;
        ret (Json 204 tt)
    end).

(** [z.number()] *)
Definition number : Zod.validator Q :=
  fun v => match v with Some (JNum q) => Some q | _ => None end.

(** [z.number().int().nonnegative()] *)
Definition int_nonnegative : Zod.validator Z :=
  fun v =>
    match v with
    | Some (JNum q) =>
        if Zod.is_int q && (0 <=? Zod.to_int q) then Some (Zod.to_int q) else None
    | _ => None
    end.

Definition cancellation_policies : list (string * string) :=
  [("flexible", "flexible"); ("moderate", "moderate"); ("strict", "strict")].

Module UpdatePropertyInput.
Record t : Type := mk
    { property_id : string;
      host_id : option string;
      title : option string;
      description : option string;
      city : option string;
      neighborhood : option (option string);
      address : option (option string);
      latitude : option (option Q);
      longitude : option (option Q);
      property_type : option string;
      guest_capacity : option Z;
      bedrooms : option Z;
      beds : option Z;
      bathrooms : option Z;
      amenities : option (option string);
      base_price_per_night : option Q;
      currency : option string;
      has_power_backup : option bool;
      has_water_tank : option bool;
      house_rules : option (option string);
      cancellation_policy : option string;
      instant_book : option bool;
      is_active : option bool }.
End UpdatePropertyInput.

Definition updatePropertyInputSchema (o : object) : option UpdatePropertyInput.t :=
  match Zod.string_ 0 None (o "property_id"),
        Zod.optional (Zod.string_ 0 None) (o "host_id"),
        Zod.optional (Zod.string_ 1 (Some 200%nat)) (o "title"),
        Zod.optional (Zod.string_ 1 (Some 2000%nat)) (o "description"),
        Zod.optional (Zod.string_ 1 (Some 100%nat)) (o "city"),
        Zod.optional (Zod.nullable (Zod.string_ 0 (Some 100%nat))) (o "neighborhood"),
        Zod.optional (Zod.nullable (Zod.string_ 0 (Some 255%nat))) (o "address"),
        Zod.optional (Zod.nullable number) (o "latitude"),
        Zod.optional (Zod.nullable number) (o "longitude"),
        Zod.optional (Zod.string_ 1 (Some 50%nat)) (o "property_type"),
        Zod.optional Zod.int_positive (o "guest_capacity"),
        Zod.optional int_nonnegative (o "bedrooms") with
  | Some pid, Some h, Some ti, Some de, Some ci, Some ne, Some ad, Some la, Some lo,
    Some pt, Some gc, Some be =>
      match Zod.optional Zod.int_positive (o "beds"),
            Zod.optional Zod.int_positive (o "bathrooms"),
            Zod.optional (Zod.nullable (Zod.string_ 0 (Some 1000%nat))) (o "amenities"),
            Zod.optional Zod.positive_ (o "base_price_per_night"),
            Zod.optional (Zod.string_ 3 (Some 3%nat)) (o "currency"),
            Zod.optional Zod.boolean (o "has_power_backup"),
            Zod.optional Zod.boolean (o "has_water_tank"),
            Zod.optional (Zod.nullable (Zod.string_ 0 (Some 1000%nat))) (o "house_rules"),
            Zod.optional (Zod.enum cancellation_policies) (o "cancellation_policy"),
            Zod.optional Zod.boolean (o "instant_book"),
            Zod.optional Zod.boolean (o "is_active") with
      | Some bs, Some ba, Some am, Some pr, Some cu, Some pb, Some wt, Some hr,
        Some cp, Some ib, Some ia =>
          Some (UpdatePropertyInput.mk pid h ti de ci ne ad la lo pt gc be bs ba am
                  pr cu pb wt hr cp ib ia)
      | _, _, _, _, _, _, _, _, _, _, _ => None
      end
  | _, _, _, _, _, _, _, _, _, _, _, _ => None
  end.

(** The length of [updateFields]: the entries of [updateData] other than
    [property_id] whose value is not [undefined]. *)
Definition updatePropertyFields (u : UpdatePropertyInput.t) : nat :=
  (present (UpdatePropertyInput.host_id u)
   + present (UpdatePropertyInput.title u)
   + present (UpdatePropertyInput.description u)
   + present (UpdatePropertyInput.city u)
   + present (UpdatePropertyInput.neighborhood u)
   + present (UpdatePropertyInput.address u)
   + present (UpdatePropertyInput.latitude u)
   + present (UpdatePropertyInput.longitude u)
   + present (UpdatePropertyInput.property_type u)
   + present (UpdatePropertyInput.guest_capacity u)
   + present (UpdatePropertyInput.bedrooms u)
   + present (UpdatePropertyInput.beds u)
   + present (UpdatePropertyInput.bathrooms u)
   + present (UpdatePropertyInput.amenities u)
   + present (UpdatePropertyInput.base_price_per_night u)
   + present (UpdatePropertyInput.currency u)
   + present (UpdatePropertyInput.has_power_backup u)
   + present (UpdatePropertyInput.has_water_tank u)
   + present (UpdatePropertyInput.house_rules u)
   + present (UpdatePropertyInput.cancellation_policy u)
   + present (UpdatePropertyInput.instant_book u)
   + present (UpdatePropertyInput.is_active u))%nat.

(** [SET k1 = $1, ...] on one row, on the columns kept. *)
Definition set_property_fields (u : UpdatePropertyInput.t) (p : Property.t)
  : Property.t :=
  Property.mk
    (Property.property_id p)
    (or_keep (UpdatePropertyInput.host_id u) (Property.host_id p))
    (or_keep (UpdatePropertyInput.title u) (Property.title p))
    (or_keep (UpdatePropertyInput.city u) (Property.city p))
    (or_keep (UpdatePropertyInput.neighborhood u) (Property.neighborhood p))
    (or_keep (UpdatePropertyInput.property_type u) (Property.property_type p))
    (or_keep (UpdatePropertyInput.guest_capacity u) (Property.guest_capacity p))
    (or_keep (UpdatePropertyInput.amenities u) (Property.amenities p))
    (or_keep (UpdatePropertyInput.base_price_per_night u)
       (Property.base_price_per_night p))
    (or_keep (UpdatePropertyInput.is_active u) (Property.is_active p))
    (Property.created_at p).

(** The values of an update that are tested against their column. *)
Definition property_update_fits_integer (u : UpdatePropertyInput.t) : bool :=
  if_given fits_integer (UpdatePropertyInput.guest_capacity u)
  && if_given fits_integer (UpdatePropertyInput.bedrooms u)
  && if_given fits_integer (UpdatePropertyInput.beds u)
  && if_given fits_integer (UpdatePropertyInput.bathrooms u).

Definition property_update_fits_text (u : UpdatePropertyInput.t) : bool :=
  if_given fits_text (UpdatePropertyInput.title u)
  && if_given fits_text (UpdatePropertyInput.description u)
  && if_given fits_text (UpdatePropertyInput.city u)
  && if_given (if_given fits_text) (UpdatePropertyInput.neighborhood u)
  && if_given (if_given fits_text) (UpdatePropertyInput.address u)
  && if_given fits_text (UpdatePropertyInput.property_type u)
  && if_given (if_given fits_text) (UpdatePropertyInput.amenities u)
  && if_given fits_text (UpdatePropertyInput.currency u)
  && if_given (if_given fits_text) (UpdatePropertyInput.house_rules u).

(** [UPDATE properties SET ... WHERE property_id = $id RETURNING *]; the
    foreign key of [host_id] is checked on the rows whose host changes. *)
Definition update_properties (property_id : string) (u : UpdatePropertyInput.t)
  (d : database) : exn + (list Property.t * database) :=
  let hit := fun p => String.eqb (Property.property_id p) property_id in
  if negb (property_update_fits_integer u) then inl numeric_value_out_of_range
  else if negb (property_update_fits_text u) then inl character_not_in_repertoire
  else if forallb (fun p => changed_key_ok (UpdatePropertyInput.host_id u)
                         (Property.host_id p) (user_exists d))
             (filter hit (properties d))
  then inr (map (set_property_fields u) (filter hit (properties d)),
            set_properties d
              (map (fun p => if hit p then set_property_fields u p else p)
                   (properties d)))
  else inl foreign_key_violation.

(** [PATCH /api/properties/:property_id] *)
Definition update_property (user : User.t) (property_id : string) (body : object)
  : database -> response (option Property.t) * database :=
  run (
    ownerCheck <- query (fun d => select_property d property_id) ;;
    match ownerCheck with
    | None => reply (ErrorResponse 404 "Property not found" "PROPERTY_NOT_FOUND")
    | Some p =>
        reply_if (not_owner_nor_admin user (Property.host_id p))
          (ErrorResponse 403 "Forbidden: Cannot update other user properties"
             "FORBIDDEN_ACCESS") ;;
        updateData <-
          parse (updatePropertyInputSchema
                   (spread_with body "property_id" (JStr property_id))) ;;
        reply_if (Nat.eqb (updatePropertyFields updateData) 0)
          (ErrorResponse 400 "No valid fields to update" "NO_UPDATE_FIELDS") ;;
        rows <- exec_returning (update_properties property_id updateData) ;;
        ret (Json 200 (hd_error rows))
    end).

(** *** Property creation: [POST /api/properties] *)

Module CreatePropertyInput.
Record t : Type := mk
    { host_id : string;
      title : string;
      description : string;
      city : string;
      neighborhood : option (option string);
      address : option (option string);
      latitude : option (option Q);
      longitude : option (option Q);
      property_type : string;
      guest_capacity : Z;
      bedrooms : Z;
      beds : Z;
      bathrooms : Z;
      amenities : option (option string);
      base_price_per_night : Q;
      currency : string;
      has_power_backup : bool;
      has_water_tank : bool;
      house_rules : option (option string);
      cancellation_policy : string;
      instant_book : bool;
      is_active : bool }.
End CreatePropertyInput.

Definition createPropertyInputSchema (o : object) : option CreatePropertyInput.t :=
  match Zod.string_ 1 None (o "host_id"),
        Zod.string_ 1 (Some 200%nat) (o "title"),
        Zod.string_ 1 (Some 2000%nat) (o "description"),
        Zod.string_ 1 (Some 100%nat) (o "city"),
        Zod.optional (Zod.nullable (Zod.string_ 0 (Some 100%nat))) (o "neighborhood"),
        Zod.optional (Zod.nullable (Zod.string_ 0 (Some 255%nat))) (o "address"),
        Zod.optional (Zod.nullable number) (o "latitude"),
        Zod.optional (Zod.nullable number) (o "longitude"),
        Zod.string_ 1 (Some 50%nat) (o "property_type"),
        Zod.int_positive (o "guest_capacity"),
        int_nonnegative (o "bedrooms") with
  | Some h, Some ti, Some de, Some ci, Some ne, Some ad, Some la, Some lo, Some pt,
    Some gc, Some be =>
      match Zod.int_positive (o "beds"),
            Zod.int_positive (o "bathrooms"),
            Zod.optional (Zod.nullable (Zod.string_ 0 (Some 1000%nat))) (o "amenities"),
            Zod.positive_ (o "base_price_per_night"),
            Zod.default "LYD" (Zod.string_ 3 (Some 3%nat)) (o "currency"),
            Zod.default false Zod.boolean (o "has_power_backup"),
            Zod.default false Zod.boolean (o "has_water_tank"),
            Zod.optional (Zod.nullable (Zod.string_ 0 (Some 1000%nat))) (o "house_rules"),
            Zod.enum cancellation_policies (o "cancellation_policy"),
            Zod.default false Zod.boolean (o "instant_book"),
            Zod.default true Zod.boolean (o "is_active") with
      | Some bs, Some ba, Some am, Some pr, Some cu, Some pb, Some wt, Some hr,
        Some cp, Some ib, Some ia =>
          Some (CreatePropertyInput.mk h ti de ci ne ad la lo pt gc be bs ba am pr
                  cu pb wt hr cp ib ia)
      | _, _, _, _, _, _, _, _, _, _, _ => None
      end
  | _, _, _, _, _, _, _, _, _, _, _ => None
  end.

(** The values of a new property that are tested against their column,
    the columns left out of [Property.t] included. *)
Definition property_fits_integer (data : CreatePropertyInput.t) : bool :=
  fits_integer (CreatePropertyInput.guest_capacity data)
  && fits_integer (CreatePropertyInput.bedrooms data)
  && fits_integer (CreatePropertyInput.beds data)
  && fits_integer (CreatePropertyInput.bathrooms data).

Definition property_fits_text (data : CreatePropertyInput.t) : bool :=
  fits_text (CreatePropertyInput.title data)
  && fits_text (CreatePropertyInput.description data)
  && fits_text (CreatePropertyInput.city data)
  && if_given fits_text (to_sql (CreatePropertyInput.neighborhood data))
  && if_given fits_text (to_sql (CreatePropertyInput.address data))
  && fits_text (CreatePropertyInput.property_type data)
  && if_given fits_text (to_sql (CreatePropertyInput.amenities data))
  && fits_text (CreatePropertyInput.currency data)
  && if_given fits_text (to_sql (CreatePropertyInput.house_rules data)).

(** [INSERT INTO properties ...] of the values [data], [p] on the columns
    kept: the values of the body, the primary key, then the foreign key
    of [host_id]. *)
Definition insert_property (data : CreatePropertyInput.t) (p : Property.t)
  (d : database) : exn + database :=
  if negb (property_fits_integer data) then inl numeric_value_out_of_range
  else if negb (property_fits_text data) then inl character_not_in_repertoire
  else if existsb (fun x => String.eqb (Property.property_id x) (Property.property_id p))
             (properties d)
  then inl unique_violation
  else if user_exists d (Property.host_id p)
       then inr (set_properties d (properties d ++ [p]))
       else inl foreign_key_violation.

(** [POST /api/properties]; the row is answered on the columns kept. *)
Definition create_property (user : User.t) (body : object) (nanoid now : string)
  : database -> response Property.t * database :=
  run (
    propertyData <-
      parse (createPropertyInputSchema
               (spread_with body "host_id" (JStr (User.user_id user)))) ;;
    let newProperty :=
      Property.mk ("prop_" ++ nanoid)
        (CreatePropertyInput.host_id propertyData)
        (CreatePropertyInput.title propertyData)
        (CreatePropertyInput.city propertyData)
        (to_sql (CreatePropertyInput.neighborhood propertyData))
        (CreatePropertyInput.property_type propertyData)
        (CreatePropertyInput.guest_capacity propertyData)
        (to_sql (CreatePropertyInput.amenities propertyData))
        (CreatePropertyInput.base_price_per_night propertyData)
        (CreatePropertyInput.is_active propertyData)
        now in
    exec (insert_property propertyData newProperty) ;;
    ret (Json 201 newProperty)).

(** [GET /api/users/:user_id/listings] *)
Definition get_user_listings (d : database) (user_id : string)
  : response (list Property.t) :=
  Json 200
    (order_by created_at_desc
       (filter (fun p => String.eqb (Property.host_id p) user_id) (properties d))).

(** *** Reading reviews: [GET /api/properties/:property_id/reviews],
    [GET /api/users/:user_id/reviews] *)

Definition review_created_at_desc (a b : Review.t) : bool :=
  String.leb (Review.created_at b) (Review.created_at a).

Definition get_property_reviews (d : database) (property_id : string)
  : response (list Review.t) :=
  Json 200
    (order_by review_created_at_desc
       (filter (fun r => String.eqb (Review.property_id r) property_id) (reviews d))).

Definition get_user_reviews (d : database) (user_id : string)
  : response (list Review.t) :=
  Json 200
    (order_by review_created_at_desc
       (filter (fun r => String.eqb (Review.reviewer_id r) user_id
                         || String.eqb (Review.host_id r) user_id)
               (reviews d))).

(** *** Availability calendar: [GET /api/properties/:property_id/availability] *)



(** *** Reading bookings: [GET /api/bookings/:booking_id], [GET /api/bookings],
    [GET /api/users/:user_id/bookings] *)

(** The text of a status in [bookings.status]. *)
Definition status_name (s : booking_status) : string :=
  match s with
  | pending => "pending"
  | confirmed => "confirmed"
  | declined => "declined"
  | cancelled => "cancelled"
  | completed => "completed"
  end.

Definition get_booking (user : User.t) (d : database) (booking_id : string)
  : response Booking.t :=
  match select_booking d booking_id with
  | None => ErrorResponse 404 "Booking not found" "BOOKING_NOT_FOUND"
  | Some booking =>
      if not_party_nor_admin user booking
      then ErrorResponse 403 "Forbidden: Cannot access other user bookings"
             "FORBIDDEN_ACCESS"
      else Json 200 booking
  end.

(** [bookingParams], the query after its coercion. *)
Module BookingParams.
Record t : Type := mk
    { property_id : option string;
      guest_id : option string;
      host_id : option string;
      status : option string;
      start_date : option string;
      end_date : option string;
      limit : option Z;
      offset : option Z }.
End BookingParams.

Record bookings_response : Type := mk_bookings_response
  { response_bookings : list Booking.t;
    bookings_total_count : Z }.

(** [col = $n], appended when the parameter is truthy. *)
Definition equals_if_given (param : option string) (col : string) : bool :=
  match param with
  | Some v => if truthy_string (Some v) then String.eqb col v else true
  | None => true
  end.

(** The conjuncts appended to [SELECT * FROM bookings WHERE 1=1]. *)
Definition bookings_where (user : User.t) (q : BookingParams.t) (b : Booking.t) : bool :=
  (if negb (String.eqb (User.role user) "admin")
   then String.eqb (Booking.guest_id b) (User.user_id user)
        || String.eqb (Booking.host_id b) (User.user_id user)
   else true)
  && equals_if_given (BookingParams.property_id q) (Booking.property_id b)
  && equals_if_given (BookingParams.guest_id q) (Booking.guest_id b)
  && equals_if_given (BookingParams.host_id q) (Booking.host_id b)
  && equals_if_given (BookingParams.status q) (status_name (Booking.status b))
  && match BookingParams.start_date q, BookingParams.end_date q with
     | Some a, Some z =>
         if truthy_string (Some a) && truthy_string (Some z)
         then String.leb a (Booking.check_in b) && String.leb (Booking.check_in b) z
         else true
     | _, _ => true
     end.

Definition booking_created_at_desc (a b : Booking.t) : bool :=
  String.leb (Booking.created_at b) (Booking.created_at a).

(** [GET /api/bookings] *)
Definition search_bookings (user : User.t) (d : database) (q : BookingParams.t)
  : response bookings_response :=
  match limit_offset (BookingParams.limit q) (BookingParams.offset q)
          (order_by booking_created_at_desc
             (filter (bookings_where user q) (bookings d))) with
  | inr rows =>
      Json 200 (mk_bookings_response rows (Z.of_nat (List.length (bookings d))))
  | inl _ => internal_server_error
  end.

(** [GET /api/users/:user_id/bookings] *)
Definition get_user_bookings (user : User.t) (d : database) (user_id : string)
  (status : option string) : response (list Booking.t) :=
  if negb (String.eqb (User.user_id user) user_id)
     && negb (String.eqb (User.role user) "admin")
  then ErrorResponse 403 "Forbidden: Cannot access other user bookings"
         "FORBIDDEN_ACCESS"
  else Json 200
         (order_by booking_created_at_desc
            (filter (fun b =>
                       (String.eqb (Booking.guest_id b) user_id
                        || String.eqb (Booking.host_id b) user_id)
                       && equals_if_given status (status_name (Booking.status b)))
                    (bookings d))).

(** *** Conversations: [POST /api/conversations] *)

Module CreateConversationInput.
Record t : Type := mk
    { booking_id : string;
      guest_id : string;
      host_id : string }.
End CreateConversationInput.

Definition createConversationInputSchema (o : object)
  : option CreateConversationInput.t :=
  match Zod.string_ 1 None (o "booking_id"),
        Zod.string_ 1 None (o "guest_id"),
        Zod.string_ 1 None (o "host_id") with
  | Some b, Some g, Some h => Some (CreateConversationInput.mk b g h)
  | _, _, _ => None
  end.

(** The body of an answer: the [conversation_id] of the conversation that
    was there, or the row that was inserted. *)
Inductive conversation_body : Type :=
| ExistingConversation (conversation_id : string)
| NewConversation (c : Conversation.t).

(** [SELECT conversation_id FROM conversations WHERE booking_id = $1] *)
Definition select_conversations_of_booking (d : database) (booking_id : string)
  : list Conversation.t :=
  filter (fun c => String.eqb (Conversation.booking_id c) booking_id) (conversations d).

(** [SELECT * FROM bookings WHERE booking_id = $1 AND (guest_id = $2 OR host_id = $2)] *)
Definition select_booking_of_party (d : database) (booking_id user_id : string)
  : list Booking.t :=
  filter (fun b => String.eqb (Booking.booking_id b) booking_id
                   && (String.eqb (Booking.guest_id b) user_id
                       || String.eqb (Booking.host_id b) user_id))
         (bookings d).

Definition create_conversation (user : User.t) (body : object) (nanoid now : string)
  : database -> response conversation_body * database :=
  run (
    conversationData <-
      parse (createConversationInputSchema
               (spread_with body "guest_id" (JStr (User.user_id user)))) ;;
    bookingCheck <-
      query (fun d => select_booking_of_party d
                        (CreateConversationInput.booking_id conversationData)
                        (User.user_id user)) ;;
    reply_if (Nat.eqb (List.length bookingCheck) 0)
      (ErrorResponse 404 "Booking not found or access denied" "BOOKING_NOT_FOUND") ;;
    existingConv <-
      query (fun d => select_conversations_of_booking d
                        (CreateConversationInput.booking_id conversationData)) ;;
    match existingConv with
    | c :: _ => reply (Json 200 (ExistingConversation (Conversation.conversation_id c)))
    | [] =>
        let newConversation :=
          Conversation.mk ("conv_" ++ nanoid)
            (CreateConversationInput.booking_id conversationData)
            (CreateConversationInput.guest_id conversationData)
            (CreateConversationInput.host_id conversationData)
            now now in
        exec (insert_conversation newConversation) ;;
        ret (Json 201 (NewConversation newConversation))
    end).

(** The same handler statement by statement, as [create_review_step] is
    for reviews: the body is parsed before the first [await], and three
    statements are awaited. *)
Record conversation_opening : Type := mk_conversation_opening
  { conversation_caller : User.t;
    conversation_request_body : object;
    conversation_nanoid : string;
    conversation_now : string }.

Inductive conversation_creation : Type :=
| SelectBookingOfParty (conversationData : CreateConversationInput.t)
| SelectExistingConversation (conversationData : CreateConversationInput.t)
| InsertConversation (newConversation : Conversation.t)
| ConversationAnswered (r : response conversation_body).

Definition create_conversation_begin (rq : conversation_opening)
  : conversation_creation :=
  match createConversationInputSchema
          (spread_with (conversation_request_body rq) "guest_id"
             (JStr (User.user_id (conversation_caller rq)))) with
  | None => ConversationAnswered (catch ZodError)
  | Some conversationData => SelectBookingOfParty conversationData
  end.

Definition create_conversation_step (rq : conversation_opening)
  (waits_for : conversation_creation) (d : database)
  : conversation_creation * database :=
  match waits_for with
  | SelectBookingOfParty conversationData =>
      if Nat.eqb (List.length
                    (select_booking_of_party d
                       (CreateConversationInput.booking_id conversationData)
                       (User.user_id (conversation_caller rq)))) 0
      then (ConversationAnswered
              (ErrorResponse 404 "Booking not found or access denied"
                 "BOOKING_NOT_FOUND"), d)
      else (SelectExistingConversation conversationData, d)
  | SelectExistingConversation conversationData =>
      match select_conversations_of_booking d
              (CreateConversationInput.booking_id conversationData) with
      | c :: _ =>
          (ConversationAnswered
             (Json 200 (ExistingConversation (Conversation.conversation_id c))), d)
      | [] =>
          (InsertConversation
             (Conversation.mk ("conv_" ++ conversation_nanoid rq)
                (CreateConversationInput.booking_id conversationData)
                (CreateConversationInput.guest_id conversationData)
                (CreateConversationInput.host_id conversationData)
                (conversation_now rq) (conversation_now rq)), d)
      end
  | InsertConversation newConversation =>
      match insert_conversation newConversation d with
      | inl e => (ConversationAnswered (catch e), d)
      | inr d' => (ConversationAnswered (Json 201 (NewConversation newConversation)), d')
      end
  | ConversationAnswered r => (ConversationAnswered r, d)
  end.

Fixpoint create_conversation_steps (n : nat) (rq : conversation_opening)
  (waits_for : conversation_creation) (d : database)
  : conversation_creation * database :=
  match n with
  | O => (waits_for, d)
  | S n' =>
      let (next, d') := create_conversation_step rq waits_for d in
      create_conversation_steps n' rq next d'
  end.

(** *** Notifications: [GET /api/notifications], [PATCH /api/notifications/:notification_id] *)

Definition notification_created_at_desc (a b : Notification.t) : bool :=
  String.leb (Notification.created_at b) (Notification.created_at a).

(** [is_read] is the raw query value: when it is given, the filter is
    [is_read = (is_read === 'true')]. *)
Definition notifications_where (user : User.t) (is_read : option string)
  (n : Notification.t) : bool :=
  String.eqb (Notification.user_id n) (User.user_id user)
  && match is_read with
     | Some v => Bool.eqb (Notification.is_read n) (String.eqb v "true")
     | None => true
     end.

Definition get_notifications (user : User.t) (d : database) (is_read : option string)
  (limit offset : option Z) : response (list Notification.t) :=
  match limit_offset limit offset
          (order_by notification_created_at_desc
             (filter (notifications_where user is_read) (notifications d))) with
  | inr rows => Json 200 rows
  | inl _ => internal_server_error
  end.

Module UpdateNotificationInput.
Record t : Type := mk
    { notification_id : string;
      user_id : option string;
      type : option string;
      title : option string;
      message : option string;
      related_entity_type : option (option string);
      related_entity_id : option (option string);
      is_read : option bool }.
End UpdateNotificationInput.

Definition updateNotificationInputSchema (o : object)
  : option UpdateNotificationInput.t :=
  match Zod.string_ 0 None (o "notification_id"),
        Zod.optional (Zod.string_ 0 None) (o "user_id"),
        Zod.optional (Zod.string_ 1 (Some 50%nat)) (o "type"),
        Zod.optional (Zod.string_ 1 (Some 200%nat)) (o "title"),
        Zod.optional (Zod.string_ 1 (Some 1000%nat)) (o "message"),
        Zod.optional (Zod.nullable (Zod.string_ 0 (Some 50%nat)))
          (o "related_entity_type"),
        Zod.optional (Zod.nullable (Zod.string_ 0 (Some 100%nat)))
          (o "related_entity_id"),
        Zod.optional Zod.boolean (o "is_read") with
  | Some n, Some u, Some ty, Some ti, Some me, Some rt, Some ri, Some ir =>
      Some (UpdateNotificationInput.mk n u ty ti me rt ri ir)
  | _, _, _, _, _, _, _, _ => None
  end.

Definition updateNotificationFields (u : UpdateNotificationInput.t) : nat :=
  (present (UpdateNotificationInput.user_id u)
   + present (UpdateNotificationInput.type u)
   + present (UpdateNotificationInput.title u)
   + present (UpdateNotificationInput.message u)
   + present (UpdateNotificationInput.related_entity_type u)
   + present (UpdateNotificationInput.related_entity_id u)
   + present (UpdateNotificationInput.is_read u))%nat.

Definition set_notification_fields (u : UpdateNotificationInput.t) (n : Notification.t)
  : Notification.t :=
  Notification.mk
    (Notification.notification_id n)
    (or_keep (UpdateNotificationInput.user_id u) (Notification.user_id n))
    (or_keep (UpdateNotificationInput.type u) (Notification.type n))
    (or_keep (UpdateNotificationInput.title u) (Notification.title n))
    (or_keep (UpdateNotificationInput.message u) (Notification.message n))
    (or_keep (UpdateNotificationInput.related_entity_type u)
       (Notification.related_entity_type n))
    (or_keep (UpdateNotificationInput.related_entity_id u)
       (Notification.related_entity_id n))
    (or_keep (UpdateNotificationInput.is_read u) (Notification.is_read n))
    (Notification.created_at n).

(** [SELECT user_id FROM notifications WHERE notification_id = $1], [rows[0]] *)
Definition select_notification (d : database) (id : string) : option Notification.t :=
  find (fun n => String.eqb (Notification.notification_id n) id) (notifications d).

Definition indeterminate_datatype : exn := PgError "42P18".

(** [UPDATE notifications SET k1 = $1, ..., kn = $n
     WHERE notification_id = $(paramCount + 1) RETURNING *] with the values
    [v1, ..., vn, notification_id].  After the loop [paramCount] is [n + 1];
    no [updated_at = $paramCount] is pushed here, as it is in the updates of
    bookings and of properties, so the statement names the parameter
    [$(n + 2)] and has [n + 1] values: PostgreSQL rejects it, [$(n + 1)]
    having no type.  A statement whose parameters are all among its values
    updates the rows and checks the foreign key of [user_id]. *)
Definition update_notifications (notification_id : string)
  (u : UpdateNotificationInput.t) (d : database)
  : exn + (list Notification.t * database) :=
  let paramCount := (1 + updateNotificationFields u)%nat in
  let updateValues := (updateNotificationFields u + 1)%nat in
  let hit := fun n => String.eqb (Notification.notification_id n) notification_id in
  if negb (paramCount + 1 <=? updateValues)%nat
  then inl indeterminate_datatype
  else if forallb (fun n => changed_key_ok (UpdateNotificationInput.user_id u)
                              (Notification.user_id n) (user_exists d))
                  (filter hit (notifications d))
  then inr (map (set_notification_fields u) (filter hit (notifications d)),
            set_notifications d
              (map (fun n => if hit n then set_notification_fields u n else n)
                   (notifications d)))
  else inl foreign_key_violation.

Definition update_notification (user : User.t) (notification_id : string)
  (body : object) : database -> response (option Notification.t) * database :=
  run (
    notificationCheck <- query (fun d => select_notification d notification_id) ;;
    match notificationCheck with
    | None =>
        reply (ErrorResponse 404 "Notification not found" "NOTIFICATION_NOT_FOUND")
    | Some n =>
        reply_if (not_owner_nor_admin user (Notification.user_id n))
          (ErrorResponse 403 "Forbidden: Cannot update other user notifications"
             "FORBIDDEN_ACCESS") ;;
        updateData <-
          parse (updateNotificationInputSchema
                   (spread_with body "notification_id" (JStr notification_id))) ;;
        reply_if (Nat.eqb (updateNotificationFields updateData) 0)
          (ErrorResponse 400 "No valid fields to update" "NO_UPDATE_FIELDS") ;;
        rows <- exec_returning (update_notifications notification_id updateData) ;;
        ret (Json 200 (hd_error rows))
    end).

(** *** The machine with these routes

    The requests of [request] and the other mutating requests embedded
    here.  The routes of [server.ts] left out are those of accounts, photos
    and messages: they write to [users] and to tables that are not in the
    store, and the sending of a message sets [updated_at] of its
    conversation. *)

Inductive request_on_store : Type :=
| Earlier (r : request)
| CreateProperty (user : User.t) (body : object) (nanoid now : string)
| DeleteProperty (user : User.t) (property_id : string)
| UpdateProperty (user : User.t) (property_id : string) (body : object)
| CreateConversation (user : User.t) (body : object) (nanoid now : string)
| UpdateNotification (user : User.t) (notification_id : string) (body : object).

Definition serve_on_store (coerce_date : json -> option string)
  (r : request_on_store) (d : database) : database :=
  match r with
  | Earlier r => serve coerce_date r d
  | CreateProperty user body nanoid now => snd (create_property user body nanoid now d)
  | DeleteProperty user property_id => snd (delete_property user property_id d)
  | UpdateProperty user property_id body =>
      snd (update_property user property_id body d)
  | CreateConversation user body nanoid now =>
      snd (create_conversation user body nanoid now d)
  | UpdateNotification user notification_id body =>
      snd (update_notification user notification_id body d)
  end.

Definition serve_all_on_store (coerce_date : json -> option string)
  (l : list request_on_store) (d : database) : database :=
  fold_left (fun d r => serve_on_store coerce_date r d) l d.

(** *** Readings of the answers *)

(** The rows are in the order [leb]: each one before its successor. *)
Definition ordered {A : Type} (leb : A -> A -> bool) (l : list A) : Prop :=
  Sorted (fun a b => leb a b = true) l.

Definition blank_to_none (s : option string) : option string :=
  if truthy_string s then s else None.

(** [q] without the filters the handler skips: an empty string, a zero,
    and the dates unless both are given. *)
Definition drop_blank (q : SearchParams.t) : SearchParams.t :=
  let dates := truthy_string (SearchParams.check_in q)
               && truthy_string (SearchParams.check_out q) in
  SearchParams.mk
    (blank_to_none (SearchParams.location q))
    (if dates then SearchParams.check_in q else None)
    (if dates then SearchParams.check_out q else None)
    (if truthy_Z (SearchParams.guests q) then SearchParams.guests q else None)
    (if truthy_Q (SearchParams.price_min q) then SearchParams.price_min q else None)
    (if truthy_Q (SearchParams.price_max q) then SearchParams.price_max q else None)
    (blank_to_none (SearchParams.property_type q))
    (blank_to_none (SearchParams.amenities q))
    (SearchParams.sort_by q) (SearchParams.limit q) (SearchParams.offset q).

Definition cheapest_first : SearchParams.t :=
  SearchParams.mk None None None None None None None None
    (Some "price_low_to_high") (Some 2) (Some 0).

(** The keys of a body that [PATCH /api/bookings/:booking_id],
    [PATCH /api/properties/:property_id] and
    [PATCH /api/notifications/:notification_id] can write. *)
Definition booking_columns : list string :=
  [ "property_id"; "guest_id"; "host_id"; "check_in"; "check_out"; "guest_count";
    "total_price"; "service_fee"; "special_requests"; "status" ].

Definition property_columns : list string :=
  [ "host_id"; "title"; "description"; "city"; "neighborhood"; "address";
    "latitude"; "longitude"; "property_type"; "guest_capacity"; "bedrooms";
    "beds"; "bathrooms"; "amenities"; "base_price_per_night"; "currency";
    "has_power_backup"; "has_water_tank"; "house_rules"; "cancellation_policy";
    "instant_book"; "is_active" ].

Definition notification_columns : list string :=
  [ "user_id"; "type"; "title"; "message"; "related_entity_type";
    "related_entity_id"; "is_read" ].

(** The body binds none of the keys [columns]. *)
Definition names_none (columns : list string) (body : object) : Prop :=
  forall k, In k columns -> body k = None.

(** An answer with a status from 400 to 499. *)
Definition client_error {A : Type} (r : response A) : Prop :=
  match r with
  | ErrorResponse status _ _ => (400 <= status < 500)%nat
  | Json _ _ => False
  end.

(** The seven ratings of a review. *)
Definition rating_keys : list string :=
  [ "cleanliness_rating"; "accuracy_rating"; "communication_rating";
    "location_rating"; "check_in_rating"; "value_rating"; "overall_rating" ].

(** A handler whose answers with a client error leave the store as it was. *)
Definition rejects_without_writing {A : Type}
  (handler : database -> response A * database) : Prop :=
  forall d r d', handler d = (r, d') -> client_error r -> d' = d.

(** The notification a status change is answered with. *)
Definition booking_notification (nanoid user_id type title message booking_id now : string)
  : Notification.t :=
  Notification.mk ("not_" ++ nanoid) user_id type title message (Some "booking")
    (Some booking_id) false now.
(** The caller is the host of the property [property_id] or an admin. *)
Definition owner_or_admin (user : User.t) (d : database) (property_id : string)
  : Prop :=
  exists p, select_property d property_id = Some p
            /\ (Property.host_id p = User.user_id user \/ User.role user = "admin").

(** From [d] to [d'] nothing was deleted and no key was changed: the
    users are the same; every id of a property and of a booking of [d] is
    the id of one of [d']; every conversation, review and notification of
    [d] is one of [d'], as it was; and a notification of [d'] that is not
    one of [d] is unread.  Nothing is said of the order of the rows. *)
Definition grows_from (d d' : database) : Prop :=
  users d' = users d
  /\ incl (map Property.property_id (properties d))
          (map Property.property_id (properties d'))
  /\ incl (map Booking.booking_id (bookings d))
          (map Booking.booking_id (bookings d'))
  /\ incl (conversations d) (conversations d')
  /\ incl (reviews d) (reviews d')
  /\ incl (notifications d) (notifications d')
  /\ (forall n, In n (notifications d') ->
                In n (notifications d) \/ Notification.is_read n = false).

(** Every conversation belongs to a booking of the store, and no booking
    has two. *)
Definition conversations_well_formed (d : database) : Prop :=
  conversations_reference_bookings d
  /\ forall booking_id,
       (List.length (select_conversations_of_booking d booking_id) <= 1)%nat.

(** From [d] to [d'] the conversations are the same, or one was added at
    the end, of a booking of [d'] that had none in [d] or is not in [d]. *)
Definition opens_a_first_conversation (d d' : database) : Prop :=
  conversations d' = conversations d
  \/ exists c,
       conversations d' = (conversations d ++ [c])%list
       /\ select_booking d' (Conversation.booking_id c) <> None
       /\ (select_conversations_of_booking d (Conversation.booking_id c) = []
           \/ select_booking d (Conversation.booking_id c) = None).

(** A text without a space. *)
Fixpoint one_word (s : string) : bool :=
  match s with
  | EmptyString => true
  | String c s' => negb (Ascii.eqb c " ") && one_word s'
  end.

(** *** Sample requests *)

Definition mark_read : object := object_of [("is_read", JBool true)].

Definition hand_over (host_id : string) : object :=
  object_of [("host_id", JStr host_id)].

Definition new_listing : object :=
  object_of [ ("title", JStr "Garden Flat");
              ("description", JStr "Two rooms and a garden.");
              ("city", JStr "Tripoli");
              ("property_type", JStr "apartment");
              ("guest_capacity", JNum 3%Q);
              ("bedrooms", JNum 2%Q);
              ("beds", JNum 2%Q);
              ("bathrooms", JNum 1%Q);
              ("base_price_per_night", JNum 90%Q);
              ("cancellation_policy", JStr "flexible") ].

Definition conversation_request (booking_id host_id : string) : object :=
  object_of [("booking_id", JStr booking_id); ("host_id", JStr host_id)].

(** The seed store after a booking of [sara] whose conversation could not
    be opened (the id [conv_001] is taken): [book_b] has none.  Then two
    requests of [sara] for its conversation, and an order of their
    statements in which each has looked for a conversation before the
    other inserts one. *)
Definition seed_unanswered : database :=
  snd (create_booking coerce_date_utc sara (stay "prop_001") "b" "001" "n"
         "2023-06-20T10:00:00.000Z" seed).

Definition first_opening : conversation_opening :=
  mk_conversation_opening sara (conversation_request "book_b" "user_001") "c1"
    "2023-06-20T10:05:00.000Z".

Definition second_opening : conversation_opening :=
  mk_conversation_opening sara (conversation_request "book_b" "user_001") "c2"
    "2023-06-20T10:05:00.100Z".

Definition both_look_before_either_opens : list turn :=
  [First; First; Second; Second; First; Second].

Definition six_for_overall : object :=
  spread_with five_stars "overall_rating" (JNum 6%Q).

(** A sample [jwt.verify]: one token, issued to [sara]. *)
Definition verify_sample (token : string) : option JwtPayload.t :=
  if String.eqb token "token_sara"
  then Some (JwtPayload.mk (Some "user_002") None)
  else None.

Unset Implicit Arguments.

(** * Facts *)

(** ** Lists *)

Lemma in_firstn_in {A : Type} (n : nat) (l : list A) (x : A) :
  In x (firstn n l) -> In x l.
Proof.
  revert l; induction n as [|n IH]; intros [|y l]; simpl; try tauto.
  intros [H | H]; [now left | right; auto].
Qed.

Lemma in_skipn_in {A : Type} (n : nat) (l : list A) (x : A) :
  In x (skipn n l) -> In x l.
Proof.
  revert l; induction n as [|n IH]; intros [|y l]; simpl; try tauto.
  intros H; right; auto.
Qed.

Lemma insert_by_perm {A : Type} (leb : A -> A -> bool) (x : A) (l : list A) :
  Permutation (insert_by leb x l) (x :: l).
Proof.
  induction l as [|y l IH]; simpl.
  - apply Permutation_refl.
  - destruct (leb x y).
    + apply Permutation_refl.
    + eapply Permutation_trans; [apply perm_skip, IH | apply perm_swap].
Qed.

Lemma order_by_perm {A : Type} (leb : A -> A -> bool) (l : list A) :
  Permutation (order_by leb l) l.
Proof.
  induction l as [|x l IH]; simpl.
  - apply perm_nil.
  - eapply Permutation_trans; [apply insert_by_perm | apply perm_skip, IH].
Qed.

Lemma filter_length_le {A : Type} (f : A -> bool) (l : list A) :
  (List.length (filter f l) <= List.length l)%nat.
Proof.
  induction l as [|x l IH]; simpl; [lia | destruct (f x); simpl; lia].
Qed.

Lemma filter_length_mono {A : Type} (f g : A -> bool) (l : list A) :
  (forall x, f x = true -> g x = true) ->
  (List.length (filter f l) <= List.length (filter g l))%nat.
Proof.
  intros H; induction l as [|x l IH]; simpl; [lia|].
  destruct (f x) eqn:Hf.
  - rewrite (H x Hf); simpl; lia.
  - destruct (g x); simpl; lia.
Qed.

(** ** Search *)







(** Under its primary key a row of [properties] is the row its id selects. *)
Lemma select_property_unique d p :
  property_ids_unique d ->
  In p (properties d) ->
  select_property d (Property.property_id p) = Some p.
Proof.
  unfold property_ids_unique, select_property.
  induction (properties d) as [|x l IH]; simpl; [tauto|].
  intros Hnd [-> | Hin].
  - now rewrite String.eqb_refl.
  - inversion Hnd as [|? ? Hx Hl]; subst.
    destruct (String.eqb (Property.property_id x) (Property.property_id p)) eqn:He.
    + apply String.eqb_eq in He. exfalso. apply Hx. rewrite He.
      now apply in_map.
    + auto.
Qed.


Section SearchFacts.

Variable ilike : string -> string -> bool.

(** A page that was selected: the row counts that were accepted, and the
    rows. *)
Lemma select_page_inr d q rows :
  select_page ilike d q = inr rows ->
  exists l o,
    SearchParams.limit q = Some l /\ SearchParams.offset q = Some o
    /\ 0 <= l /\ 0 <= o
    /\ fits_bigint l = true /\ fits_bigint o = true /\ guests_fit q = true
    /\ texts_fit q = true
    /\ rows = firstn (Z.to_nat l)
                (skipn (Z.to_nat o)
                   (order_by (sorting (SearchParams.sort_by q))
                      (filter (where_clause ilike d q) (properties d)))).
Proof.
  unfold select_page.
  destruct (SearchParams.limit q) as [l|]; [|discriminate].
  destruct (SearchParams.offset q) as [o|]; [|discriminate].
  destruct (texts_fit q) eqn:Htx; cbn [negb]; [|discriminate].
  destruct (fits_bigint l && fits_bigint o && guests_fit q) eqn:Hfit;
    cbn [negb]; [|discriminate].
  apply andb_true_iff in Hfit. destruct Hfit as (Hfit & Hg).
  apply andb_true_iff in Hfit. destruct Hfit as (Hl & Ho).
  destruct (l <? 0) eqn:El; [discriminate|].
  destruct (o <? 0) eqn:Eo; [discriminate|].
  intros [= <-]. exists l, o. repeat split; try assumption; lia.
Qed.

(** The rows of a page are rows of the table that satisfy the [WHERE]
    clause. *)
Lemma select_page_sound d q rows p :
  select_page ilike d q = inr rows ->
  In p rows ->
  In p (properties d) /\ where_clause ilike d q p = true.
Proof.
  intros H Hin.
  destruct (select_page_inr _ _ _ H) as (l & o & _ & _ & _ & _ & _ & _ & _ & _ & ->).
  apply in_firstn_in, in_skipn_in in Hin.
  apply (Permutation_in _ (order_by_perm _ _)) in Hin.
  now apply filter_In in Hin.
Qed.


Lemma search_ok d q st res :
  search_properties ilike d q = Json st res ->
  st = 200%nat
  /\ select_page ilike d q = inr (response_properties res)
  /\ total_count res = count_active d.
Proof.
  unfold search_properties.
  destruct (select_page ilike d q) as [e|rows]; [discriminate|].
  intros [= <- <-]; auto.
Qed.


End SearchFacts.

Section SearchClaims.

Variable ilike : string -> string -> bool.

(** C6. A property with [is_active = false] is in no answer of
    [GET /api/properties], whatever the query, and
    [GET /api/properties/:property_id] on its id answers with it. *)
Theorem inactive_property_hidden_from_search_but_fetchable d p :
  property_ids_unique d ->
  In p (properties d) ->
  Property.is_active p = false ->
  (forall q st res,
      search_properties ilike d q = Json st res ->
      ~ In p (response_properties res))
  /\ get_property d (Property.property_id p) = Json 200 p.
Proof.
  intros Hu Hin Hact. split.
  - intros q st res Hs Hp.
    apply search_ok in Hs. destruct Hs as (_ & Hrows & _).
    destruct (select_page_sound ilike _ _ _ _ Hrows Hp) as (_ & Hw).
    unfold where_clause in Hw. rewrite Hact in Hw. discriminate.
  - unfold get_property. now rewrite (select_property_unique d p Hu Hin).
Qed.

(** C10. [total_count] is the number of rows of [properties] with
    [is_active = true], whatever the filters and the page of the query;
    it is at least the number of rows that match the query and can be
    more. *)
Theorem total_count_counts_all_active_properties :
  (forall d q st res,
      search_properties ilike d q = Json st res ->
      total_count res
      = Z.of_nat (List.length (filter Property.is_active (properties d)))
      /\ Z.of_nat (List.length (filter (where_clause ilike d q) (properties d)))
         <= total_count res)
  /\ (exists d q res,
         search_properties ilike d q = Json 200 res
         /\ Z.of_nat (List.length (filter (where_clause ilike d q) (properties d)))
            < total_count res).
Proof.
  split.
  - intros d q st res Hs.
    apply search_ok in Hs. destruct Hs as (_ & _ & ->).
    unfold count_active. split; [reflexivity|].
    apply Nat2Z.inj_le, filter_length_mono.
    intros x Hw. unfold where_clause in Hw.
    now destruct (Property.is_active x).
  - exists seed, houses_only. eexists. split; [reflexivity|].
    vm_compute. reflexivity.
Qed.


End SearchClaims.

(** ** Handlers

    [unfold_handler] exposes the steps of a [try] block; [invert_handler H]
    then follows, in an equation [H] on the outcome of a handler, every
    branch the handler may have taken and drops the ones that contradict
    [H]. *)

Ltac unfold_handler :=
  cbv beta delta [run bind parse query reply reply_if ret raise exec
                    exec_returning not_null] in *.

Ltac absurd_reply H :=
  try discriminate H;
  try match type of H with
      | (catch ?e, _) = _ => destruct e; discriminate H
      end.

Ltac case_split H :=
  match type of H with
  | context [match ?x with _ => _ end] =>
      lazymatch x with
      | context [match _ with _ => _ end] => fail
      | _ => idtac
      end;
      let E := fresh "E" in
      destruct x eqn:E; cbn beta iota zeta in H; absurd_reply H
  end.

Ltac invert_handler H :=
  unfold_handler; cbn beta iota zeta in H; repeat case_split H.

(** ** Statements *)

Lemma insert_booking_inr b d d1 :
  insert_booking b d = inr d1 ->
  d1 = set_bookings d (bookings d ++ [b])
  /\ select_booking d (Booking.booking_id b) = None.
Proof.
  unfold insert_booking, select_booking. intros H.
  destruct (negb (fits_integer _)); [discriminate|].
  destruct (negb (if_given fits_text _)); [discriminate|].
  destruct (existsb _ (bookings d)) eqn:Hpk; [discriminate|].
  destruct (match select_property d (Booking.property_id b) with
            | Some _ => _ | None => _ end); [|discriminate].
  injection H as <-. split; [reflexivity|].
  destruct (find _ (bookings d)) as [x|] eqn:Hf; [|reflexivity].
  apply find_some in Hf. destruct Hf as (Hin & He).
  assert (existsb (fun x => String.eqb (Booking.booking_id x) (Booking.booking_id b))
            (bookings d) = true) as Hex
      by (apply existsb_exists; exists x; auto).
  congruence.
Qed.

Lemma insert_conversation_inr c d d1 :
  insert_conversation c d = inr d1 ->
  d1 = set_conversations d (conversations d ++ [c]).
Proof.
  unfold insert_conversation. intros H.
  destruct (existsb _ (conversations d)); [discriminate|].
  destruct (match select_booking d (Conversation.booking_id c) with
            | Some _ => _ | None => _ end); [|discriminate].
  now injection H as <-.
Qed.

Lemma insert_notification_inr n d d1 :
  insert_notification n d = inr d1 ->
  d1 = set_notifications d (notifications d ++ [n]).
Proof.
  unfold insert_notification. intros H.
  destruct (existsb _ (notifications d)); [discriminate|].
  destruct (user_exists d (Notification.user_id n)); [|discriminate].
  now injection H as <-.
Qed.

Lemma insert_notification_inl n d e :
  insert_notification n d = inl e -> exists code, e = PgError code.
Proof.
  unfold insert_notification. intros H.
  destruct (existsb _ (notifications d)); [injection H as <-; now eexists|].
  destruct (user_exists d (Notification.user_id n)); [discriminate|].
  injection H as <-; now eexists.
Qed.

Lemma find_app_none {A : Type} (f : A -> bool) (l l' : list A) :
  find f l = None -> find f (l ++ l') = find f l'.
Proof.
  induction l as [|x l IH]; simpl; [reflexivity|].
  destruct (f x); [discriminate | exact IH].
Qed.

Lemma find_app_some {A : Type} (f : A -> bool) (l l' : list A) (x : A) :
  find f l = Some x -> find f (l ++ l') = Some x.
Proof.
  induction l as [|y l IH]; simpl; [discriminate|].
  destruct (f y); [tauto | exact IH].
Qed.

Lemma select_booking_none_fresh d id :
  select_booking d id = None ->
  existsb (fun x => String.eqb (Booking.booking_id x) id) (bookings d) = false.
Proof.
  unfold select_booking. intros Hn.
  destruct (existsb _ (bookings d)) eqn:He; [|reflexivity].
  apply existsb_exists in He. destruct He as (x & Hin & He).
  now rewrite (find_none _ _ Hn x Hin) in He.
Qed.

Lemma insert_booking_succeeds b d p :
  fits_integer (Booking.guest_count b) = true ->
  if_given fits_text (Booking.special_requests b) = true ->
  select_booking d (Booking.booking_id b) = None ->
  select_property d (Booking.property_id b) = Some p ->
  user_exists d (Booking.guest_id b) = true ->
  user_exists d (Booking.host_id b) = true ->
  insert_booking b d = inr (set_bookings d (bookings d ++ [b])).
Proof.
  intros Hi Ht Hf Hp Hg Hh. unfold insert_booking.
  now rewrite Hi, Ht, (select_booking_none_fresh _ _ Hf), Hp, Hg, Hh.
Qed.

Lemma insert_conversation_succeeds c d b :
  existsb (fun x => String.eqb (Conversation.conversation_id x)
                               (Conversation.conversation_id c))
          (conversations d) = false ->
  select_booking d (Conversation.booking_id c) = Some b ->
  user_exists d (Conversation.guest_id c) = true ->
  user_exists d (Conversation.host_id c) = true ->
  insert_conversation c d = inr (set_conversations d (conversations d ++ [c])).
Proof.
  intros Hf Hb Hg Hh. unfold insert_conversation. now rewrite Hf, Hb, Hg, Hh.
Qed.

Lemma insert_notification_succeeds n d :
  existsb (fun x => String.eqb (Notification.notification_id x)
                               (Notification.notification_id n))
          (notifications d) = false ->
  user_exists d (Notification.user_id n) = true ->
  insert_notification n d = inr (set_notifications d (notifications d ++ [n])).
Proof.
  intros Hf Hu. unfold insert_notification. now rewrite Hf, Hu.
Qed.

Lemma select_booking_appended d b :
  select_booking d (Booking.booking_id b) = None ->
  select_booking (set_bookings d (bookings d ++ [b])) (Booking.booking_id b) = Some b.
Proof.
  unfold select_booking. cbn [bookings set_bookings]. intros Hn.
  rewrite (find_app_none _ _ _ Hn). cbn. now rewrite String.eqb_refl.
Qed.

Lemma filter_none {A : Type} (f : A -> bool) (l : list A) :
  (forall x, In x l -> f x = false) -> filter f l = [].
Proof.
  induction l as [|x l IH]; simpl; intros H; [reflexivity|].
  rewrite (H x (or_introl eq_refl)). apply IH. intros y Hy. apply H. now right.
Qed.

Section BookingFacts.
Variable coerce_date : json -> option string.

Lemma create_booking_created user body n1 n2 n3 now d b d' :
  create_booking coerce_date user body n1 n2 n3 now d = (Json 201 b, d') ->
  exists data p g d1 d2,
    createBookingInputSchema coerce_date
      (spread_with body "guest_id" (JStr (User.user_id user))) = Some data
    /\ select_property d (CreateBookingInput.property_id data) = Some p
    /\ CreateBookingInput.guest_id data = Some g
    /\ b = Booking.mk ("book_" ++ n1) (CreateBookingInput.property_id data)
             g (Property.host_id p)
             (CreateBookingInput.check_in data) (CreateBookingInput.check_out data)
             (CreateBookingInput.guest_count data)
             (CreateBookingInput.total_price data)
             (CreateBookingInput.service_fee data)
             (to_sql (CreateBookingInput.special_requests data))
             (CreateBookingInput.status data) now now
    /\ insert_booking b d = inr d1
    /\ insert_conversation
         (Conversation.mk ("conv_" ++ n2) ("book_" ++ n1) g (Property.host_id p)
            now now) d1 = inr d2
    /\ insert_notification
         (Notification.mk ("not_" ++ n3) (Property.host_id p) "booking_request"
            "New Booking Request"
            ("You have a new booking request from " ++ User.name user)
            (Some "booking") (Some ("book_" ++ n1)) false now) d2 = inr d'.
Proof.
  unfold create_booking. intros H. invert_handler H.
  injection H as <- <-.
  repeat eexists; eassumption.
Qed.

(** C2. A booking creation answered with 201 has added the booking, one
    conversation with its [booking_id] and its two parties, and one
    notification of type [booking_request] addressed to the host of the
    property, and nothing else to these tables; under the foreign key of
    [conversations] that conversation is the only one of the booking. *)
Theorem create_booking_opens_conversation_and_notifies_host
  user body n1 n2 n3 now d b d' :
  create_booking coerce_date user body n1 n2 n3 now d = (Json 201 b, d') ->
  exists p c n,
    select_property d (Booking.property_id b) = Some p
    /\ bookings d' = (bookings d ++ [b])%list
    /\ conversations d' = (conversations d ++ [c])%list
    /\ Conversation.booking_id c = Booking.booking_id b
    /\ Conversation.guest_id c = Booking.guest_id b
    /\ Conversation.host_id c = Booking.host_id b
    /\ notifications d' = (notifications d ++ [n])%list
    /\ Notification.user_id n = Property.host_id p
    /\ Notification.type n = "booking_request"
    /\ (conversations_reference_bookings d ->
        filter (fun x => String.eqb (Conversation.booking_id x) (Booking.booking_id b))
               (conversations d') = [c]).
Proof.
  intros H. apply create_booking_created in H.
  destruct H as (data & p & g & d1 & d2 & _ & Hp & _ & Hb & H1 & H2 & H3).
  apply insert_booking_inr in H1. destruct H1 as (-> & Hfresh).
  apply insert_conversation_inr in H2. subst d2.
  apply insert_notification_inr in H3. subst d'.
  eexists p, _, _. subst b. cbn in *.
  repeat (split; [reflexivity || eassumption|]).
  intros Hfk. rewrite filter_app. cbn. rewrite String.eqb_refl.
  rewrite filter_none; [reflexivity|].
  intros x Hx. apply Hfk in Hx.
  apply String.eqb_neq. intros He. apply Hx. rewrite He. exact Hfresh.
Qed.


(** A request that parses, with values the columns take, on a property
    of the store, with fresh ids and its two users in [users], is answered
    with 201; [is_active] is not read. *)
Lemma create_booking_succeeds user body n1 n2 n3 now d data p g :
  createBookingInputSchema coerce_date
    (spread_with body "guest_id" (JStr (User.user_id user))) = Some data ->
  fits_integer (CreateBookingInput.guest_count data) = true ->
  if_given fits_text (to_sql (CreateBookingInput.special_requests data)) = true ->
  select_property d (CreateBookingInput.property_id data) = Some p ->
  CreateBookingInput.guest_id data = Some g ->
  user_exists d g = true ->
  user_exists d (Property.host_id p) = true ->
  select_booking d ("book_" ++ n1) = None ->
  existsb (fun x => String.eqb (Conversation.conversation_id x) ("conv_" ++ n2))
          (conversations d) = false ->
  existsb (fun x => String.eqb (Notification.notification_id x) ("not_" ++ n3))
          (notifications d) = false ->
  exists b d', create_booking coerce_date user body n1 n2 n3 now d = (Json 201 b, d').
Proof.
  intros Hd Hi Ht Hp Hg Ug Uh Fb Fc Fn.
  unfold create_booking. unfold_handler. rewrite Hd, Hp, Hg.
  erewrite insert_booking_succeeds by eassumption.
  erewrite insert_conversation_succeeds;
    [| exact Fc | apply select_booking_appended; exact Fb | exact Ug | exact Uh].
  erewrite insert_notification_succeeds; [| exact Fn | exact Uh].
  eauto.
Qed.


End BookingFacts.

Lemma party_or_admin_spec user b :
  not_party_nor_admin user b = false <-> party_or_admin user b.
Proof.
  unfold not_party_nor_admin, party_or_admin.
  rewrite !andb_false_iff, !negb_false_iff, !String.eqb_eq. tauto.
Qed.

Lemma not_party_nor_admin_spec user b :
  not_party_nor_admin user b = true <-> ~ party_or_admin user b.
Proof.
  rewrite <- party_or_admin_spec. destruct (not_party_nor_admin user b); split; congruence.
Qed.

Lemma find_map_hit {A : Type} (f : A -> bool) (g : A -> A) (l : list A) :
  (forall x, f (g x) = f x) ->
  find f (map (fun x => if f x then g x else x) l) = option_map g (find f l).
Proof.
  intros Hg. induction l as [|x l IH]; simpl; [reflexivity|].
  destruct (f x) eqn:Hx.
  - now rewrite Hg, Hx.
  - now rewrite Hx.
Qed.

Lemma hd_error_map_filter {A B : Type} (f : A -> bool) (g : A -> B) (l : list A) :
  hd_error (map g (filter f l)) = option_map g (find f l).
Proof.
  induction l as [|x l IH]; simpl; [reflexivity|].
  destruct (f x); [reflexivity | exact IH].
Qed.

Lemma forallb_const_true {A : Type} (f : A -> bool) (l : list A) :
  (forall x, f x = true) -> forallb f l = true.
Proof. intros H. apply forallb_forall. auto. Qed.

Section UpdateFacts.
Variable coerce_date : json -> option string.

Lemma status_only_parses booking_id k s :
  Zod.assoc k booking_status_members = Some s ->
  updateBookingInputSchema coerce_date
    (spread_with (status_only k) "booking_id" (JStr booking_id))
  = Some (status_patch booking_id s).
Proof.
  intros Hk. unfold updateBookingInputSchema, status_patch.
  cbn in Hk |- *. now rewrite Hk.
Qed.

Lemma select_booking_id d id b :
  select_booking d id = Some b -> Booking.booking_id b = id.
Proof.
  unfold select_booking. intros H. apply find_some in H.
  now apply String.eqb_eq.
Qed.

Lemma status_notification_target user b s uid ty ti me :
  status_notification user b s = Some (uid, ty, ti, me) ->
  uid = Booking.guest_id b \/ uid = Booking.host_id b.
Proof.
  destruct s; cbn; intros H; try discriminate; injection H as <- _ _ _; auto.
  destruct (String.eqb _ _); auto.
Qed.

Lemma parsed_keeps_parties booking_id body u :
  updateBookingInputSchema coerce_date
    (spread_with body "booking_id" (JStr booking_id)) = Some u ->
  keeps_parties body ->
  UpdateBookingInput.property_id u = None
  /\ UpdateBookingInput.guest_id u = None
  /\ UpdateBookingInput.host_id u = None.
Proof.
  intros Hu (Hp & Hg & Hh). unfold updateBookingInputSchema in Hu.
  change (spread_with body "booking_id" (JStr booking_id) "property_id")
    with (body "property_id") in Hu.
  change (spread_with body "booking_id" (JStr booking_id) "guest_id")
    with (body "guest_id") in Hu.
  change (spread_with body "booking_id" (JStr booking_id) "host_id")
    with (body "host_id") in Hu.
  rewrite Hp, Hg, Hh in Hu. cbn [Zod.optional] in Hu.
  repeat case_split Hu. injection Hu as <-. now cbn.
Qed.

(** An [UPDATE] that sets no foreign key, with values the columns take,
    goes through. *)
Lemma update_bookings_keeping_parties booking_id u now d :
  update_fits_integer u = true ->
  update_fits_text u = true ->
  UpdateBookingInput.property_id u = None ->
  UpdateBookingInput.guest_id u = None ->
  UpdateBookingInput.host_id u = None ->
  update_bookings booking_id u now d
  = inr (map (set_fields u now)
           (filter (fun b => String.eqb (Booking.booking_id b) booking_id) (bookings d)),
         set_bookings d
           (map (fun b => if String.eqb (Booking.booking_id b) booking_id
                          then set_fields u now b else b)
              (bookings d))).
Proof.
  intros Hi Ht Hp Hg Hh. unfold update_bookings. rewrite Hi, Ht. cbn [negb].
  rewrite forallb_const_true; [reflexivity|].
  intros x. unfold update_keeps_foreign_keys. now rewrite Hp, Hg, Hh.
Qed.

Lemma updateFields_with_status u s :
  UpdateBookingInput.status u = Some s -> Nat.eqb (updateFields u) 0 = false.
Proof.
  intros Hs. apply Nat.eqb_neq. unfold updateFields. rewrite Hs. cbn [present]. lia.
Qed.

(** A request with a status that parses, reassigns nobody and has
    values the columns take: the row is written, and the answer is 200
    unless the notification could not be inserted. *)
Lemma update_booking_writes user booking_id body u s now_update nanoid now d b :
  select_booking d booking_id = Some b ->
  party_or_admin user b ->
  updateBookingInputSchema coerce_date
    (spread_with body "booking_id" (JStr booking_id)) = Some u ->
  UpdateBookingInput.status u = Some s ->
  keeps_parties body ->
  update_fits_integer u = true ->
  update_fits_text u = true ->
  exists r d',
    update_booking coerce_date user booking_id body now_update nanoid now d = (r, d')
    /\ select_booking d' booking_id = Some (set_fields u now_update b)
    /\ Booking.status (set_fields u now_update b) = s
    /\ (r = Json 200 (Some (set_fields u now_update b))
        \/ r = ErrorResponse 500 "Internal server error" "INTERNAL_SERVER_ERROR")
    /\ (notification_insertable d nanoid b ->
        r = Json 200 (Some (set_fields u now_update b))).
Proof.
  intros Hsel Hparty Hu Hs Hkeep Hi Ht.
  destruct (parsed_keeps_parties _ _ _ Hu Hkeep) as (Hp & Hg & Hh).
  assert (Hst : Booking.status (set_fields u now_update b) = s)
    by (cbn; now rewrite Hs).
  apply party_or_admin_spec in Hparty.
  unfold update_booking. unfold_handler.
  rewrite Hsel, Hparty, Hu, (updateFields_with_status _ _ Hs), Hs.
  rewrite (update_bookings_keeping_parties _ _ _ _ Hi Ht Hp Hg Hh).
  rewrite hd_error_map_filter. fold (select_booking d booking_id). rewrite Hsel.
  cbn [option_map].
  set (d1 := set_bookings d _).
  assert (Hsel1 : select_booking d1 booking_id = Some (set_fields u now_update b)).
  { unfold d1, select_booking. cbn [bookings set_bookings].
    rewrite (find_map_hit (fun b0 => String.eqb (Booking.booking_id b0) booking_id)
               (set_fields u now_update))
      by reflexivity.
    fold (select_booking d booking_id). now rewrite Hsel. }
  destruct (negb (booking_status_eqb s (Booking.status b)));
    [|eexists _, _; split; [reflexivity|]; auto].
  destruct (status_notification user b s) as [[[[uid ty] ti] me]|] eqn:Hn;
    [|eexists _, _; split; [reflexivity|]; auto].
  destruct (truthy_string (Some uid));
    [|eexists _, _; split; [reflexivity|]; auto].
  destruct (insert_notification _ d1) as [e|d2] eqn:Hins.
  - eexists _, _; split; [reflexivity|].
    split; [exact Hsel1|]. split; [exact Hst|].
    destruct (insert_notification_inl _ _ _ Hins) as (code & ->).
    split; [now right|].
    intros (Hfresh & Hgu & Hho). exfalso.
    rewrite insert_notification_succeeds in Hins; [discriminate | exact Hfresh |].
    destruct (status_notification_target _ _ _ _ _ _ _ Hn) as [-> | ->];
      assumption.
  - apply insert_notification_inr in Hins. subst d2.
    eexists _, _; split; [reflexivity|]. auto.
Qed.

Lemma update_booking_status_only user booking_id k s now_update nanoid now d b :
  select_booking d booking_id = Some b ->
  party_or_admin user b ->
  Zod.assoc k booking_status_members = Some s ->
  exists r d',
    update_booking coerce_date user booking_id (status_only k) now_update nanoid now d
    = (r, d')
    /\ select_booking d' booking_id = Some (with_status s now_update b)
    /\ (r = Json 200 (Some (with_status s now_update b))
        \/ r = ErrorResponse 500 "Internal server error" "INTERNAL_SERVER_ERROR")
    /\ (notification_insertable d nanoid b ->
        r = Json 200 (Some (with_status s now_update b))).
Proof.
  intros Hsel Hparty Hk.
  pose proof (select_booking_id _ _ _ Hsel) as Hid.
  destruct (update_booking_writes user booking_id (status_only k)
              (status_patch booking_id s) s now_update nanoid now d b Hsel Hparty
              (status_only_parses _ _ _ Hk) eq_refl
              (conj eq_refl (conj eq_refl eq_refl)) eq_refl eq_refl)
    as (r & d' & Hrun & Hrow & _ & Hr & Hok).
  unfold with_status. rewrite Hid. eauto 10.
Qed.

Lemma with_status_fields s now b :
  Booking.status (with_status s now b) = s
  /\ Booking.booking_id (with_status s now b) = Booking.booking_id b
  /\ Booking.guest_id (with_status s now b) = Booking.guest_id b
  /\ Booking.host_id (with_status s now b) = Booking.host_id b.
Proof. now cbn. Qed.

(** A [status] outside the enum is a [ZodError]. *)
Lemma update_booking_invalid_status user booking_id body now_update nanoid now d b v :
  select_booking d booking_id = Some b ->
  party_or_admin user b ->
  body "status" = Some v ->
  Zod.enum booking_status_members (Some v) = None ->
  update_booking coerce_date user booking_id body now_update nanoid now d
  = (ErrorResponse 400 "Validation error" "VALIDATION_ERROR", d).
Proof.
  intros Hsel Hparty Hv Henum. apply party_or_admin_spec in Hparty.
  unfold update_booking. unfold_handler. rewrite Hsel, Hparty.
  assert (updateBookingInputSchema coerce_date
            (spread_with body "booking_id" (JStr booking_id)) = None) as ->;
    [|reflexivity].
  unfold updateBookingInputSchema.
  change (spread_with body "booking_id" (JStr booking_id) "status")
    with (body "status").
  rewrite Hv. unfold Zod.optional at 10. rewrite Henum. cbn [option_map].
  repeat match goal with
         | |- context [match ?x with _ => _ end] =>
             lazymatch x with
             | context [match _ with _ => _ end] => fail
             | _ => destruct x
             end
         end; reflexivity.
Qed.

(** A caller who is neither a party of the booking nor an admin is
    turned away before the body is read. *)
Lemma update_booking_forbidden user booking_id body now_update nanoid now d b :
  select_booking d booking_id = Some b ->
  ~ party_or_admin user b ->
  update_booking coerce_date user booking_id body now_update nanoid now d
  = (ErrorResponse 403 "Forbidden: Cannot update other user bookings"
       "FORBIDDEN_ACCESS", d).
Proof.
  intros Hsel Hparty. apply not_party_nor_admin_spec in Hparty.
  unfold update_booking. unfold_handler. now rewrite Hsel, Hparty.
Qed.

(** C1, as the handler has it.  No state machine is enforced: for a
    caller who is a party of the booking or an admin, a request whose
    status is any of the five values of the enum (and whose body parses,
    reassigns nobody and has values the columns take: a [guest_count]
    within [INTEGER], [special_requests] without a NUL character) writes
    that value as the status of the booking, whatever its current status;
    a body with a status of the enum and nothing else is such a request;
    a [status] outside the enum is answered with a validation error and
    leaves the store as it was. *)
Theorem update_booking_writes_any_status_of_the_enum
  user booking_id now_update nanoid now d b :
  select_booking d booking_id = Some b ->
  party_or_admin user b ->
  (forall body u s,
      updateBookingInputSchema coerce_date
        (spread_with body "booking_id" (JStr booking_id)) = Some u ->
      UpdateBookingInput.status u = Some s ->
      keeps_parties body ->
      if_given fits_integer (UpdateBookingInput.guest_count u) = true ->
      if_given (if_given fits_text) (UpdateBookingInput.special_requests u) = true ->
      exists r d',
        update_booking coerce_date user booking_id body now_update nanoid now d
        = (r, d')
        /\ select_booking d' booking_id = Some (set_fields u now_update b)
        /\ Booking.status (set_fields u now_update b) = s
        /\ (r = Json 200 (Some (set_fields u now_update b))
            \/ r = ErrorResponse 500 "Internal server error" "INTERNAL_SERVER_ERROR")
        /\ (notification_insertable d nanoid b ->
            r = Json 200 (Some (set_fields u now_update b))))
  /\ (forall k s,
        Zod.assoc k booking_status_members = Some s ->
        updateBookingInputSchema coerce_date
          (spread_with (status_only k) "booking_id" (JStr booking_id))
        = Some (status_patch booking_id s)
        /\ keeps_parties (status_only k)
        /\ UpdateBookingInput.guest_count (status_patch booking_id s) = None
        /\ UpdateBookingInput.special_requests (status_patch booking_id s) = None)
  /\ (forall body v,
        body "status" = Some v ->
        Zod.enum booking_status_members (Some v) = None ->
        update_booking coerce_date user booking_id body now_update nanoid now d
        = (ErrorResponse 400 "Validation error" "VALIDATION_ERROR", d)).
Proof.
  intros Hsel Hparty. split; [|split].
  - intros body u s Hu Hs Hkeep Hi Ht.
    now apply (update_booking_writes user booking_id body u s now_update nanoid now
                 d b).
  - intros k s Hk. split; [now apply status_only_parses|].
    repeat split; reflexivity.
  - intros body v Hv He.
    now apply (update_booking_invalid_status user booking_id body now_update nanoid
                 now d b v).
Qed.

(** C8, as the handler has it.  The decision on a pending booking is
    open to each party and to the admins: the guest, the host or an
    admin who asks for [confirmed] or [declined] gets it written; a
    caller who is none of these is answered 403 and the store is as
    before. *)
Theorem update_booking_decision_open_to_every_party
  user booking_id now_update nanoid now d b :
  select_booking d booking_id = Some b ->
  Booking.status b = pending ->
  (party_or_admin user b ->
   notification_insertable d nanoid b ->
   forall k s,
     (k = "confirmed" /\ s = confirmed) \/ (k = "declined" /\ s = declined) ->
     exists d',
       update_booking coerce_date user booking_id (status_only k)
         now_update nanoid now d
       = (Json 200 (Some (with_status s now_update b)), d')
       /\ select_booking d' booking_id = Some (with_status s now_update b)
       /\ Booking.status (with_status s now_update b) = s)
  /\ (~ party_or_admin user b ->
      forall body,
        update_booking coerce_date user booking_id body now_update nanoid now d
        = (ErrorResponse 403 "Forbidden: Cannot update other user bookings"
             "FORBIDDEN_ACCESS", d)).
Proof.
  intros Hsel Hpending. split.
  - intros Hparty Hins k s Hks.
    assert (Hk : Zod.assoc k booking_status_members = Some s)
      by (destruct Hks as [[-> ->] | [-> ->]]; reflexivity).
    destruct (update_booking_status_only user booking_id k s now_update nanoid now
                d b Hsel Hparty Hk) as (r & d' & Hrun & Hrow & _ & Hok).
    exists d'. rewrite Hrun, (Hok Hins). repeat split; assumption.
  - intros Hparty body.
    now apply (update_booking_forbidden user booking_id body now_update nanoid now
                 d b).
Qed.

End UpdateFacts.

Lemma insert_review_inr r d d1 :
  insert_review r d = inr d1 -> d1 = set_reviews d (reviews d ++ [r]).
Proof.
  unfold insert_review. intros H.
  destruct (negb (if_given fits_text _)); [discriminate|].
  destruct (existsb _ (reviews d)); [discriminate|].
  destruct (match select_booking d (Review.booking_id r) with
            | Some _ => _ | None => _ end); [|discriminate].
  now injection H as <-.
Qed.

Lemma update_bookings_inr id u now d rows d1 :
  update_bookings id u now d = inr (rows, d1) ->
  d1 = set_bookings d
         (map (fun b => if String.eqb (Booking.booking_id b) id
                        then set_fields u now b else b) (bookings d)).
Proof.
  unfold update_bookings. intros H.
  destruct (negb (update_fits_integer u)); [discriminate|].
  destruct (negb (update_fits_text u)); [discriminate|].
  destruct (forallb _ _); [|discriminate]. now injection H as _ <-.
Qed.

Lemma insert_on_conflict_update_repository new d :
  insert_on_conflict_update property_availability_indexes new d
  = inl invalid_column_reference.
Proof. reflexivity. Qed.

(** What the writes that went through did to the store. *)
Ltac resolve_writes :=
  repeat match goal with
    | H : insert_booking _ _ = inr _ |- _ =>
        apply insert_booking_inr in H; destruct H as (H & _); subst
    | H : insert_conversation _ _ = inr _ |- _ =>
        apply insert_conversation_inr in H; subst
    | H : insert_notification _ _ = inr _ |- _ =>
        apply insert_notification_inr in H; subst
    | H : insert_review _ _ = inr _ |- _ =>
        apply insert_review_inr in H; subst
    | H : update_bookings _ _ _ _ = inr _ |- _ =>
        apply update_bookings_inr in H; subst
    end.

Section Invariants.
Variable coerce_date : json -> option string.

Lemma set_availability_unchanged user property_id body nanoid d :
  snd (set_availability coerce_date user property_id body nanoid d) = d.
Proof.
  unfold set_availability, set_availability_on. unfold_handler.
  destruct (select_property d property_id); [|reflexivity].
  destruct (not_owner_nor_admin _ _); [reflexivity|].
  destruct (createPropertyAvailabilityInputSchema _ _); reflexivity.
Qed.

Lemma create_booking_keeps_reviews user body n1 n2 n3 now d :
  reviews (snd (create_booking coerce_date user body n1 n2 n3 now d)) = reviews d.
Proof.
  destruct (create_booking coerce_date user body n1 n2 n3 now d) as [r d'] eqn:H.
  unfold create_booking in H. invert_handler H;
    injection H as _ <-; resolve_writes; reflexivity.
Qed.

Lemma update_booking_keeps_reviews user id body t1 n t2 d :
  reviews (snd (update_booking coerce_date user id body t1 n t2 d)) = reviews d.
Proof.
  destruct (update_booking coerce_date user id body t1 n t2 d) as [r d'] eqn:H.
  unfold update_booking in H. invert_handler H;
    injection H as _ <-; resolve_writes; reflexivity.
Qed.

(** What a review creation can do to [reviews]: nothing, or add one
    review of a completed booking of the caller that had none. *)
Lemma create_review_effect user id body n1 n2 now d r d' :
  create_review user id body n1 n2 now d = (r, d') ->
  bookings d' = bookings d
  /\ ((reviews d' = reviews d /\ forall rv, r <> Json 201 rv)
      \/ exists b rv,
           select_booking d id = Some b
           /\ Booking.guest_id b = User.user_id user
           /\ Booking.status b = completed
           /\ select_reviews_of_booking d id = []
           /\ Review.booking_id rv = id
           /\ reviews d' = (reviews d ++ [rv])%list).
Proof.
  intros H. unfold create_review in H. unfold_handler.
  cbn beta iota zeta in H.
  assert (Hnone : forall (x : response Review.t),
             (x, d) = (r, d') -> (forall rv, x <> Json 201 rv) ->
             bookings d' = bookings d
             /\ ((reviews d' = reviews d /\ forall rv, r <> Json 201 rv)
                 \/ exists b rv,
                      select_booking d id = Some b
                      /\ Booking.guest_id b = User.user_id user
                      /\ Booking.status b = completed
                      /\ select_reviews_of_booking d id = []
                      /\ Review.booking_id rv = id
                      /\ reviews d' = (reviews d ++ [rv])%list)).
  { intros x Hx Hne. injection Hx as <- <-. auto. }
  destruct (select_booking d id) as [b|] eqn:Hsel;
    [|apply (Hnone _ H); discriminate].
  destruct (negb (String.eqb (Booking.guest_id b) (User.user_id user))) eqn:Hg;
    cbn beta iota zeta in H; [apply (Hnone _ H); discriminate|].
  destruct (negb (booking_status_eqb (Booking.status b) completed)) eqn:Hst;
    cbn beta iota zeta in H; [apply (Hnone _ H); discriminate|].
  destruct (0 <? List.length (select_reviews_of_booking d id))%nat eqn:Hex;
    cbn beta iota zeta in H; [apply (Hnone _ H); discriminate|].
  destruct (createReviewInputSchema _) as [data|];
    cbn beta iota zeta in H; [|apply (Hnone _ H); discriminate].
  apply negb_false_iff, String.eqb_eq in Hg.
  apply negb_false_iff in Hst.
  assert (Hc : Booking.status b = completed)
    by (destruct (Booking.status b); try discriminate Hst; reflexivity).
  assert (He : select_reviews_of_booking d id = [])
    by (destruct (select_reviews_of_booking d id); [reflexivity | discriminate Hex]).
  clear Hnone.
  destruct (insert_review _ d) as [e|d1] eqn:Hr; cbn beta iota zeta in H.
  { injection H as <- <-. split; [reflexivity|]. left. split; [reflexivity|].
    intros rv. destruct e; discriminate. }
  apply insert_review_inr in Hr. subst d1.
  destruct (insert_notification _ _) as [e|d2] eqn:Hn; cbn beta iota zeta in H.
  - injection H as <- <-. split; [reflexivity|]. right.
    exists b. eexists. repeat split; try eassumption; reflexivity.
  - apply insert_notification_inr in Hn. subst d2.
    injection H as <- <-. split; [reflexivity|]. right.
    exists b. eexists. repeat split; try eassumption; reflexivity.
Qed.

Lemma create_review_not_completed user id body n1 n2 now d b :
  select_booking d id = Some b ->
  Booking.guest_id b = User.user_id user ->
  Booking.status b <> completed ->
  create_review user id body n1 n2 now d
  = (ErrorResponse 400 "Cannot review booking that is not completed"
       "BOOKING_NOT_COMPLETED", d).
Proof.
  intros Hsel Hg Hst. unfold create_review. unfold_handler.
  rewrite Hsel, Hg, String.eqb_refl. cbn.
  destruct (Booking.status b); try reflexivity. congruence.
Qed.

Lemma create_review_already_exists user id body n1 n2 now d b rv :
  select_booking d id = Some b ->
  Booking.guest_id b = User.user_id user ->
  Booking.status b = completed ->
  In rv (reviews d) ->
  Review.booking_id rv = id ->
  create_review user id body n1 n2 now d
  = (ErrorResponse 400 "Review already exists for this booking"
       "REVIEW_ALREADY_EXISTS", d).
Proof.
  intros Hsel Hg Hst Hin Hid. unfold create_review. unfold_handler.
  rewrite Hsel, Hg, String.eqb_refl, Hst. cbn.
  destruct (select_reviews_of_booking d id) as [|x l] eqn:Hf; [|reflexivity].
  exfalso. unfold select_reviews_of_booking in Hf.
  assert (In rv (filter (fun r => String.eqb (Review.booking_id r) id) (reviews d)))
    as Hrv by (apply filter_In; split; [assumption | now apply String.eqb_eq]).
  now rewrite Hf in Hrv.
Qed.

(** C3.  On a booking that is not completed the review creation of its
    guest is answered 400 [BOOKING_NOT_COMPLETED] and writes nothing; a
    review creation that is answered 201, or that adds a row to
    [reviews] at all, was made on a completed booking by its guest. *)
Theorem review_creation_gated_on_completed_booking
  user booking_id body n1 n2 now d :
  (forall b,
      select_booking d booking_id = Some b ->
      Booking.guest_id b = User.user_id user ->
      Booking.status b <> completed ->
      create_review user booking_id body n1 n2 now d
      = (ErrorResponse 400 "Cannot review booking that is not completed"
           "BOOKING_NOT_COMPLETED", d))
  /\ (forall r d',
        create_review user booking_id body n1 n2 now d = (r, d') ->
        (exists rv, r = Json 201 rv) \/ reviews d' <> reviews d ->
        exists b,
          select_booking d booking_id = Some b
          /\ Booking.status b = completed
          /\ Booking.guest_id b = User.user_id user).
Proof.
  split.
  - intros b. apply create_review_not_completed.
  - intros r d' H Hmade.
    destruct (create_review_effect _ _ _ _ _ _ _ _ _ H)
      as (_ & [(Hsame & Hne) | (b & rv & Hsel & Hg & Hst & _)]).
    + exfalso. destruct Hmade as [(rv & ->) | Hdiff].
      * now apply (Hne rv).
      * now apply Hdiff.
    + exists b. auto.
Qed.

Lemma select_reviews_app d id l :
  select_reviews_of_booking (set_reviews d (reviews d ++ l)) id
  = (select_reviews_of_booking d id
     ++ filter (fun r => String.eqb (Review.booking_id r) id) l)%list.
Proof. unfold select_reviews_of_booking. cbn. apply filter_app. Qed.

Lemma create_review_keeps_one_review user id body n1 n2 now d :
  one_review_per_booking d ->
  one_review_per_booking (snd (create_review user id body n1 n2 now d)).
Proof.
  intros Hinv.
  destruct (create_review user id body n1 n2 now d) as [r d'] eqn:H.
  destruct (create_review_effect _ _ _ _ _ _ _ _ _ H)
    as (_ & [(Hsame & _) | (b & rv & _ & _ & _ & Hnone & Hid & Hadd)]);
    intros k; unfold select_reviews_of_booking in *; cbn [snd].
  - rewrite Hsame. apply Hinv.
  - rewrite Hadd, filter_app, length_app. cbn.
    destruct (String.eqb (Review.booking_id rv) k) eqn:He.
    + apply String.eqb_eq in He. rewrite <- He, Hid, Hnone. cbn. lia.
    + cbn. specialize (Hinv k). unfold select_reviews_of_booking in Hinv. lia.
Qed.

Lemma serve_keeps_one_review req d :
  one_review_per_booking d -> one_review_per_booking (serve coerce_date req d).
Proof.
  intros Hinv. destruct req; cbn [serve].
  - now rewrite set_availability_unchanged.
  - intros k. unfold select_reviews_of_booking.
    rewrite create_booking_keeps_reviews. apply Hinv.
  - intros k. unfold select_reviews_of_booking.
    rewrite update_booking_keeps_reviews. apply Hinv.
  - now apply create_review_keeps_one_review.
Qed.

Lemma seed_one_review_per_booking : one_review_per_booking seed.
Proof.
  intros k. unfold select_reviews_of_booking.
  apply (filter_length_le _ (reviews seed)).
Qed.

(** An attempt on a booking that has a review writes nothing and is not
    answered 201, whoever makes it. *)
Lemma create_review_of_reviewed_booking user id body n1 n2 now d :
  select_reviews_of_booking d id <> [] ->
  snd (create_review user id body n1 n2 now d) = d
  /\ (forall rv, fst (create_review user id body n1 n2 now d) <> Json 201 rv).
Proof.
  intros Hsome. unfold create_review. unfold_handler. cbn beta iota zeta.
  destruct (select_booking d id) as [b|]; cbn beta iota zeta;
    [|split; [reflexivity | discriminate]].
  destruct (negb (String.eqb (Booking.guest_id b) (User.user_id user)));
    cbn beta iota zeta; [split; [reflexivity | discriminate]|].
  destruct (negb (booking_status_eqb (Booking.status b) completed));
    cbn beta iota zeta; [split; [reflexivity | discriminate]|].
  destruct (select_reviews_of_booking d id) as [|x l]; [congruence|].
  cbn. split; [reflexivity | discriminate].
Qed.

Lemma serve_keeps_reviews req d :
  incl (reviews d) (reviews (serve coerce_date req d)).
Proof.
  destruct req; cbn [serve].
  - rewrite set_availability_unchanged. apply incl_refl.
  - rewrite create_booking_keeps_reviews. apply incl_refl.
  - rewrite update_booking_keeps_reviews. apply incl_refl.
  - destruct (create_review user booking_id body nanoid_review nanoid_notification
                now d) as [r d'] eqn:H.
    destruct (create_review_effect _ _ _ _ _ _ _ _ _ H)
      as (_ & [(Hsame & _) | (b & rv & _ & _ & _ & _ & _ & Hadd)]); cbn [snd].
    + rewrite Hsame. apply incl_refl.
    + rewrite Hadd. apply incl_appl, incl_refl.
Qed.

Lemma serve_all_keeps_reviews requests d :
  incl (reviews d) (reviews (serve_all coerce_date requests d)).
Proof.
  revert d. induction requests as [|req l IH]; intros d; cbn; [apply incl_refl|].
  eapply incl_tran; [apply serve_keeps_reviews | apply IH].
Qed.

Lemma reviewed_booking_stays_reviewed d d' id :
  incl (reviews d) (reviews d') ->
  select_reviews_of_booking d id <> [] ->
  select_reviews_of_booking d' id <> [].
Proof.
  unfold select_reviews_of_booking. intros Hincl Hsome.
  destruct (filter _ (reviews d)) as [|x l] eqn:Hf; [congruence|].
  assert (Hx : In x (filter (fun r => String.eqb (Review.booking_id r) id) (reviews d)))
    by (rewrite Hf; now left).
  apply filter_In in Hx. destruct Hx as (Hin & Hid).
  intros Hnone.
  assert (Hx' : In x (filter (fun r => String.eqb (Review.booking_id r) id)
                        (reviews d')))
    by (apply filter_In; split; [now apply Hincl | exact Hid]).
  now rewrite Hnone in Hx'.
Qed.

(** Run without another request in between, the four statements of a
    review creation are [create_review]. *)
Lemma create_review_in_steps rq d :
  create_review_steps 4 rq SelectBooking d
  = (Answered
       (fst (create_review (caller rq) (reviewed_booking rq) (review_body rq)
               (review_nanoid rq) (review_notification_nanoid rq) (review_now rq) d)),
     snd (create_review (caller rq) (reviewed_booking rq) (review_body rq)
            (review_nanoid rq) (review_notification_nanoid rq) (review_now rq) d)).
Proof.
  unfold create_review. unfold_handler.
  cbn [create_review_steps create_review_step]. cbn beta iota zeta.
  destruct (select_booking d (reviewed_booking rq)) as [b|];
    cbn beta iota zeta; [|reflexivity].
  destruct (negb (String.eqb (Booking.guest_id b) (User.user_id (caller rq))));
    cbn beta iota zeta; [reflexivity|].
  destruct (negb (booking_status_eqb (Booking.status b) completed));
    cbn [create_review_step]; cbn beta iota zeta; [reflexivity|].
  destruct (0 <? List.length (select_reviews_of_booking d (reviewed_booking rq)))%nat;
    cbn [create_review_step]; cbn beta iota zeta; [reflexivity|].
  destruct (createReviewInputSchema _) as [data|];
    cbn [create_review_step]; cbn beta iota zeta; [|reflexivity].
  destruct (insert_review _ d) as [e|d1];
    cbn [create_review_step]; cbn beta iota zeta; [reflexivity|].
  cbn [Review.review_id].
  destruct (insert_notification _ d1) as [e|d2]; reflexivity.
Qed.

(** C4, as the handler has it.  While requests are served one after
    another, each answered before the next one begins, no booking ever has
    two reviews, from the seed store or from any store that has at most
    one review per booking.  An attempt on a booking that has a review
    writes nothing and is not answered 201, whoever makes it and whenever;
    made by the guest of the booking while it is completed, it is answered
    400 [REVIEW_ALREADY_EXISTS].  A booking whose review creation was
    answered 201 has a review after whatever requests of [request] are
    served next.  This rests on the lookup of the handler alone, [reviews]
    has no uniqueness constraint on [booking_id]: of two attempts that
    overlap, each can look for a review before the other inserts one, and
    then both are answered 201 and the booking has two reviews. *)
Theorem at_most_one_review_per_booking :
  (forall requests d,
      one_review_per_booking d ->
      one_review_per_booking (serve_all coerce_date requests d))
  /\ (forall requests, one_review_per_booking (serve_all coerce_date requests seed))
  /\ (forall user booking_id body n1 n2 now d,
        select_reviews_of_booking d booking_id <> [] ->
        snd (create_review user booking_id body n1 n2 now d) = d
        /\ (forall rv, fst (create_review user booking_id body n1 n2 now d)
                       <> Json 201 rv)
        /\ (forall b,
               select_booking d booking_id = Some b ->
               Booking.guest_id b = User.user_id user ->
               Booking.status b = completed ->
               create_review user booking_id body n1 n2 now d
               = (ErrorResponse 400 "Review already exists for this booking"
                    "REVIEW_ALREADY_EXISTS", d)))
  /\ (forall user booking_id body n1 n2 now d rv d',
        create_review user booking_id body n1 n2 now d = (Json 201 rv, d') ->
        (forall requests,
            select_reviews_of_booking (serve_all coerce_date requests d') booking_id
            <> [])
        /\ (forall body' m1 m2 now',
               create_review user booking_id body' m1 m2 now' d'
               = (ErrorResponse 400 "Review already exists for this booking"
                    "REVIEW_ALREADY_EXISTS", d')))
  /\ (exists rva rvb d',
        overlap both_look_before_either_writes first_attempt second_attempt
          SelectBooking SelectBooking seed_completed
        = (Answered (Json 201 rva), Answered (Json 201 rvb), d')
        /\ select_reviews_of_booking d' "book_002" = [rva; rvb]).
Proof.
  assert (Hall : forall requests d,
             one_review_per_booking d ->
             one_review_per_booking (serve_all coerce_date requests d)).
  { induction requests as [|req l IH]; intros d Hinv; cbn; [exact Hinv|].
    apply IH. now apply serve_keeps_one_review. }
  split; [exact Hall|]. split; [|split; [|split]].
  - intros requests. apply Hall. exact seed_one_review_per_booking.
  - intros user id body n1 n2 now d Hsome.
    destruct (create_review_of_reviewed_booking user id body n1 n2 now d Hsome)
      as (Hsame & Hne).
    split; [exact Hsame|]. split; [exact Hne|].
    intros b Hsel Hg Hst.
    destruct (select_reviews_of_booking d id) as [|x l] eqn:Hf; [congruence|].
    assert (Hx : In x (select_reviews_of_booking d id)) by (rewrite Hf; now left).
    unfold select_reviews_of_booking in Hx. apply filter_In in Hx.
    destruct Hx as (Hin & Hid). apply String.eqb_eq in Hid.
    now apply (create_review_already_exists user id body n1 n2 now d b x).
  - intros user id body n1 n2 now d rv d' H.
    destruct (create_review_effect _ _ _ _ _ _ _ _ _ H)
      as (Hb & [(_ & Hne) | (b & rv' & Hsel & Hg & Hst & _ & Hid & Hadd)]);
      [exfalso; now apply (Hne rv)|].
    assert (Hin : In rv' (reviews d'))
      by (rewrite Hadd; apply in_or_app; right; now left).
    split.
    + intros requests.
      apply (reviewed_booking_stays_reviewed d' _ id
               (serve_all_keeps_reviews requests d')).
      unfold select_reviews_of_booking. intros Hnone.
      assert (Hx : In rv' (filter (fun r => String.eqb (Review.booking_id r) id)
                             (reviews d')))
        by (apply filter_In; split; [exact Hin | now apply String.eqb_eq]).
      now rewrite Hnone in Hx.
    + intros body' m1 m2 now'.
      apply (create_review_already_exists user id body' m1 m2 now' d' b rv').
      * unfold select_booking in *. now rewrite Hb.
      * exact Hg.
      * exact Hst.
      * exact Hin.
      * exact Hid.
  - eexists _, _, _. split; reflexivity.
Qed.

End Invariants.

(** ** The availability ledger *)

Lemma same_key_eq a b :
  same_key a b = true <->
  PropertyAvailability.property_id a = PropertyAvailability.property_id b
  /\ PropertyAvailability.date a = PropertyAvailability.date b.
Proof. unfold same_key. now rewrite andb_true_iff, !String.eqb_eq. Qed.

Lemma same_key_congr a b x : same_key a b = true -> same_key b x = same_key a x.
Proof.
  intros H. apply same_key_eq in H. destruct H as (Hp & Hd).
  unfold same_key. now rewrite Hp, Hd.
Qed.

Lemma same_key_do_update new a old : same_key a (do_update new old) = same_key a old.
Proof. reflexivity. Qed.

Lemma find_update_in_conflict new l :
  find (same_key new) (update_in_conflict new l)
  = option_map (do_update new) (find (same_key new) l).
Proof.
  unfold update_in_conflict.
  induction l as [|x l IH]; cbn [map find option_map]; [reflexivity|].
  destruct (same_key new x) eqn:Hx.
  - now rewrite same_key_do_update, Hx.
  - now rewrite Hx.
Qed.

Lemma update_in_conflict_miss new l :
  find (same_key new) l = None -> update_in_conflict new l = l.
Proof.
  unfold update_in_conflict.
  induction l as [|x l IH]; cbn [map find]; [reflexivity|].
  destruct (same_key new x); [discriminate|]. intros H. now rewrite IH.
Qed.

Lemma update_in_conflict_again new new' l :
  same_key new new' = true ->
  PropertyAvailability.is_available new' = PropertyAvailability.is_available new ->
  PropertyAvailability.price_override new' = PropertyAvailability.price_override new ->
  update_in_conflict new' (update_in_conflict new l) = update_in_conflict new l.
Proof.
  intros Hk Ha Hp. unfold update_in_conflict. rewrite map_map.
  apply map_ext. intros x. rewrite (same_key_congr _ _ _ Hk).
  destruct (same_key new x) eqn:Hx.
  - rewrite same_key_do_update, Hx. unfold do_update. cbn. now rewrite Ha, Hp.
  - now rewrite Hx.
Qed.

Lemma set_property_availability_twice d l1 l2 :
  set_property_availability (set_property_availability d l1) l2
  = set_property_availability d l2.
Proof. reflexivity. Qed.

(** On a table that has the unique key the conflict target names, the
    statement is the upsert of the specification: a second write on the
    same (property, date) meets the row of the first, adds no row, and its
    values replace those of the first; written twice, the same values
    leave the table as one write left it. *)
Lemma insert_on_conflict_update_last_write_wins indexes new1 new2 d row1 d1 :
  existsb (same_columns [col_property_id; col_date]) indexes = true ->
  same_key new1 new2 = true ->
  insert_on_conflict_update indexes new1 d = inr (row1, d1) ->
  exists row2 d2,
    insert_on_conflict_update indexes new2 d1 = inr (row2, d2)
    /\ row2 = do_update new2 row1
    /\ List.length (property_availability d2) = List.length (property_availability d1)
    /\ (PropertyAvailability.is_available new2 = PropertyAvailability.is_available new1 ->
        PropertyAvailability.price_override new2 = PropertyAvailability.price_override new1 ->
        row2 = row1 /\ d2 = d1).
Proof.
  intros Hidx Hk H. unfold insert_on_conflict_update in *.
  rewrite Hidx in *. cbn [negb] in *.
  assert (Hfind2 : forall l, find (same_key new2) l = find (same_key new1) l).
  { intros l. induction l as [|x l IH]; cbn [find]; [reflexivity|].
    now rewrite (same_key_congr _ _ x Hk), IH. }
  destruct (find (same_key new1) (property_availability d)) as [old|] eqn:Hf.
  - injection H as <- <-. cbn [property_availability set_property_availability].
    rewrite Hfind2, find_update_in_conflict, Hf. cbn [option_map].
    eexists _, _. split; [reflexivity|]. split; [reflexivity|].
    split; [cbn [property_availability set_property_availability];
            unfold update_in_conflict; now rewrite !length_map|].
    intros Ha Hp. split.
    + unfold do_update. cbn. now rewrite Ha, Hp.
    + rewrite set_property_availability_twice. f_equal.
      now apply update_in_conflict_again.
  - destruct (existsb _ (property_availability d)); [discriminate|].
    destruct (select_property d (PropertyAvailability.property_id new1));
      [|discriminate].
    injection H as <- <-. cbn [property_availability set_property_availability].
    rewrite Hfind2, (find_app_none _ _ _ Hf). cbn [find].
    assert (same_key new1 new1 = true) as ->
        by (apply same_key_eq; split; reflexivity).
    eexists _, _. split; [reflexivity|]. split; [reflexivity|].
    split; [cbn [property_availability set_property_availability];
            unfold update_in_conflict; now rewrite !length_map|].
    intros Ha Hp.
    assert (Hsame : do_update new2 new1 = new1)
      by (destruct new1; unfold do_update; cbn in *; now rewrite Ha, Hp).
    split; [exact Hsame|].
    rewrite set_property_availability_twice. f_equal.
    unfold update_in_conflict. rewrite map_app. cbn [map].
    rewrite (same_key_congr _ _ _ Hk).
    assert (same_key new1 new1 = true) as ->
        by (apply same_key_eq; split; reflexivity).
    rewrite Hsame. f_equal.
    apply (update_in_conflict_miss new2). now rewrite Hfind2.
Qed.

Section Ledger.
Variable coerce_date : json -> option string.


End Ledger.

(** The request of the test suite, [should set property availability]:
    the host of [prop_001] opens 2023-07-01; the suite expects 201. *)
Example set_availability_of_the_test_suite :
  set_availability coerce_date_utc ahmed "prop_001"
    (object_of [ ("property_id", JStr "prop_001"); ("date", JStr "2023-07-01");
                 ("is_available", JBool true) ])
    "V1StGXR8_Z5jdHi6B-myT" seed
  = (ErrorResponse 500 "Internal server error" "INTERNAL_SERVER_ERROR", seed).
Proof. reflexivity. Qed.

(** The same request against a table that has the key. *)
Example set_availability_with_the_key :
  fst (set_availability_on coerce_date_utc [[col_availability_id]; [col_property_id; col_date]]
         ahmed "prop_001"
         (object_of [ ("property_id", JStr "prop_001"); ("date", JStr "2023-07-01");
                      ("is_available", JBool true) ])
         "V1StGXR8_Z5jdHi6B-myT" seed)
  = Json 201 (PropertyAvailability.mk "avail_V1StGXR8_Z5jdHi6B-myT" "prop_001"
                "2023-07-01T00:00:00.000+00:00" true None).
Proof. reflexivity. Qed.

(** ** Concrete runs on the seed store *)

(** An inactive property of a store: hidden from every search, fetched by
    its id. *)
Lemma inactive_property_hidden_from_search_but_fetchable_witness :
  property_ids_unique seed_delisted
  /\ In delisted_property (properties seed_delisted)
  /\ Property.is_active delisted_property = false
  /\ (forall q st res,
         search_properties ilike_ascii seed_delisted q = Json st res ->
         ~ In delisted_property (response_properties res))
  /\ get_property seed_delisted "prop_002" = Json 200 delisted_property.
Proof.
  assert (Hu : property_ids_unique seed_delisted).
  { unfold property_ids_unique. cbn.
    repeat constructor; cbn; intuition discriminate. }
  assert (Hin : In delisted_property (properties seed_delisted))
    by (cbn; auto).
  repeat split; try assumption;
    apply (inactive_property_hidden_from_search_but_fetchable ilike_ascii
             seed_delisted delisted_property Hu Hin eq_refl).
Defined.

(** A search for houses on the seed store: one match, [total_count] 3. *)
Lemma total_count_counts_all_active_properties_witness :
  search_properties ilike_ascii seed houses_only
  = Json 200 (mk_search_response [prop_003] 3)
  /\ 3 = Z.of_nat (List.length (filter Property.is_active (properties seed)))
  /\ Z.of_nat (List.length (filter (where_clause ilike_ascii seed houses_only)
                              (properties seed))) <= 3.
Proof.
  split; [reflexivity|].
  exact (proj1 (total_count_counts_all_active_properties ilike_ascii)
           seed houses_only 200%nat
           (mk_search_response [prop_003] 3) eq_refl).
Defined.



(** C1 as stated fails: the guest of the confirmed [book_001] sets it back
    to pending, which is no edge of the machine, and is answered 200. *)
Lemma status_machine_not_enforced : ~ status_machine_enforced coerce_date_utc.
Proof.
  intros H.
  destruct (H seed sara "book_001" (status_only "pending")
              "2023-06-20T10:00:00.000Z" "a" "2023-06-20T10:00:00.000Z"
              book_001 pending eq_refl eq_refl) as (message & Hrun);
    [discriminate | reflexivity |].
  vm_compute in Hrun. discriminate Hrun.
Qed.

Lemma update_booking_writes_any_status_of_the_enum_witness :
  party_or_admin sara book_001
  /\ specified_edge (Booking.status book_001) pending = false
  /\ exists d',
      update_booking coerce_date_utc sara "book_001" (status_only "pending")
        "2023-06-20T10:00:00.000Z" "a" "2023-06-20T10:00:00.000Z" seed
      = (Json 200 (Some (with_status pending "2023-06-20T10:00:00.000Z" book_001)), d')
      /\ select_booking d' "book_001"
         = Some (with_status pending "2023-06-20T10:00:00.000Z" book_001).
Proof.
  assert (Hparty : party_or_admin sara book_001) by (right; left; reflexivity).
  split; [exact Hparty|]. split; [reflexivity|].
  destruct (proj1 (update_booking_writes_any_status_of_the_enum coerce_date_utc
                     sara "book_001" "2023-06-20T10:00:00.000Z" "a"
                     "2023-06-20T10:00:00.000Z" seed book_001 eq_refl Hparty)
              (status_only "pending") (status_patch "book_001" pending) pending
              eq_refl eq_refl (conj eq_refl (conj eq_refl eq_refl))
              eq_refl eq_refl)
    as (r & d' & Hrun & Hrow & _ & _ & Hok).
  exists d'. split; [|exact Hrow].
  rewrite Hrun. f_equal. apply Hok. repeat split; reflexivity.
Defined.

(** C8 as stated fails: the guest of the pending [book_002] confirms it
    and is answered 200. *)
Lemma decision_not_reserved_to_host : ~ decision_reserved_to_host coerce_date_utc.
Proof.
  intros H.
  assert (Hhost : Booking.host_id book_002 <> User.user_id mariam) by discriminate.
  assert (Hrole : User.role mariam <> "admin") by discriminate.
  destruct (H seed mariam "book_002" (status_only "confirmed")
              "2023-06-20T10:00:00.000Z" "a" "2023-06-20T10:00:00.000Z"
              book_002 confirmed eq_refl eq_refl eq_refl Hhost Hrole eq_refl
              (or_introl eq_refl))
    as (status & message & error_code & Hrun).
  vm_compute in Hrun. discriminate Hrun.
Qed.

Lemma update_booking_decision_open_to_every_party_witness :
  Booking.status book_002 = pending
  /\ Booking.guest_id book_002 = User.user_id mariam
  /\ exists d',
      update_booking coerce_date_utc mariam "book_002" (status_only "confirmed")
        "2023-06-20T10:00:00.000Z" "a" "2023-06-20T10:00:00.000Z" seed
      = (Json 200 (Some (with_status confirmed "2023-06-20T10:00:00.000Z" book_002)), d')
      /\ select_booking d' "book_002"
         = Some (with_status confirmed "2023-06-20T10:00:00.000Z" book_002).
Proof.
  split; [reflexivity|]. split; [reflexivity|].
  destruct (proj1 (update_booking_decision_open_to_every_party coerce_date_utc
                     mariam "book_002" "2023-06-20T10:00:00.000Z" "a"
                     "2023-06-20T10:00:00.000Z" seed book_002 eq_refl eq_refl)
              (or_intror (or_introl eq_refl))
              (conj eq_refl (conj eq_refl eq_refl))
              "confirmed" confirmed (or_introl (conj eq_refl eq_refl)))
    as (d' & Hrun & Hrow & _).
  exists d'. split; assumption.
Defined.



Lemma create_booking_opens_conversation_and_notifies_host_witness :
  exists b d',
    create_booking coerce_date_utc sara (stay "prop_001") "b" "c" "n"
      "2023-06-20T10:00:00.000Z" seed = (Json 201 b, d')
    /\ exists c n,
        conversations d' = (conversations seed ++ [c])%list
        /\ Conversation.booking_id c = Booking.booking_id b
        /\ notifications d' = (notifications seed ++ [n])%list
        /\ Notification.user_id n = Property.host_id prop_001
        /\ Notification.type n = "booking_request".
Proof.
  destruct (create_booking coerce_date_utc sara (stay "prop_001") "b" "c" "n"
              "2023-06-20T10:00:00.000Z" seed) as [r d'] eqn:Hrun.
  assert (Hr : exists b, r = Json 201 b)
    by (vm_compute in Hrun; injection Hrun as <- _; eauto).
  destruct Hr as (b & ->). exists b, d'. split; [reflexivity|].
  destruct (create_booking_opens_conversation_and_notifies_host coerce_date_utc
              sara (stay "prop_001") "b" "c" "n" "2023-06-20T10:00:00.000Z"
              seed b d' Hrun)
    as (p & c & n & Hp & _ & Hc & Hcb & _ & _ & Hn & Hnu & Hnt & _).
  exists c, n.
  assert (Hb : Booking.property_id b = "prop_001")
    by (vm_compute in Hrun; injection Hrun as <- _; reflexivity).
  rewrite Hb in Hp. cbn in Hp. injection Hp as <-.
  repeat split; assumption.
Defined.

Lemma review_creation_gated_on_completed_booking_witness :
  Booking.status book_002 <> completed
  /\ create_review mariam "book_002" five_stars "r" "n" "2023-06-20T10:00:00.000Z" seed
     = (ErrorResponse 400 "Cannot review booking that is not completed"
          "BOOKING_NOT_COMPLETED", seed).
Proof.
  assert (H : Booking.status book_002 <> completed) by discriminate.
  split; [exact H|].
  exact (proj1 (review_creation_gated_on_completed_booking mariam "book_002"
                  five_stars "r" "n" "2023-06-20T10:00:00.000Z" seed)
           book_002 eq_refl eq_refl H).
Defined.

Lemma at_most_one_review_per_booking_witness :
  exists rv d',
    create_review mariam "book_002" five_stars "r" "n" "2023-06-20T10:00:00.000Z"
      seed_completed = (Json 201 rv, d')
    /\ create_review mariam "book_002" five_stars "r2" "n2" "2023-06-21T10:00:00.000Z" d'
       = (ErrorResponse 400 "Review already exists for this booking"
            "REVIEW_ALREADY_EXISTS", d').
Proof.
  destruct (create_review mariam "book_002" five_stars "r" "n"
              "2023-06-20T10:00:00.000Z" seed_completed) as [r d'] eqn:Hrun.
  assert (Hr : exists rv, r = Json 201 rv)
    by (vm_compute in Hrun; injection Hrun as <- _; eauto).
  destruct Hr as (rv & ->). exists rv, d'. split; [reflexivity|].
  exact (proj2
           (proj1 (proj2 (proj2 (proj2 (at_most_one_review_per_booking coerce_date_utc))))
              mariam "book_002" five_stars "r" "n" "2023-06-20T10:00:00.000Z"
              seed_completed rv d' Hrun)
           five_stars "r2" "n2" "2023-06-21T10:00:00.000Z").
Defined.

(** C4 as stated fails: on the store in which [book_002] is completed and
    has no review, two attempts of its guest that both look for a review
    before either inserts one leave the booking with two. *)
Lemma two_overlapping_attempts_both_reviewed : ~ one_review_per_booking_ever.
Proof.
  intros H.
  assert (Hinv : one_review_per_booking seed_completed).
  { intros k. unfold select_reviews_of_booking.
    apply (filter_length_le _ (reviews seed_completed)). }
  specialize (H seed_completed first_attempt second_attempt
                both_look_before_either_writes Hinv "book_002").
  vm_compute in H. lia.
Qed.

(** * The other routes: facts *)

(** ** Ordered pages *)

Lemma insert_by_ordered {A : Type} (leb : A -> A -> bool) (x : A) (l : list A) :
  (forall a b, leb a b = false -> leb b a = true) ->
  ordered leb l -> ordered leb (insert_by leb x l).
Proof.
  intros Htot. unfold ordered.
  induction l as [|y l IH]; intros Hs; cbn [insert_by].
  - repeat constructor.
  - destruct (leb x y) eqn:Hxy.
    + constructor; [assumption | now constructor].
    + inversion Hs as [|? ? Hl Hhd]; subst. constructor; [now apply IH|].
      destruct l as [|z l]; cbn [insert_by].
      * constructor. now apply Htot.
      * destruct (leb x z); constructor.
        -- now apply Htot.
        -- now inversion Hhd.
Qed.

Lemma order_by_ordered {A : Type} (leb : A -> A -> bool) (l : list A) :
  (forall a b, leb a b = false -> leb b a = true) ->
  ordered leb (order_by leb l).
Proof.
  intros Htot. induction l as [|x l IH]; cbn.
  - constructor.
  - now apply insert_by_ordered.
Qed.

Lemma ordered_skipn {A : Type} (leb : A -> A -> bool) (n : nat) (l : list A) :
  ordered leb l -> ordered leb (skipn n l).
Proof.
  unfold ordered. revert l. induction n as [|n IH]; intros [|x l] Hs; cbn; auto.
  apply IH. now inversion Hs.
Qed.

Lemma ordered_firstn {A : Type} (leb : A -> A -> bool) (n : nat) (l : list A) :
  ordered leb l -> ordered leb (firstn n l).
Proof.
  unfold ordered. revert l. induction n as [|n IH]; intros [|x l] Hs; cbn;
    try constructor.
  - apply IH. now inversion Hs.
  - inversion Hs as [|? ? _ Hhd]; subst.
    destruct l as [|y l]; destruct n; cbn; constructor. now inversion Hhd.
Qed.

Lemma limit_offset_inr {A : Type} (limit offset : option Z) (rows page : list A) :
  limit_offset limit offset rows = inr page ->
  exists l o,
    limit = Some l /\ offset = Some o /\ 0 <= l /\ 0 <= o
    /\ page = firstn (Z.to_nat l) (skipn (Z.to_nat o) rows).
Proof.
  unfold limit_offset. destruct limit as [l|]; [|discriminate].
  destruct offset as [o|]; [|discriminate].
  destruct (fits_bigint l && fits_bigint o); cbn [negb]; [|discriminate].
  destruct (l <? 0) eqn:Hl; [discriminate|].
  destruct (o <? 0) eqn:Ho; [discriminate|].
  intros [= <-]. exists l, o. repeat split; lia.
Qed.

Lemma fits_bigint_bounds z :
  fits_bigint z = true <-> -9223372036854775808 <= z <= 9223372036854775807.
Proof. unfold fits_bigint. rewrite andb_true_iff, !Z.leb_le. tauto. Qed.

Lemma fits_integer_bounds z :
  fits_integer z = true <-> -2147483648 <= z <= 2147483647.
Proof. unfold fits_integer. rewrite andb_true_iff, !Z.leb_le. tauto. Qed.

Lemma Qle_bool_total a b : Qle_bool a b = false -> Qle_bool b a = true.
Proof.
  intros H. apply Qle_bool_iff. apply Qlt_le_weak. apply Qnot_le_lt.
  intros C. apply Qle_bool_iff in C. congruence.
Qed.

Lemma string_leb_total a b : String.leb a b = false -> String.leb b a = true.
Proof. intros H. destruct (String.leb_total a b); congruence. Qed.

Lemma sorting_total sort_by a b :
  sorting sort_by a b = false -> sorting sort_by b a = true.
Proof.
  unfold sorting. destruct sort_by as [s|].
  - destruct (String.eqb s "price_low_to_high");
      [|destruct (String.eqb s "price_high_to_low")];
      unfold price_desc, price_asc, created_at_desc; intros H;
      first [now apply Qle_bool_total | now apply string_leb_total].
  - unfold created_at_desc. apply string_leb_total.
Qed.

Lemma firstn_length_bound {A : Type} (n : nat) (l : list A) :
  (List.length (firstn n l) <= n)%nat.
Proof. rewrite length_firstn. lia. Qed.

Section SearchPages.
Variable ilike : string -> string -> bool.

(** X1.  The properties of an answer come in the order the query asks
    for: by price upwards for [price_low_to_high], by price downwards for
    [price_high_to_low], newest first for any other [sort_by] and for
    none. *)
Theorem search_results_in_requested_order d q st res :
  search_properties ilike d q = Json st res ->
  ordered (sorting (SearchParams.sort_by q)) (response_properties res)
  /\ (SearchParams.sort_by q = Some "price_low_to_high" ->
      ordered price_asc (response_properties res))
  /\ (SearchParams.sort_by q = Some "price_high_to_low" ->
      ordered price_desc (response_properties res))
  /\ (SearchParams.sort_by q <> Some "price_low_to_high" ->
      SearchParams.sort_by q <> Some "price_high_to_low" ->
      ordered created_at_desc (response_properties res)).
Proof.
  intros Hs. apply search_ok in Hs. destruct Hs as (_ & Hrows & _).
  apply select_page_inr in Hrows.
  destruct Hrows as (l & o & _ & _ & _ & _ & _ & _ & _ & _ & ->).
  assert (Hord : ordered (sorting (SearchParams.sort_by q))
                   (firstn (Z.to_nat l)
                      (skipn (Z.to_nat o)
                         (order_by (sorting (SearchParams.sort_by q))
                            (filter (where_clause ilike d q) (properties d)))))).
  { apply ordered_firstn, ordered_skipn, order_by_ordered, sorting_total. }
  split; [exact Hord|]. repeat split.
  - intros E. rewrite E in Hord |- *. exact Hord.
  - intros E. rewrite E in Hord |- *. exact Hord.
  - intros N1 N2.
    assert (Hsort : sorting (SearchParams.sort_by q) = created_at_desc).
    { unfold sorting. destruct (SearchParams.sort_by q) as [s|]; [|reflexivity].
      destruct (String.eqb s "price_low_to_high") eqn:E1;
        [apply String.eqb_eq in E1; congruence|].
      destruct (String.eqb s "price_high_to_low") eqn:E2;
        [apply String.eqb_eq in E2; congruence|].
      reflexivity. }
    rewrite Hsort in Hord |- *. exact Hord.
Qed.

(** X2.  A search that is answered with a page was given a [limit] and
    an [offset] that are numbers from 0 to 2^63 - 1 and, where [guests]
    filters, a [guests] within the 32 bits of the column; the page holds
    at most [limit] properties, whatever the number of matches.  A search
    whose [limit] or [offset] is no number, is negative or is beyond 64
    bits, or whose [guests] is beyond 32 bits, is answered 500. *)
Theorem search_page_within_limit d q :
  (forall st res,
      search_properties ilike d q = Json st res ->
      st = 200%nat
      /\ exists l o,
           SearchParams.limit q = Some l /\ SearchParams.offset q = Some o
           /\ 0 <= l <= 9223372036854775807
           /\ 0 <= o <= 9223372036854775807
           /\ guests_fit q = true
           /\ Z.of_nat (List.length (response_properties res)) <= l)
  /\ (SearchParams.limit q = None \/ SearchParams.offset q = None
      \/ (exists l, SearchParams.limit q = Some l
                    /\ (l < 0 \/ 9223372036854775807 < l))
      \/ (exists o, SearchParams.offset q = Some o
                    /\ (o < 0 \/ 9223372036854775807 < o))
      \/ (exists g, SearchParams.guests q = Some g
                    /\ (g < -2147483648 \/ 2147483647 < g)) ->
      search_properties ilike d q
      = ErrorResponse 500 "Internal server error" "INTERNAL_SERVER_ERROR").
Proof.
  assert (Hok : forall st res,
             search_properties ilike d q = Json st res ->
             st = 200%nat
             /\ exists l o,
                  SearchParams.limit q = Some l /\ SearchParams.offset q = Some o
                  /\ 0 <= l <= 9223372036854775807
                  /\ 0 <= o <= 9223372036854775807
                  /\ guests_fit q = true
                  /\ Z.of_nat (List.length (response_properties res)) <= l).
  { intros st res Hs. apply search_ok in Hs. destruct Hs as (Hst & Hrows & _).
    split; [exact Hst|].
    apply select_page_inr in Hrows.
    destruct Hrows as (l & o & Hl & Ho & Hl0 & Ho0 & Fl & Fo & Hg & _ & ->).
    apply fits_bigint_bounds in Fl, Fo.
    exists l, o. repeat split; try assumption; try lia.
    pose proof (firstn_length_bound (Z.to_nat l)
                  (skipn (Z.to_nat o)
                     (order_by (sorting (SearchParams.sort_by q))
                        (filter (where_clause ilike d q) (properties d))))).
    lia. }
  split; [exact Hok|].
  intros Hbad.
  destruct (search_properties ilike d q) as [st res|st m c] eqn:Hs.
  - exfalso. destruct (Hok st res eq_refl)
      as (_ & l & o & Hl & Ho & Hl0 & Ho0 & Hg & _).
    destruct Hbad as [E | [E | [(l' & E & B) | [(o' & E & B) | (g & E & B)]]]];
      try congruence.
    + rewrite Hl in E. injection E as <-. lia.
    + rewrite Ho in E. injection E as <-. lia.
    + unfold guests_fit in Hg. rewrite E in Hg.
      unfold truthy_Z in Hg. cbn [if_given] in Hg.
      destruct (g =? 0) eqn:G0; [lia|]. cbn in Hg.
      apply fits_integer_bounds in Hg. lia.
  - unfold search_properties in Hs. destruct (select_page ilike d q); [|discriminate].
    symmetry. exact Hs.
Qed.

Ltac blank_cases :=
  repeat match goal with
    | |- context [truthy_string ?x] =>
        let E := fresh "E" in destruct (truthy_string x) eqn:E
    | |- context [truthy_Z ?x] =>
        let E := fresh "E" in destruct (truthy_Z x) eqn:E
    | |- context [truthy_Q ?x] =>
        let E := fresh "E" in destruct (truthy_Q x) eqn:E
    | |- context [match ?x with Some _ => _ | None => _ end] =>
        is_var x; destruct x
    end; cbn [andb] in *; try reflexivity; try congruence.

Lemma where_clause_drop_blank d q p :
  where_clause ilike d (drop_blank q) p = where_clause ilike d q p.
Proof.
  destruct q as [lo ci co gu pmin pmax pt am sb li off].
  set (q := SearchParams.mk lo ci co gu pmin pmax pt am sb li off).
  assert (L1 : location_filter ilike (drop_blank q) p = location_filter ilike q p).
  { unfold location_filter, drop_blank, blank_to_none, q.
    cbn [SearchParams.location]. blank_cases. }
  assert (L2 : guests_filter (drop_blank q) p = guests_filter q p).
  { unfold guests_filter, drop_blank, q. cbn [SearchParams.guests]. blank_cases. }
  assert (L3 : price_min_filter (drop_blank q) p = price_min_filter q p).
  { unfold price_min_filter, drop_blank, q. cbn [SearchParams.price_min].
    blank_cases. }
  assert (L4 : price_max_filter (drop_blank q) p = price_max_filter q p).
  { unfold price_max_filter, drop_blank, q. cbn [SearchParams.price_max].
    blank_cases. }
  assert (L5 : property_type_filter (drop_blank q) p = property_type_filter q p).
  { unfold property_type_filter, drop_blank, blank_to_none, q.
    cbn [SearchParams.property_type]. blank_cases. }
  assert (L6 : amenities_filter ilike (drop_blank q) p = amenities_filter ilike q p).
  { unfold amenities_filter, drop_blank, blank_to_none, q.
    cbn [SearchParams.amenities]. blank_cases. }
  assert (L7 : date_filter d (drop_blank q) p = date_filter d q p).
  { unfold date_filter, drop_blank, q.
    cbn [SearchParams.check_in SearchParams.check_out].
    blank_cases;
      repeat match goal with
        | H : truthy_string (Some _) = _ |- _ => rewrite H; clear H
        end;
      reflexivity. }
  unfold where_clause, attribute_filters.
  now rewrite L1, L2, L3, L4, L5, L6, L7.
Qed.

Lemma guests_fit_drop_blank q : guests_fit (drop_blank q) = guests_fit q.
Proof.
  destruct q as [lo ci co gu pmin pmax pt am sb li off].
  unfold guests_fit, drop_blank. cbn [SearchParams.guests]. blank_cases.
Qed.

Lemma texts_fit_drop_blank q : texts_fit (drop_blank q) = texts_fit q.
Proof.
  destruct q as [lo ci co gu pmin pmax pt am sb li off].
  unfold texts_fit, drop_blank, blank_to_none.
  cbn [SearchParams.location SearchParams.property_type SearchParams.amenities
       SearchParams.check_in SearchParams.check_out].
  blank_cases.
Qed.

(** X3.  A filter given as an empty string or as zero filters nothing,
    and the dates filter nothing unless both are given: the search answers
    as it does without them.  A search with [check_in] alone lists the
    properties blocked on that date. *)
Theorem search_ignores_blank_filters d q :
  search_properties ilike d q = search_properties ilike d (drop_blank q).
Proof.
  unfold search_properties, select_page.
  replace (filter (where_clause ilike d (drop_blank q)) (properties d))
    with (filter (where_clause ilike d q) (properties d))
    by (apply filter_ext; intros p; symmetry; apply where_clause_drop_blank).
  rewrite guests_fit_drop_blank, texts_fit_drop_blank.
  reflexivity.
Qed.

End SearchPages.

(** ** Rejected requests *)

Lemma update_properties_inr id u d rows d1 :
  update_properties id u d = inr (rows, d1) ->
  d1 = set_properties d
         (map (fun p => if String.eqb (Property.property_id p) id
                        then set_property_fields u p else p) (properties d))
  /\ rows = map (set_property_fields u)
              (filter (fun p => String.eqb (Property.property_id p) id) (properties d)).
Proof.
  unfold update_properties. intros H.
  destruct (property_update_fits_integer u); cbn [negb] in H; [|discriminate].
  destruct (property_update_fits_text u); cbn [negb] in H; [|discriminate].
  destruct (forallb _ _); [|discriminate]. now injection H as <- <-.
Qed.

Lemma update_notifications_rejected id u d :
  update_notifications id u d = inl indeterminate_datatype.
Proof.
  unfold update_notifications.
  replace (1 + updateNotificationFields u + 1 <=? updateNotificationFields u + 1)%nat
    with false by (symmetry; apply Nat.leb_gt; lia).
  reflexivity.
Qed.

Lemma update_bookings_inl id u now d e :
  update_bookings id u now d = inl e -> exists code, e = PgError code.
Proof.
  unfold update_bookings. intros H.
  destruct (negb (update_fits_integer u)); [injection H as <-; now eexists|].
  destruct (negb (update_fits_text u)); [injection H as <-; now eexists|].
  destruct (forallb _ _); [discriminate|]. injection H as <-; now eexists.
Qed.

Lemma update_properties_inl id u d e :
  update_properties id u d = inl e -> exists code, e = PgError code.
Proof.
  unfold update_properties. intros H.
  destruct (negb (property_update_fits_integer u)); [injection H as <-; now eexists|].
  destruct (negb (property_update_fits_text u)); [injection H as <-; now eexists|].
  destruct (forallb _ _); [discriminate|]. injection H as <-; now eexists.
Qed.

Lemma update_notifications_inl id u d e :
  update_notifications id u d = inl e -> e = indeterminate_datatype.
Proof. rewrite update_notifications_rejected. now intros [= <-]. Qed.

Lemma insert_booking_inl b d e :
  insert_booking b d = inl e -> exists code, e = PgError code.
Proof.
  unfold insert_booking. intros H.
  destruct (negb (fits_integer _)); [injection H as <-; now eexists|].
  destruct (negb (if_given _ _)); [injection H as <-; now eexists|].
  destruct (existsb _ (bookings d)); [injection H as <-; now eexists|].
  destruct (match select_property d (Booking.property_id b) with
            | Some _ => _ | None => _ end); [discriminate|].
  injection H as <-; now eexists.
Qed.

Lemma insert_conversation_inl c d e :
  insert_conversation c d = inl e -> exists code, e = PgError code.
Proof.
  unfold insert_conversation. intros H.
  destruct (existsb _ (conversations d)); [injection H as <-; now eexists|].
  destruct (match select_booking d (Conversation.booking_id c) with
            | Some _ => _ | None => _ end); [discriminate|].
  injection H as <-; now eexists.
Qed.

Lemma insert_review_inl r d e :
  insert_review r d = inl e -> exists code, e = PgError code.
Proof.
  unfold insert_review. intros H.
  destruct (negb (if_given _ _)); [injection H as <-; now eexists|].
  destruct (existsb _ (reviews d)); [injection H as <-; now eexists|].
  destruct (match select_booking d (Review.booking_id r),
                  select_property d (Review.property_id r) with
            | Some _, Some _ => _ | _, _ => _ end); [discriminate|].
  injection H as <-; now eexists.
Qed.

(** A statement that failed raised an error of PostgreSQL, which the
    [catch] block answers with 500. *)
Ltac failed_statement :=
  repeat match goal with
    | H : insert_booking _ _ = inl _ |- _ =>
        apply insert_booking_inl in H; destruct H as (? & ->)
    | H : insert_conversation _ _ = inl _ |- _ =>
        apply insert_conversation_inl in H; destruct H as (? & ->)
    | H : insert_notification _ _ = inl _ |- _ =>
        apply insert_notification_inl in H; destruct H as (? & ->)
    | H : insert_review _ _ = inl _ |- _ =>
        apply insert_review_inl in H; destruct H as (? & ->)
    | H : update_bookings _ _ _ _ = inl _ |- _ =>
        apply update_bookings_inl in H; destruct H as (? & ->)
    | H : update_properties _ _ _ = inl _ |- _ =>
        apply update_properties_inl in H; destruct H as (? & ->)
    | H : update_notifications _ _ _ = inl _ |- _ =>
        apply update_notifications_inl in H; subst
    | H : delete_from_search _ _ = inl _ |- _ => discriminate H
    | H : insert_on_conflict_update property_availability_indexes _ _ = inl _ |- _ =>
        rewrite insert_on_conflict_update_repository in H; injection H as <-
    | H : insert_on_conflict_update property_availability_indexes _ _ = inr _ |- _ =>
        rewrite insert_on_conflict_update_repository in H; discriminate H
    end.

(** Closes the case of an outcome [H] that is no client error, or that
    came before any write. *)
Ltac no_write H Hc :=
  first
    [ injection H as <- <-; first [reflexivity | cbn in Hc; lia | now destruct Hc]
    | match type of H with
      | (catch ?e, _) = _ =>
          failed_statement; injection H as <- <-;
          first [reflexivity | cbn in Hc; lia]
      end
    | match type of H with
      | (catch ?e, _) = _ =>
          destruct e; injection H as <- <-;
          first [reflexivity | cbn in Hc; lia]
      end ].

Section Rejections.
Variable coerce_date : json -> option string.

Lemma create_booking_client_error user body n1 n2 n3 now d r d' :
  create_booking coerce_date user body n1 n2 n3 now d = (r, d') ->
  client_error r -> d' = d.
Proof.
  intros H Hc. unfold create_booking in H. invert_handler H; no_write H Hc.
Qed.

Lemma update_booking_client_error user id body t1 n t2 d r d' :
  update_booking coerce_date user id body t1 n t2 d = (r, d') ->
  client_error r -> d' = d.
Proof.
  intros H Hc. unfold update_booking in H. invert_handler H; no_write H Hc.
Qed.

Lemma create_review_client_error user id body n1 n2 now d r d' :
  create_review user id body n1 n2 now d = (r, d') ->
  client_error r -> d' = d.
Proof.
  intros H Hc. unfold create_review in H. invert_handler H; no_write H Hc.
Qed.

Lemma create_property_client_error user body n now d r d' :
  create_property user body n now d = (r, d') -> client_error r -> d' = d.
Proof.
  intros H Hc. unfold create_property in H. invert_handler H; no_write H Hc.
Qed.

Lemma delete_property_client_error user id d r d' :
  delete_property user id d = (r, d') -> client_error r -> d' = d.
Proof.
  intros H Hc. unfold delete_property in H. invert_handler H; no_write H Hc.
Qed.

Lemma update_property_client_error user id body d r d' :
  update_property user id body d = (r, d') -> client_error r -> d' = d.
Proof.
  intros H Hc. unfold update_property in H. invert_handler H; no_write H Hc.
Qed.

Lemma create_conversation_client_error user body n now d r d' :
  create_conversation user body n now d = (r, d') -> client_error r -> d' = d.
Proof.
  intros H Hc. unfold create_conversation in H. invert_handler H; no_write H Hc.
Qed.

Lemma update_notification_client_error user id body d r d' :
  update_notification user id body d = (r, d') -> client_error r -> d' = d.
Proof.
  intros H Hc. unfold update_notification in H. invert_handler H; no_write H Hc.
Qed.

End Rejections.

Section RejectionsTogether.
Variable coerce_date : json -> option string.

(** X4.  None of the mutating routes embedded here writes before it
    answers with a client error: after an answer with a status from 400
    to 499 (validation, missing row, wrong caller, nothing to update,
    review gate) the store is as it was before the request. *)
Theorem client_errors_write_nothing :
  (forall user body n1 n2 n3 now,
      rejects_without_writing (create_booking coerce_date user body n1 n2 n3 now))
  /\ (forall user booking_id body now_update nanoid now,
         rejects_without_writing
           (update_booking coerce_date user booking_id body now_update nanoid now))
  /\ (forall user booking_id body n1 n2 now,
         rejects_without_writing (create_review user booking_id body n1 n2 now))
  /\ (forall user property_id body nanoid,
         rejects_without_writing
           (set_availability coerce_date user property_id body nanoid))
  /\ (forall user body nanoid now,
         rejects_without_writing (create_property user body nanoid now))
  /\ (forall user property_id,
         rejects_without_writing (delete_property user property_id))
  /\ (forall user property_id body,
         rejects_without_writing (update_property user property_id body))
  /\ (forall user body nanoid now,
         rejects_without_writing (create_conversation user body nanoid now))
  /\ (forall user notification_id body,
         rejects_without_writing (update_notification user notification_id body)).
Proof.
  unfold rejects_without_writing. repeat split; intros.
  - eapply create_booking_client_error; eassumption.
  - eapply update_booking_client_error; eassumption.
  - eapply create_review_client_error; eassumption.
  - match goal with
    | H : set_availability _ _ _ _ _ ?d = (_, ?d') |- _ =>
        pose proof (set_availability_unchanged coerce_date user property_id body
                      nanoid d) as Hs;
        rewrite H in Hs; exact Hs
    end.
  - eapply create_property_client_error; eassumption.
  - eapply delete_property_client_error; eassumption.
  - eapply update_property_client_error; eassumption.
  - eapply create_conversation_client_error; eassumption.
  - eapply update_notification_client_error; eassumption.
Qed.

End RejectionsTogether.

(** ** Updates that name no column *)

Lemma names_none_spread columns body k v key :
  names_none columns body -> In key columns -> key <> k ->
  spread_with body k v key = None.
Proof.
  intros Hn Hin Hne. unfold spread_with.
  destruct (String.eqb key k) eqn:E; [apply String.eqb_eq in E; congruence|].
  now apply Hn.
Qed.

Ltac absent_key Hn :=
  match goal with
  | |- context [spread_with ?body ?k ?v ?key] =>
      rewrite (names_none_spread _ body k v key Hn)
        by (first [cbn; tauto | discriminate])
  end.

Section EmptyUpdates.
Variable coerce_date : json -> option string.

Lemma no_booking_column_parses booking_id body :
  names_none booking_columns body ->
  updateBookingInputSchema coerce_date
    (spread_with body "booking_id" (JStr booking_id))
  = Some (UpdateBookingInput.mk booking_id None None None None None None None None
            None None).
Proof.
  intros Hn. unfold updateBookingInputSchema.
  repeat absent_key Hn. reflexivity.
Qed.

Lemma no_property_column_parses property_id body :
  names_none property_columns body ->
  exists u,
    updatePropertyInputSchema (spread_with body "property_id" (JStr property_id))
    = Some u
    /\ updatePropertyFields u = 0%nat.
Proof.
  intros Hn. unfold updatePropertyInputSchema.
  repeat absent_key Hn. eexists; split; reflexivity.
Qed.

Lemma no_notification_column_parses notification_id body :
  names_none notification_columns body ->
  exists u,
    updateNotificationInputSchema
      (spread_with body "notification_id" (JStr notification_id)) = Some u
    /\ updateNotificationFields u = 0%nat.
Proof.
  intros Hn. unfold updateNotificationInputSchema.
  repeat absent_key Hn. eexists; split; reflexivity.
Qed.

(** X5.  An update that names no column is refused: for a caller who
    passes the access test, a [PATCH] of a booking, of a property or of a
    notification whose body binds none of the columns (an empty body, or
    one with unknown keys only) is answered 400 [NO_UPDATE_FIELDS] and
    writes nothing. *)
Theorem update_without_columns_is_refused user d :
  (forall booking_id body now_update nanoid now b,
      select_booking d booking_id = Some b ->
      party_or_admin user b ->
      names_none booking_columns body ->
      update_booking coerce_date user booking_id body now_update nanoid now d
      = (ErrorResponse 400 "No valid fields to update" "NO_UPDATE_FIELDS", d))
  /\ (forall property_id body p,
         select_property d property_id = Some p ->
         not_owner_nor_admin user (Property.host_id p) = false ->
         names_none property_columns body ->
         update_property user property_id body d
         = (ErrorResponse 400 "No valid fields to update" "NO_UPDATE_FIELDS", d))
  /\ (forall notification_id body n,
         select_notification d notification_id = Some n ->
         not_owner_nor_admin user (Notification.user_id n) = false ->
         names_none notification_columns body ->
         update_notification user notification_id body d
         = (ErrorResponse 400 "No valid fields to update" "NO_UPDATE_FIELDS", d)).
Proof.
  split; [|split].
  - intros id body t1 n t2 b Hsel Hparty Hn. apply party_or_admin_spec in Hparty.
    unfold update_booking. unfold_handler.
    now rewrite Hsel, Hparty, (no_booking_column_parses id body Hn).
  - intros id body p Hsel Hown Hn.
    destruct (no_property_column_parses id body Hn) as (u & Hu & H0).
    unfold update_property. unfold_handler.
    now rewrite Hsel, Hown, Hu, H0.
  - intros id body n Hsel Hown Hn.
    destruct (no_notification_column_parses id body Hn) as (u & Hu & H0).
    unfold update_notification. unfold_handler.
    now rewrite Hsel, Hown, Hu, H0.
Qed.

End EmptyUpdates.

(** ** Booking updates *)

Lemma map_hit_field {A B : Type} (key : A -> string) (f : A -> B) (id : string)
  (g : A -> A) (l : list A) :
  (forall x, f (g x) = f x) ->
  map f (map (fun x => if String.eqb (key x) id then g x else x) l) = map f l.
Proof.
  intros Hg. rewrite map_map. apply map_ext. intros x.
  now destruct (String.eqb (key x) id).
Qed.

Lemma map_hit_others {A : Type} (key : A -> string) (id : string) (g : A -> A)
  (l : list A) (x : A) :
  In x l -> key x <> id ->
  In x (map (fun x => if String.eqb (key x) id then g x else x) l).
Proof.
  intros Hin Hne. apply in_map_iff. exists x. split; [|assumption].
  apply String.eqb_neq in Hne. now rewrite Hne.
Qed.

Section BookingUpdates.
Variable coerce_date : json -> option string.

(** The notifications an update answered 200 has added. *)
Lemma update_booking_ok_notifications user id body t1 nano t2 d ob d' b u :
  update_booking coerce_date user id body t1 nano t2 d = (Json 200 ob, d') ->
  select_booking d id = Some b ->
  updateBookingInputSchema coerce_date (spread_with body "booking_id" (JStr id))
  = Some u ->
  notifications d'
  = (notifications d
     ++ match UpdateBookingInput.status u with
        | Some s =>
            if negb (booking_status_eqb s (Booking.status b))
            then match status_notification user b s with
                 | Some (uid, ty, ti, me) =>
                     if truthy_string (Some uid)
                     then [booking_notification nano uid ty ti me id t2]
                     else []
                 | None => []
                 end
            else []
        | None => []
        end)%list.
Proof.
  intros H Hsel Hu. unfold update_booking in H. unfold_handler.
  rewrite Hsel, Hu in H. cbn beta iota zeta in H.
  repeat case_split H; injection H as _ <-; resolve_writes; cbn;
    now rewrite ?app_nil_r.
Qed.

Lemma booking_status_eqb_eq a b : booking_status_eqb a b = true <-> a = b.
Proof. destruct a, b; cbn; split; congruence. Qed.

(** X6.  Who is told of a status change.  After an update answered 200:
    a change to [confirmed] or to [declined] adds one notification for
    the guest of the booking; a change to [cancelled] adds one for the
    host when the caller is the guest and for the guest when the caller
    is anyone else, an admin included; a change to [completed] or to
    [pending], a status equal to the current one and a body without
    status add none. *)
Theorem status_change_notifies_the_other_party
  user booking_id body now_update nanoid now d ob d' b u :
  update_booking coerce_date user booking_id body now_update nanoid now d
  = (Json 200 ob, d') ->
  select_booking d booking_id = Some b ->
  updateBookingInputSchema coerce_date
    (spread_with body "booking_id" (JStr booking_id)) = Some u ->
  (UpdateBookingInput.status u = Some confirmed ->
   Booking.status b <> confirmed -> Booking.guest_id b <> "" ->
   notifications d'
   = (notifications d
      ++ [booking_notification nanoid (Booking.guest_id b) "booking_confirmed"
            "Booking Confirmed" "Your booking has been confirmed by the host"
            booking_id now])%list)
  /\ (UpdateBookingInput.status u = Some declined ->
      Booking.status b <> declined -> Booking.guest_id b <> "" ->
      notifications d'
      = (notifications d
         ++ [booking_notification nanoid (Booking.guest_id b) "booking_declined"
               "Booking Declined" "Your booking request has been declined"
               booking_id now])%list)
  /\ (UpdateBookingInput.status u = Some cancelled ->
      Booking.status b <> cancelled ->
      Booking.guest_id b <> "" -> Booking.host_id b <> "" ->
      exists target,
        notifications d'
        = (notifications d
           ++ [booking_notification nanoid target "booking_cancelled"
                 "Booking Cancelled" "A booking has been cancelled"
                 booking_id now])%list
        /\ (User.user_id user = Booking.guest_id b -> target = Booking.host_id b)
        /\ (User.user_id user <> Booking.guest_id b -> target = Booking.guest_id b))
  /\ (UpdateBookingInput.status u = None
      \/ UpdateBookingInput.status u = Some (Booking.status b)
      \/ UpdateBookingInput.status u = Some completed
      \/ UpdateBookingInput.status u = Some pending ->
      notifications d' = notifications d).
Proof.
  intros H Hsel Hu.
  pose proof (update_booking_ok_notifications _ _ _ _ _ _ _ _ _ _ _ H Hsel Hu) as Hn.
  assert (Hneq : forall s, Booking.status b <> s ->
                           negb (booking_status_eqb s (Booking.status b)) = true).
  { intros s Hs. apply negb_true_iff.
    destruct (booking_status_eqb s (Booking.status b)) eqn:E; [|reflexivity].
    apply booking_status_eqb_eq in E. congruence. }
  assert (Htruthy : forall s, s <> "" -> truthy_string (Some s) = true).
  { intros s Hs. cbn. apply negb_true_iff. now apply String.eqb_neq. }
  repeat split.
  - intros Hs Hst Hg. rewrite Hs, (Hneq _ Hst) in Hn.
    cbn [status_notification] in Hn. now rewrite (Htruthy _ Hg) in Hn.
  - intros Hs Hst Hg. rewrite Hs, (Hneq _ Hst) in Hn.
    cbn [status_notification] in Hn. now rewrite (Htruthy _ Hg) in Hn.
  - intros Hs Hst Hg Hh. rewrite Hs, (Hneq _ Hst) in Hn.
    cbn [status_notification] in Hn.
    destruct (String.eqb (User.user_id user) (Booking.guest_id b)) eqn:E.
    + apply String.eqb_eq in E. rewrite (Htruthy _ Hh) in Hn.
      exists (Booking.host_id b). repeat split; [exact Hn | congruence].
    + apply String.eqb_neq in E. rewrite (Htruthy _ Hg) in Hn.
      exists (Booking.guest_id b). repeat split; [exact Hn | congruence].
  - intros [Hs | [Hs | [Hs | Hs]]]; rewrite Hs in Hn; cbn in Hn.
    + now rewrite app_nil_r in Hn.
    + assert (booking_status_eqb (Booking.status b) (Booking.status b) = true) as E
          by now apply booking_status_eqb_eq.
      rewrite E in Hn. cbn in Hn. now rewrite app_nil_r in Hn.
    + destruct (negb _) in Hn; now rewrite app_nil_r in Hn.
    + destruct (negb _) in Hn; now rewrite app_nil_r in Hn.
Qed.

(** X7.  An update of a booking, whatever its outcome, deletes no
    booking and re-identifies none: the bookings after it carry the ids
    and the creation dates of the bookings before it, each as many times,
    and every booking with another id is as it was; no table other than
    [bookings] and [notifications] changes, and [notifications] grows by
    one row at most.  Where the rows stand in the table is not stated. *)
Theorem update_booking_touches_one_booking
  user booking_id body now_update nanoid now d :
  let d' := snd (update_booking coerce_date user booking_id body now_update nanoid
                   now d) in
  Permutation
    (map (fun x => (Booking.booking_id x, Booking.created_at x)) (bookings d'))
    (map (fun x => (Booking.booking_id x, Booking.created_at x)) (bookings d))
  /\ (forall x, In x (bookings d) -> Booking.booking_id x <> booking_id ->
                In x (bookings d'))
  /\ users d' = users d
  /\ properties d' = properties d
  /\ property_availability d' = property_availability d
  /\ conversations d' = conversations d
  /\ reviews d' = reviews d
  /\ exists added,
      notifications d' = (notifications d ++ added)%list
      /\ (List.length added <= 1)%nat.
Proof.
  destruct (update_booking coerce_date user booking_id body now_update nanoid now d)
    as [r d'] eqn:H.
  cbn [snd]. unfold update_booking in H.
  invert_handler H; injection H as _ <-; resolve_writes;
    cbn [bookings users properties property_availability conversations reviews
           notifications set_bookings set_notifications];
    (split; [try reflexivity;
             rewrite (map_hit_field Booking.booking_id
                        (fun x => (Booking.booking_id x, Booking.created_at x)));
             reflexivity|]);
    (split; [first [ tauto
                   | intros x Hin Hne;
                     now apply (map_hit_others Booking.booking_id) ]|]);
    repeat (split; [reflexivity|]);
    first [ exists []; rewrite app_nil_r; split; [reflexivity | cbn; lia]
          | eexists [_]; split; [reflexivity | cbn; lia] ].
Qed.

End BookingUpdates.

(** ** Booking creation *)

(** Splits a goal on the scrutinee of its innermost [match]. *)
Ltac split_goal_match :=
  match goal with
  | |- context [match ?x with _ => _ end] =>
      lazymatch x with
      | context [match _ with _ => _ end] => fail
      | _ => destruct x
      end
  end.

Section BookingCreation.
Variable coerce_date : json -> option string.

Lemma parsed_guest_is_caller user body data :
  createBookingInputSchema coerce_date
    (spread_with body "guest_id" (JStr (User.user_id user))) = Some data ->
  CreateBookingInput.guest_id data = Some (User.user_id user).
Proof.
  unfold createBookingInputSchema. intros H.
  change (spread_with body "guest_id" (JStr (User.user_id user)) "guest_id")
    with (Some (JStr (User.user_id user))) in H.
  cbn [Zod.optional Zod.string_ option_map] in H.
  destruct (Zod.between 1 None (String.length (User.user_id user)));
    cbn [option_map] in H; repeat case_split H; injection H as <-; reflexivity.
Qed.

(** X8.  Booking creation is not one transaction.  When the booking can
    be inserted (its [guest_count] is within the 32 bits of the column,
    its [special_requests] have no NUL character, its property, its guest
    and its host are in the store and its id is free) and the conversation
    cannot (its id is taken), the request is answered 500 and the booking
    stays in the store, without a conversation and without a notification
    for the host. *)
Theorem create_booking_is_not_atomic user body n1 n2 n3 now d data p :
  createBookingInputSchema coerce_date
    (spread_with body "guest_id" (JStr (User.user_id user))) = Some data ->
  fits_integer (CreateBookingInput.guest_count data) = true ->
  if_given fits_text (to_sql (CreateBookingInput.special_requests data)) = true ->
  select_property d (CreateBookingInput.property_id data) = Some p ->
  user_exists d (User.user_id user) = true ->
  user_exists d (Property.host_id p) = true ->
  select_booking d ("book_" ++ n1) = None ->
  existsb (fun x => String.eqb (Conversation.conversation_id x) ("conv_" ++ n2))
          (conversations d) = true ->
  exists b d',
    create_booking coerce_date user body n1 n2 n3 now d
    = (ErrorResponse 500 "Internal server error" "INTERNAL_SERVER_ERROR", d')
    /\ bookings d' = (bookings d ++ [b])%list
    /\ Booking.booking_id b = "book_" ++ n1
    /\ conversations d' = conversations d
    /\ notifications d' = notifications d
    /\ select_conversations_of_booking d' (Booking.booking_id b)
       = select_conversations_of_booking d (Booking.booking_id b).
Proof.
  intros Hd Hi Ht Hp Ug Uh Fb Fc.
  pose proof (parsed_guest_is_caller _ _ _ Hd) as Hg.
  unfold create_booking. unfold_handler. rewrite Hd, Hp, Hg.
  erewrite insert_booking_succeeds by eassumption.
  unfold insert_conversation at 1.
  cbn [conversations set_bookings Conversation.conversation_id].
  rewrite Fc. eexists _, _. split; [reflexivity|]. cbn. repeat split.
Qed.

(** X9.  The guest of a booking is the caller and its host the host of
    the property, whatever the body says: a [guest_id] and a [host_id] in
    the body change nothing in what the request does, and a booking
    answered with 201 has the caller as guest, the id built from the
    generated one, and the time of the request as its two timestamps. *)
Theorem create_booking_guest_is_the_caller user body n1 n2 n3 now d :
  (forall guest_id host_id,
      create_booking coerce_date user
        (spread_with (spread_with body "guest_id" guest_id) "host_id" host_id)
        n1 n2 n3 now d
      = create_booking coerce_date user body n1 n2 n3 now d)
  /\ (forall b d',
         create_booking coerce_date user body n1 n2 n3 now d = (Json 201 b, d') ->
         Booking.guest_id b = User.user_id user
         /\ (exists p, select_property d (Booking.property_id b) = Some p
                       /\ Booking.host_id b = Property.host_id p)
         /\ Booking.booking_id b = "book_" ++ n1
         /\ Booking.created_at b = now
         /\ Booking.updated_at b = now).
Proof.
  split.
  - intros x y. unfold create_booking.
    replace (createBookingInputSchema coerce_date
               (spread_with
                  (spread_with (spread_with body "guest_id" x) "host_id" y)
                  "guest_id" (JStr (User.user_id user))))
      with (createBookingInputSchema coerce_date
              (spread_with body "guest_id" (JStr (User.user_id user))))
      by reflexivity.
    reflexivity.
  - intros b d' H.
    destruct (create_booking_created _ _ _ _ _ _ _ _ _ _ H)
      as (data & p & g & d1 & d2 & Hd & Hp & Hg & Hb & _).
    rewrite (parsed_guest_is_caller _ _ _ Hd) in Hg. injection Hg as <-.
    subst b. cbn. repeat split; try reflexivity. now exists p.
Qed.

End BookingCreation.

(** ** Review creation *)

Lemma rating_in_range v n : rating v = Some n -> 1 <= n <= 5.
Proof.
  unfold rating, Zod.int_range. destruct v as [[| |q| |]|]; try discriminate.
  destruct (Zod.is_int q && (1 <=? Zod.to_int q) && (Zod.to_int q <=? 5)) eqn:E;
    [|discriminate].
  intros [= <-]. apply andb_true_iff in E. destruct E as (E & E2).
  apply andb_true_iff in E. destruct E as (_ & E1). lia.
Qed.

Lemma string_min1_value s v : Zod.string_ 1 None (Some (JStr s)) = Some v -> v = s.
Proof.
  cbn. destruct (Zod.between 1 None (String.length s)); [|discriminate].
  now intros [= <-].
Qed.

(** The review and the notification a creation answered 201 has written. *)
Lemma create_review_created user id body n1 n2 now d rv d' b :
  create_review user id body n1 n2 now d = (Json 201 rv, d') ->
  select_booking d id = Some b ->
  exists data,
    createReviewInputSchema
      (spread_with
         (spread_with
            (spread_with (spread_with body "booking_id" (JStr id))
               "property_id" (JStr (Booking.property_id b)))
            "reviewer_id" (JStr (User.user_id user)))
         "host_id" (JStr (Booking.host_id b))) = Some data
    /\ rv = Review.mk ("rev_" ++ n1) id
              (CreateReviewInput.property_id data)
              (CreateReviewInput.reviewer_id data)
              (CreateReviewInput.host_id data)
              (CreateReviewInput.cleanliness_rating data)
              (CreateReviewInput.accuracy_rating data)
              (CreateReviewInput.communication_rating data)
              (CreateReviewInput.location_rating data)
              (CreateReviewInput.check_in_rating data)
              (CreateReviewInput.value_rating data)
              (CreateReviewInput.overall_rating data)
              (to_sql (CreateReviewInput.comment data)) now now
    /\ reviews d' = (reviews d ++ [rv])%list
    /\ notifications d'
       = (notifications d
          ++ [Notification.mk ("not_" ++ n2)%string (Booking.host_id b)
                "review_received" "New Review"
                ("You received a new review from " ++ User.name user)%string
                (Some "review") (Some ("rev_" ++ n1)%string) false now])%list.
Proof.
  intros H Hsel. unfold create_review in H. unfold_handler.
  rewrite Hsel in H. cbn beta iota zeta in H.
  repeat case_split H. injection H as Hrv Hd'. subst rv d'. resolve_writes.
  eexists. split; [reflexivity|]. repeat split.
Qed.

(** X10.  What a review records comes from the booking and the caller,
    not from the body: a review answered with 201 is the review of that
    booking, of the property and the host of the booking, written by the
    caller, with its seven ratings between 1 and 5; and one notification
    of type [review_received] for the host of the booking is added. *)
Theorem review_records_the_booking_and_the_caller
  user booking_id body n1 n2 now d rv d' b :
  create_review user booking_id body n1 n2 now d = (Json 201 rv, d') ->
  select_booking d booking_id = Some b ->
  Review.booking_id rv = booking_id
  /\ Review.property_id rv = Booking.property_id b
  /\ Review.reviewer_id rv = User.user_id user
  /\ Review.host_id rv = Booking.host_id b
  /\ Forall (fun n => 1 <= n <= 5)
       [ Review.cleanliness_rating rv; Review.accuracy_rating rv;
         Review.communication_rating rv; Review.location_rating rv;
         Review.check_in_rating rv; Review.value_rating rv;
         Review.overall_rating rv ]
  /\ exists n,
      notifications d' = (notifications d ++ [n])%list
      /\ Notification.user_id n = Booking.host_id b
      /\ Notification.type n = "review_received"
      /\ Notification.related_entity_id n = Some (Review.review_id rv).
Proof.
  intros H Hsel.
  destruct (create_review_created _ _ _ _ _ _ _ _ _ _ H Hsel)
    as (data & Hd & -> & _ & Hn).
  unfold createReviewInputSchema in Hd.
  match type of Hd with
  | context [Zod.string_ 1 None (?o "property_id")] =>
      change (o "property_id") with (Some (JStr (Booking.property_id b))) in Hd;
      change (o "reviewer_id") with (Some (JStr (User.user_id user))) in Hd;
      change (o "host_id") with (Some (JStr (Booking.host_id b))) in Hd
  end.
  destruct (Zod.string_ 1 None (Some (JStr (Booking.property_id b)))) as [pid|] eqn:E1;
    [apply string_min1_value in E1; subst pid|now repeat case_split Hd].
  destruct (Zod.string_ 1 None (Some (JStr (User.user_id user)))) as [rid|] eqn:E2;
    [apply string_min1_value in E2; subst rid|now repeat case_split Hd].
  destruct (Zod.string_ 1 None (Some (JStr (Booking.host_id b)))) as [hid|] eqn:E3;
    [apply string_min1_value in E3; subst hid|now repeat case_split Hd].
  repeat case_split Hd. injection Hd as <-. cbn.
  repeat match goal with
         | H : rating _ = Some _ |- _ => apply rating_in_range in H
         end.
  do 4 (split; [reflexivity|]). split.
  - repeat (apply Forall_cons; [assumption|]). apply Forall_nil.
  - eexists. split; [exact Hn|]. repeat split.
Qed.

(** X11.  A rating that is missing, not a whole number or outside 1 to 5
    makes the review invalid: for the guest of a completed booking without
    a review, the creation is answered 400 [VALIDATION_ERROR] and writes
    nothing. *)
Theorem review_with_invalid_rating_is_rejected
  user booking_id body n1 n2 now d b key :
  select_booking d booking_id = Some b ->
  Booking.guest_id b = User.user_id user ->
  Booking.status b = completed ->
  select_reviews_of_booking d booking_id = [] ->
  In key rating_keys ->
  rating (body key) = None ->
  create_review user booking_id body n1 n2 now d
  = (ErrorResponse 400 "Validation error" "VALIDATION_ERROR", d).
Proof.
  intros Hsel Hg Hst Hnone Hkey Hbad.
  unfold create_review. unfold_handler.
  cbn beta iota zeta. rewrite Hsel. cbn beta iota zeta.
  rewrite Hg, String.eqb_refl, Hst.
  cbn [negb booking_status_eqb]. cbn beta iota zeta. rewrite Hnone.
  cbn [List.length Nat.ltb Nat.leb]. cbn beta iota zeta.
  match goal with
  | |- context [createReviewInputSchema ?o] =>
      assert (createReviewInputSchema o = None) as ->; [|reflexivity]
  end.
  unfold createReviewInputSchema.
  match goal with
  | |- context [rating (?o "cleanliness_rating")] =>
      change (o "cleanliness_rating") with (body "cleanliness_rating");
      change (o "accuracy_rating") with (body "accuracy_rating");
      change (o "communication_rating") with (body "communication_rating");
      change (o "location_rating") with (body "location_rating");
      change (o "check_in_rating") with (body "check_in_rating");
      change (o "value_rating") with (body "value_rating");
      change (o "overall_rating") with (body "overall_rating")
  end.
  cbn in Hkey.
  repeat (destruct Hkey as [<- | Hkey]; [rewrite Hbad; repeat split_goal_match;
                                         reflexivity|]).
  contradiction.
Qed.

(** ** Property listings *)

Lemma not_owner_nor_admin_false user h :
  not_owner_nor_admin user h = false <->
  h = User.user_id user \/ User.role user = "admin".
Proof.
  unfold not_owner_nor_admin.
  rewrite andb_false_iff, !negb_false_iff, !String.eqb_eq. tauto.
Qed.

Lemma not_owner_nor_admin_true user h :
  h <> User.user_id user -> User.role user <> "admin" ->
  not_owner_nor_admin user h = true.
Proof.
  intros H1 H2. unfold not_owner_nor_admin.
  apply String.eqb_neq in H1, H2. now rewrite H1, H2.
Qed.

(** What a deletion answered 204 has done. *)
Lemma delete_property_ok user id d r d' :
  delete_property user id d = (Json 204 r, d') ->
  exists p,
    select_property d id = Some p
    /\ not_owner_nor_admin user (Property.host_id p) = false
    /\ d' = set_properties d
              (map (fun p => if String.eqb (Property.property_id p) id
                             then with_is_active false p else p)
                   (properties d)).
Proof.
  intros H. unfold delete_property, delete_from_search in H. unfold_handler.
  cbn beta iota zeta in H. repeat case_split H.
  injection H as _ <-. eexists. repeat split; eassumption.
Qed.

(** What an update answered 200 has done. *)
Lemma update_property_ok user id body d r d' :
  update_property user id body d = (Json 200 r, d') ->
  exists p u,
    select_property d id = Some p
    /\ not_owner_nor_admin user (Property.host_id p) = false
    /\ updatePropertyInputSchema (spread_with body "property_id" (JStr id)) = Some u
    /\ changed_key_ok (UpdatePropertyInput.host_id u) (Property.host_id p)
         (user_exists d) = true
    /\ r = Some (set_property_fields u p)
    /\ d' = set_properties d
              (map (fun p => if String.eqb (Property.property_id p) id
                             then set_property_fields u p else p)
                   (properties d)).
Proof.
  intros H. unfold update_property in H. unfold_handler.
  cbn beta iota zeta in H. repeat case_split H.
  injection H as <- <-.
  match goal with
  | Hu : update_properties _ _ _ = inr _ |- _ =>
      unfold update_properties in Hu;
      destruct (property_update_fits_integer _) in Hu; cbn [negb] in Hu;
        [|discriminate Hu];
      destruct (property_update_fits_text _) in Hu; cbn [negb] in Hu;
        [|discriminate Hu];
      destruct (forallb _ _) eqn:Hfk in Hu; [|discriminate Hu];
      injection Hu as <- <-
  end.
  match goal with
  | Hs : select_property _ _ = Some ?p |- _ =>
      exists p; eexists; repeat split; try eassumption; try reflexivity
  end.
  - rewrite forallb_forall in Hfk. apply Hfk. apply filter_In.
    match goal with
    | Hs : select_property _ _ = Some _ |- _ =>
        unfold select_property in Hs; apply find_some in Hs; exact Hs
    end.
  - rewrite hd_error_map_filter.
    match goal with
    | Hs : select_property _ _ = Some _ |- _ =>
        unfold select_property in Hs; now rewrite Hs
    end.
Qed.

Lemma select_property_after_map id g l d :
  (forall p, Property.property_id (g p) = Property.property_id p) ->
  select_property
    (set_properties d
       (map (fun p => if String.eqb (Property.property_id p) id then g p else p) l)) id
  = option_map g (find (fun p => String.eqb (Property.property_id p) id) l).
Proof.
  intros Hg. unfold select_property. cbn [properties set_properties].
  apply (find_map_hit (fun p => String.eqb (Property.property_id p) id) g).
  intros p. now rewrite Hg.
Qed.

Section PropertyListings.
Variable ilike : string -> string -> bool.

(** X12.  A deletion is a soft one.  After a [DELETE] answered 204 no
    search returns the property, whatever the query; the row is still
    there and is what [GET /api/properties/:property_id] answers, now
    inactive; no row was removed, the other listings are as they were,
    and so are the bookings and the calendar of the property. *)
Theorem deleted_property_is_hidden_and_kept user property_id d r d' :
  delete_property user property_id d = (Json 204 r, d') ->
  (forall q page p,
      search_properties ilike d' q = Json 200 page ->
      In p (response_properties page) ->
      Property.property_id p <> property_id)
  /\ (exists p, select_property d property_id = Some p
                /\ get_property d' property_id = Json 200 (with_is_active false p))
  /\ map Property.property_id (properties d') = map Property.property_id (properties d)
  /\ (forall p, In p (properties d) -> Property.property_id p <> property_id ->
                In p (properties d'))
  /\ bookings d' = bookings d
  /\ property_availability d' = property_availability d.
Proof.
  intros H. destruct (delete_property_ok _ _ _ _ _ H) as (p0 & Hsel & _ & ->).
  repeat split.
  - intros q page p Hs Hin Hid. unfold search_properties in Hs.
    destruct (select_page ilike _ q) as [e|rows] eqn:Hp; [discriminate|].
    injection Hs as <-. cbn [response_properties] in Hin.
    destruct (select_page_sound ilike _ _ _ _ Hp Hin) as (Hrow & Hw).
    unfold where_clause in Hw. apply andb_true_iff in Hw. destruct Hw as (Hw & _).
    apply andb_true_iff in Hw. destruct Hw as (Hact & _).
    cbn [properties set_properties] in Hrow. apply in_map_iff in Hrow.
    destruct Hrow as (x & Hx & _).
    destruct (String.eqb (Property.property_id x) property_id) eqn:E.
    + subst p. cbn in Hact. discriminate.
    + subst p. apply String.eqb_neq in E. contradiction.
  - exists p0. split; [assumption|]. unfold get_property.
    rewrite select_property_after_map by reflexivity.
    unfold select_property in Hsel. now rewrite Hsel.
  - cbn [properties set_properties]. now apply map_hit_field.
  - intros p Hin Hne. cbn [properties set_properties]. now apply map_hit_others.
Qed.

End PropertyListings.

(** X13.  Only the host of a property and an admin change it: a [DELETE]
    or a [PATCH] of a property that is answered with success, or after
    which the store is not what it was, comes from its host or an admin. *)
Theorem property_changes_need_owner_or_admin user property_id body d :
  (forall r d',
      delete_property user property_id d = (r, d') ->
      (exists x, r = Json 204 x) \/ d' <> d ->
      owner_or_admin user d property_id)
  /\ (forall r d',
         update_property user property_id body d = (r, d') ->
         (exists x, r = Json 200 x) \/ d' <> d ->
         owner_or_admin user d property_id).
Proof.
  split; intros r d' H Hc.
  - unfold delete_property, delete_from_search in H. unfold_handler.
    cbn beta iota zeta in H.
    destruct (select_property d property_id) as [p|] eqn:Hsel;
      cbn beta iota zeta in H.
    + destruct (not_owner_nor_admin user (Property.host_id p)) eqn:Ho;
        cbn beta iota zeta in H.
      * injection H as <- <-. destruct Hc as [(x & Hx)|Hx];
          [discriminate|contradiction].
      * exists p. split; [exact Hsel|]. now apply not_owner_nor_admin_false.
    + injection H as <- <-. destruct Hc as [(x & Hx)|Hx];
        [discriminate|contradiction].
  - unfold update_property in H. unfold_handler. cbn beta iota zeta in H.
    destruct (select_property d property_id) as [p|] eqn:Hsel;
      cbn beta iota zeta in H.
    + destruct (not_owner_nor_admin user (Property.host_id p)) eqn:Ho;
        cbn beta iota zeta in H.
      * injection H as <- <-. destruct Hc as [(x & Hx)|Hx];
          [discriminate|contradiction].
      * exists p. split; [exact Hsel|]. now apply not_owner_nor_admin_false.
    + injection H as <- <-. destruct Hc as [(x & Hx)|Hx];
        [discriminate|contradiction].
Qed.

(** The store after a [PATCH] of a property, whatever the answer. *)
Lemma update_property_effect user id body d :
  snd (update_property user id body d) = d
  \/ exists u,
       snd (update_property user id body d)
       = set_properties d
           (map (fun p => if String.eqb (Property.property_id p) id
                          then set_property_fields u p else p)
                (properties d)).
Proof.
  destruct (update_property user id body d) as (r, d') eqn:H. cbn [snd].
  unfold update_property in H. unfold_handler. cbn beta iota zeta in H.
  repeat case_split H;
    first
      [ left; injection H as _ <-; reflexivity
      | left;
        match type of H with
        | (catch ?e, _) = _ => failed_statement; injection H as _ <-; reflexivity
        end
      | right; injection H as _ <-;
        match goal with
        | Hu : update_properties _ _ _ = inr _ |- _ =>
            apply update_properties_inr in Hu; destruct Hu as (-> & _)
        end; eexists; reflexivity ].
Qed.

(** X14.  A [PATCH] of a property writes to that listing only, whatever
    it answers: users, bookings, calendar, conversations, reviews and
    notifications are as before (a new host of the property is not
    carried over to its bookings), the listings after it carry the ids
    and the dates of creation of the listings before it, each as many
    times, and the listings with another id are unchanged.  Where the
    rows stand in the table is not stated. *)
Theorem update_property_touches_one_listing user property_id body d :
  let d' := snd (update_property user property_id body d) in
  users d' = users d
  /\ bookings d' = bookings d
  /\ property_availability d' = property_availability d
  /\ conversations d' = conversations d
  /\ reviews d' = reviews d
  /\ notifications d' = notifications d
  /\ Permutation
       (map (fun p => (Property.property_id p, Property.created_at p)) (properties d'))
       (map (fun p => (Property.property_id p, Property.created_at p)) (properties d))
  /\ (forall p, In p (properties d) -> Property.property_id p <> property_id ->
                In p (properties d')).
Proof.
  intros d'. subst d'.
  destruct (update_property_effect user property_id body d) as [->|(u & ->)].
  - do 6 (split; [reflexivity|]). split; [reflexivity|]. auto.
  - cbn [users bookings property_availability conversations reviews notifications
         properties set_properties].
    do 6 (split; [reflexivity|]). split.
    + rewrite (map_hit_field Property.property_id
                 (fun p => (Property.property_id p, Property.created_at p)));
        reflexivity.
    + intros p Hin Hne. now apply map_hit_others.
Qed.

Lemma parsed_host_id body id u h :
  updatePropertyInputSchema (spread_with body "property_id" (JStr id)) = Some u ->
  body "host_id" = Some (JStr h) ->
  UpdatePropertyInput.host_id u = Some h.
Proof.
  unfold updatePropertyInputSchema. intros H Hh.
  change (spread_with body "property_id" (JStr id) "host_id")
    with (body "host_id") in H.
  rewrite Hh in H. cbn [Zod.optional Zod.string_ option_map] in H.
  destruct (Zod.between 0 None (String.length h)); cbn [option_map] in H;
    repeat case_split H; injection H as <-; reflexivity.
Qed.

(** X15.  A host who hands a property over loses it.  After a [PATCH]
    with a [host_id] that is answered 200, the property belongs to that
    user, who exists when the host changed; and in every store in which
    the property belongs to that user, the store right after the
    hand-over being one, a [PATCH] and a [DELETE] of the property by the
    former host, unless an admin or that user, are answered 403 and write
    nothing.  Once the property is handed back this says nothing. *)
Theorem owner_who_hands_over_loses_access user property_id body d r d' new_host :
  update_property user property_id body d = (Json 200 r, d') ->
  body "host_id" = Some (JStr new_host) ->
  (exists p', select_property d' property_id = Some p'
              /\ Property.host_id p' = new_host
              /\ r = Some p')
  /\ ((forall p, select_property d property_id = Some p ->
                 Property.host_id p <> new_host) ->
      user_exists d new_host = true)
  /\ (new_host <> User.user_id user -> User.role user <> "admin" ->
      forall later p',
        select_property later property_id = Some p' ->
        Property.host_id p' = new_host ->
        (forall body',
            update_property user property_id body' later
            = (ErrorResponse 403 "Forbidden: Cannot update other user properties"
                 "FORBIDDEN_ACCESS", later))
        /\ delete_property user property_id later
           = (ErrorResponse 403 "Forbidden: Cannot delete other user properties"
                "FORBIDDEN_ACCESS", later)).
Proof.
  intros H Hh.
  destruct (update_property_ok _ _ _ _ _ _ H)
    as (p & u & Hsel & _ & Hu & Hfk & -> & ->).
  pose proof (parsed_host_id _ _ _ _ Hu Hh) as Hhost.
  assert (Hsel' : select_property
                    (set_properties d
                       (map (fun p => if String.eqb (Property.property_id p) property_id
                                      then set_property_fields u p else p)
                            (properties d))) property_id
                  = Some (set_property_fields u p)).
  { rewrite select_property_after_map by reflexivity.
    unfold select_property in Hsel. now rewrite Hsel. }
  assert (Hnew : Property.host_id (set_property_fields u p) = new_host).
  { cbn. now rewrite Hhost. }
  split; [|split].
  - eexists. repeat split; [exact Hsel'|exact Hnew].
  - intros Hne. specialize (Hne p Hsel). rewrite Hhost in Hfk.
    cbn [changed_key_ok] in Hfk. apply orb_true_iff in Hfk.
    destruct Hfk as [E|E]; [|exact E].
    apply String.eqb_eq in E. congruence.
  - intros Hn Hr later p' Hlater Hp'. split; [intros body'|].
    + unfold update_property. unfold_handler. cbn beta iota zeta.
      rewrite Hlater. cbn beta iota zeta. rewrite Hp'.
      now rewrite (not_owner_nor_admin_true _ _ Hn Hr).
    + unfold delete_property. unfold_handler. cbn beta iota zeta.
      rewrite Hlater. cbn beta iota zeta. rewrite Hp'.
      now rewrite (not_owner_nor_admin_true _ _ Hn Hr).
Qed.

(** ** Reading bookings, the calendar and notifications *)

Lemma in_limit_offset {A : Type} (limit offset : option Z) (rows page : list A) x :
  limit_offset limit offset rows = inr page -> In x page -> In x rows.
Proof.
  intros H Hin. destruct (limit_offset_inr _ _ _ _ H) as (l & o & _ & _ & _ & _ & ->).
  now apply in_firstn_in, in_skipn_in in Hin.
Qed.

Lemma in_order_by {A : Type} (leb : A -> A -> bool) (l : list A) x :
  In x (order_by leb l) <-> In x l.
Proof.
  split; intros H.
  - now apply (Permutation_in _ (order_by_perm leb l)) in H.
  - now apply (Permutation_in _ (Permutation_sym (order_by_perm leb l))) in H.
Qed.

Lemma ordered_limit_offset {A : Type} (leb : A -> A -> bool) limit offset
  (rows page : list A) :
  limit_offset limit offset rows = inr page -> ordered leb rows -> ordered leb page.
Proof.
  intros H Ho. destruct (limit_offset_inr _ _ _ _ H) as (l & o & _ & _ & _ & _ & ->).
  now apply ordered_firstn, ordered_skipn.
Qed.

(** X16.  A caller who is not an admin is shown the bookings in which
    they are guest or host, and no other: by
    [GET /api/bookings/:booking_id], in every page of [GET /api/bookings]
    whatever the filters, and by [GET /api/users/:user_id/bookings], which
    answers them for their own id only.  The [total_count] of
    [GET /api/bookings] is the number of rows of the whole table, for
    every caller, admin or not, and every filter. *)
Theorem bookings_are_shown_to_their_parties_only user d :
  (User.role user <> "admin" ->
   (forall booking_id b,
       get_booking user d booking_id = Json 200 b ->
       In b (bookings d)
       /\ (Booking.guest_id b = User.user_id user
           \/ Booking.host_id b = User.user_id user))
   /\ (forall q page b,
          search_bookings user d q = Json 200 page ->
          In b (response_bookings page) ->
          In b (bookings d)
          /\ (Booking.guest_id b = User.user_id user
              \/ Booking.host_id b = User.user_id user))
   /\ (forall user_id status rows,
          get_user_bookings user d user_id status = Json 200 rows ->
          user_id = User.user_id user
          /\ forall b, In b rows ->
                       In b (bookings d)
                       /\ (Booking.guest_id b = User.user_id user
                           \/ Booking.host_id b = User.user_id user)))
  /\ (forall q page,
         search_bookings user d q = Json 200 page ->
         bookings_total_count page = Z.of_nat (List.length (bookings d))).
Proof.
  assert (Hsearch : forall q page,
             search_bookings user d q = Json 200 page ->
             exists rows,
               limit_offset (BookingParams.limit q) (BookingParams.offset q)
                 (order_by booking_created_at_desc
                    (filter (bookings_where user q) (bookings d))) = inr rows
               /\ page = mk_bookings_response rows
                           (Z.of_nat (List.length (bookings d)))).
  { intros q page H. unfold search_bookings in H.
    destruct (limit_offset _ _ _) as [e|rows] eqn:Hl; [discriminate|].
    injection H as <-. now exists rows. }
  split;
    [intros Hrole;
     assert (Hr : String.eqb (User.role user) "admin" = false)
       by (now apply String.eqb_neq);
     split; [|split]|].
  - intros booking_id b H. unfold get_booking in H.
    destruct (select_booking d booking_id) as [x|] eqn:E; [|discriminate].
    destruct (not_party_nor_admin user x) eqn:Hp; [discriminate|]. injection H as <-.
    split.
    + unfold select_booking in E. now apply find_some in E.
    + apply party_or_admin_spec in Hp.
      destruct Hp as [Hp|Hp]; [contradiction|exact Hp].
  - intros q page b H Hin. destruct (Hsearch _ _ H) as (rows & Hl & ->).
    cbn [response_bookings] in Hin.
    apply (in_limit_offset _ _ _ _ _ Hl), in_order_by, filter_In in Hin.
    destruct Hin as (Hin & Hw). split; [exact Hin|].
    unfold bookings_where in Hw. rewrite Hr in Hw.
    cbn [negb] in Hw. rewrite !andb_true_iff in Hw.
    destruct Hw as (((((Hw & _) & _) & _) & _) & _).
    apply orb_true_iff in Hw. now rewrite !String.eqb_eq in Hw.
  - intros user_id status rows H. unfold get_user_bookings in H. rewrite Hr in H.
    cbn [negb] in H. rewrite andb_true_r in H.
    destruct (String.eqb (User.user_id user) user_id) eqn:E; [|discriminate].
    apply String.eqb_eq in E. subst user_id. split; [reflexivity|].
    cbn [negb] in H. injection H as <-. intros b Hin.
    apply in_order_by, filter_In in Hin.
    destruct Hin as (Hin & Hw). split; [exact Hin|].
    apply andb_true_iff in Hw. destruct Hw as (Hw & _).
    apply orb_true_iff in Hw. now rewrite !String.eqb_eq in Hw.
  - intros q page H. destruct (Hsearch _ _ H) as (rows & _ & ->). reflexivity.
Qed.

(** X17.  The booking lists are answered newest first. *)
Theorem bookings_are_listed_newest_first user d :
  (forall q page,
      search_bookings user d q = Json 200 page ->
      ordered booking_created_at_desc (response_bookings page))
  /\ (forall user_id status rows,
         get_user_bookings user d user_id status = Json 200 rows ->
         ordered booking_created_at_desc rows).
Proof.
  assert (Htot : forall a b : Booking.t,
             booking_created_at_desc a b = false -> booking_created_at_desc b a = true).
  { intros a b. unfold booking_created_at_desc. apply string_leb_total. }
  split.
  - intros q page H. unfold search_bookings in H.
    destruct (limit_offset _ _ _) as [e|rows] eqn:Hl; [discriminate|].
    injection H as <-. cbn [response_bookings].
    apply (ordered_limit_offset _ _ _ _ _ Hl). now apply order_by_ordered.
  - intros user_id status rows H. unfold get_user_bookings in H.
    destruct (_ && _); [discriminate|]. injection H as <-.
    now apply order_by_ordered.
Qed.


(** X19.  The list of notifications holds notifications of the caller
    only, newest first, at most [limit] of them.  With a value of
    [is_read] it holds the read ones when the value is the text [true]
    and the unread ones for every other value, [false], [1] or the empty
    text alike. *)
Theorem notifications_of_the_caller_newest_first user d is_read limit offset rows :
  get_notifications user d is_read limit offset = Json 200 rows ->
  ordered notification_created_at_desc rows
  /\ (exists l, limit = Some l /\ Z.of_nat (List.length rows) <= l)
  /\ (forall n, In n rows ->
                In n (notifications d)
                /\ Notification.user_id n = User.user_id user
                /\ (is_read = Some "true" -> Notification.is_read n = true)
                /\ (forall v, is_read = Some v -> v <> "true" ->
                              Notification.is_read n = false)).
Proof.
  intros H. unfold get_notifications in H.
  destruct (limit_offset _ _ _) as [e|page] eqn:Hl; [discriminate|].
  injection H as <-. split; [|split].
  - apply (ordered_limit_offset _ _ _ _ _ Hl). apply order_by_ordered.
    intros a b. unfold notification_created_at_desc. apply string_leb_total.
  - destruct (limit_offset_inr _ _ _ _ Hl) as (l & o & -> & _ & Hl0 & _ & ->).
    exists l. split; [reflexivity|].
    pose proof (firstn_length_bound (Z.to_nat l)
                  (skipn (Z.to_nat o)
                     (order_by notification_created_at_desc
                        (filter (notifications_where user is_read) (notifications d))))).
    lia.
  - intros n Hin.
    apply (in_limit_offset _ _ _ _ _ Hl), in_order_by, filter_In in Hin.
    destruct Hin as (Hin & Hw). unfold notifications_where in Hw.
    apply andb_true_iff in Hw. destruct Hw as (Hu & Hr).
    apply String.eqb_eq in Hu. repeat split; try assumption.
    + intros ->. cbn in Hr. now apply Bool.eqb_prop in Hr.
    + intros v -> Hv. apply String.eqb_neq in Hv. rewrite Hv in Hr.
      now apply Bool.eqb_prop in Hr.
Qed.

(** ** The store over any sequence of requests *)

Lemma grows_from_refl d : grows_from d d.
Proof.
  unfold grows_from. split; [reflexivity|].
  do 5 (split; [apply incl_refl|]). now left.
Qed.

Lemma grows_from_trans d1 d2 d3 :
  grows_from d1 d2 -> grows_from d2 d3 -> grows_from d1 d3.
Proof.
  intros (Hu & Hp & Hb & Hc & Hr & Hn & Fn) (Hu' & Hp' & Hb' & Hc' & Hr' & Hn' & Fn').
  unfold grows_from. split; [congruence|].
  do 5 (split; [eapply incl_tran; eassumption|]).
  intros n Hin. destruct (Fn' n Hin) as [H2|H2]; [|now right].
  now apply Fn.
Qed.

Lemma incl_map_hit {A B : Type} (key : A -> string) (f : A -> B) (id : string)
  (g : A -> A) (l : list A) :
  (forall x, f (g x) = f x) ->
  incl (map f l) (map f (map (fun x => if String.eqb (key x) id then g x else x) l)).
Proof. intros Hg. rewrite (map_hit_field key f id g l Hg). apply incl_refl. Qed.

(** Settles [incl l l'] for a table [l'] written out in terms of [l]. *)
Ltac kept :=
  first [ apply incl_refl
        | now apply incl_map_hit
        | rewrite map_app; apply incl_appl, incl_refl
        | apply incl_appl, incl_refl ].

(** Settles [grows_from d d'] for a store [d'] written out in terms of [d]. *)
Ltac grown :=
  unfold grows_from;
  cbn [users properties property_availability bookings conversations reviews
       notifications set_bookings set_conversations set_reviews set_notifications
       set_properties];
  split; [reflexivity|];
  do 5 (split; [kept|]);
  let n := fresh "n" in
  let Hn := fresh "Hn" in
  intros n Hn;
  first [ left; exact Hn
        | apply in_app_or in Hn; destruct Hn as [Hn | [<- | []]];
          [left; exact Hn | right; reflexivity] ].

Lemma insert_conversation_references c d d1 :
  insert_conversation c d = inr d1 ->
  select_booking d (Conversation.booking_id c) <> None.
Proof.
  unfold insert_conversation. destruct (existsb _ _); [discriminate|].
  destruct (select_booking d (Conversation.booking_id c)); [discriminate|].
  discriminate.
Qed.

Lemma select_booking_grows d d' k :
  incl (map Booking.booking_id (bookings d)) (map Booking.booking_id (bookings d')) ->
  select_booking d k <> None -> select_booking d' k <> None.
Proof.
  intros Hl Hk.
  assert (Hin : forall t, select_booking t k <> None
                          <-> In k (map Booking.booking_id (bookings t))).
  { intros t. unfold select_booking. split.
    - destruct (find _ (bookings t)) as [b|] eqn:E; [intros _|congruence].
      apply find_some in E. destruct E as (E1 & E2). apply String.eqb_eq in E2.
      subst k. now apply in_map.
    - intros Hi. apply in_map_iff in Hi. destruct Hi as (b & <- & Hb).
      destruct (find _ (bookings t)) eqn:E; [discriminate|].
      apply (find_none _ _ E) in Hb. now rewrite String.eqb_refl in Hb. }
  apply Hin. apply Hl. now apply Hin.
Qed.

Lemma well_formed_step d d' :
  conversations_well_formed d ->
  grows_from d d' ->
  opens_a_first_conversation d d' ->
  conversations_well_formed d'.
Proof.
  intros (Hfk & Hone) (_ & _ & Hb & _) [Hsame | (c & Hadd & Hin & Hfirst)].
  - split.
    + intros c Hc. rewrite Hsame in Hc. apply (select_booking_grows d d' _ Hb).
      now apply Hfk.
    + intros k. unfold select_conversations_of_booking. rewrite Hsame. apply Hone.
  - assert (Hnone : select_conversations_of_booking d (Conversation.booking_id c) = []).
    { destruct Hfirst as [H|H]; [exact H|].
      apply filter_none. intros x Hx.
      destruct (String.eqb (Conversation.booking_id x) (Conversation.booking_id c))
        eqn:E; [|reflexivity].
      apply String.eqb_eq in E. apply Hfk in Hx. now rewrite E in Hx. }
    split.
    + intros x Hx. rewrite Hadd in Hx. apply in_app_or in Hx.
      destruct Hx as [Hx | [<- | []]]; [|exact Hin].
      apply (select_booking_grows d d' _ Hb). now apply Hfk.
    + intros k. unfold select_conversations_of_booking in *.
      rewrite Hadd, filter_app, length_app. cbn [filter].
      destruct (String.eqb (Conversation.booking_id c) k) eqn:E.
      * apply String.eqb_eq in E. subst k. rewrite Hnone. cbn. lia.
      * specialize (Hone k). cbn. lia.
Qed.

Section Requests.
Variable coerce_date : json -> option string.

Lemma create_booking_grows user body n1 n2 n3 now d :
  grows_from d (snd (create_booking coerce_date user body n1 n2 n3 now d)).
Proof.
  destruct (create_booking coerce_date user body n1 n2 n3 now d) as [r d'] eqn:H.
  cbn [snd]. unfold create_booking in H.
  invert_handler H; injection H as _ <-; resolve_writes; grown.
Qed.

Lemma update_booking_grows user id body t1 n t2 d :
  grows_from d (snd (update_booking coerce_date user id body t1 n t2 d)).
Proof.
  destruct (update_booking coerce_date user id body t1 n t2 d) as [r d'] eqn:H.
  cbn [snd]. unfold update_booking in H.
  invert_handler H; injection H as _ <-; resolve_writes; grown.
Qed.

Lemma create_review_grows user id body n1 n2 now d :
  grows_from d (snd (create_review user id body n1 n2 now d)).
Proof.
  destruct (create_review user id body n1 n2 now d) as [r d'] eqn:H.
  cbn [snd]. unfold create_review in H.
  invert_handler H; injection H as _ <-; resolve_writes; grown.
Qed.

Lemma insert_property_inr data p d d1 :
  insert_property data p d = inr d1 ->
  d1 = set_properties d (properties d ++ [p])
  /\ select_property d (Property.property_id p) = None.
Proof.
  unfold insert_property, select_property. intros H.
  destruct (property_fits_integer data); cbn [negb] in H; [|discriminate].
  destruct (property_fits_text data); cbn [negb] in H; [|discriminate].
  destruct (existsb _ (properties d)) eqn:Hpk; [discriminate|].
  destruct (user_exists d (Property.host_id p)); [|discriminate].
  injection H as <-. split; [reflexivity|].
  destruct (find _ (properties d)) as [x|] eqn:Hf; [|reflexivity].
  apply find_some in Hf. destruct Hf as (Hin & Heq).
  assert (existsb (fun x => String.eqb (Property.property_id x) (Property.property_id p))
            (properties d) = true) as Hex
      by (apply existsb_exists; now exists x).
  congruence.
Qed.

Lemma create_property_effect user body n now d :
  snd (create_property user body n now d) = d
  \/ exists p, snd (create_property user body n now d)
               = set_properties d (properties d ++ [p]).
Proof.
  destruct (create_property user body n now d) as [r d'] eqn:H.
  cbn [snd]. unfold create_property in H.
  invert_handler H; injection H as _ <-;
    first [ now left
          | match goal with
            | Hi : insert_property _ _ _ = inr _ |- _ =>
                apply insert_property_inr in Hi; destruct Hi as (-> & _)
            end; right; eexists; reflexivity ].
Qed.

Lemma create_property_grows user body n now d :
  grows_from d (snd (create_property user body n now d)).
Proof.
  destruct (create_property_effect user body n now d) as [-> | (p & ->)];
    [apply grows_from_refl | grown].
Qed.

Lemma delete_property_grows user id d :
  grows_from d (snd (delete_property user id d)).
Proof.
  destruct (delete_property user id d) as [r d'] eqn:H.
  cbn [snd]. unfold delete_property, delete_from_search in H.
  invert_handler H; injection H as _ <-; grown.
Qed.

Lemma update_property_grows user id body d :
  grows_from d (snd (update_property user id body d)).
Proof.
  destruct (update_property_effect user id body d) as [-> | (u & ->)];
    [apply grows_from_refl | grown].
Qed.

Lemma create_conversation_grows user body n now d :
  grows_from d (snd (create_conversation user body n now d)).
Proof.
  destruct (create_conversation user body n now d) as [r d'] eqn:H.
  cbn [snd]. unfold create_conversation in H.
  invert_handler H; injection H as _ <-; resolve_writes; grown.
Qed.

(** The update of a notification writes nothing, whatever it is asked. *)
Lemma update_notification_unchanged user id body d :
  snd (update_notification user id body d) = d.
Proof.
  destruct (update_notification user id body d) as [r d'] eqn:H.
  cbn [snd]. unfold update_notification in H. unfold_handler.
  cbn beta iota zeta in H.
  repeat first [ rewrite update_notifications_rejected in H;
                 cbn beta iota zeta in H
               | case_split H ];
    now injection H as _ <-.
Qed.

Lemma serve_grows req d : grows_from d (serve coerce_date req d).
Proof.
  destruct req; cbn [serve].
  - rewrite set_availability_unchanged. apply grows_from_refl.
  - apply create_booking_grows.
  - apply update_booking_grows.
  - apply create_review_grows.
Qed.

Lemma serve_on_store_grows req d : grows_from d (serve_on_store coerce_date req d).
Proof.
  destruct req; cbn [serve_on_store].
  - apply serve_grows.
  - apply create_property_grows.
  - apply delete_property_grows.
  - apply update_property_grows.
  - apply create_conversation_grows.
  - rewrite update_notification_unchanged. apply grows_from_refl.
Qed.

(** X20.  Nothing is ever deleted.  After any sequence of the requests
    of [request_on_store], served one after another, the users are what
    they were, every property and every booking is still there under its
    id, and every conversation, review and notification of the beginning
    is there unchanged; a notification that was added is unread.  Where
    the rows stand in their tables is not stated. *)
Theorem store_only_grows requests d :
  grows_from d (serve_all_on_store coerce_date requests d).
Proof.
  revert d. induction requests as [|req l IH]; intros d; cbn.
  - apply grows_from_refl.
  - eapply grows_from_trans; [apply serve_on_store_grows | apply IH].
Qed.

Lemma create_booking_opens user body n1 n2 n3 now d :
  opens_a_first_conversation d
    (snd (create_booking coerce_date user body n1 n2 n3 now d)).
Proof.
  destruct (create_booking coerce_date user body n1 n2 n3 now d) as [r d'] eqn:H.
  cbn [snd]. unfold create_booking in H.
  invert_handler H; injection H as _ <-;
    repeat match goal with
      | Hb : insert_booking _ _ = inr _ |- _ =>
          apply insert_booking_inr in Hb; destruct Hb as (-> & Hfresh)
      end;
    resolve_writes;
    first
      [ now left
      | right; eexists; split; [reflexivity|];
        cbn [Conversation.booking_id Booking.booking_id] in *;
        split; [|right; exact Hfresh];
        unfold select_booking;
        cbn [bookings set_bookings set_conversations set_notifications];
        unfold select_booking in Hfresh;
        rewrite (find_app_none _ _ _ Hfresh); cbn [find Booking.booking_id];
        rewrite String.eqb_refl; discriminate ].
Qed.

Lemma update_booking_opens user id body t1 n t2 d :
  opens_a_first_conversation d
    (snd (update_booking coerce_date user id body t1 n t2 d)).
Proof.
  destruct (update_booking coerce_date user id body t1 n t2 d) as [r d'] eqn:H.
  cbn [snd]. unfold update_booking in H.
  invert_handler H; injection H as _ <-; resolve_writes; now left.
Qed.

Lemma create_review_opens user id body n1 n2 now d :
  opens_a_first_conversation d (snd (create_review user id body n1 n2 now d)).
Proof.
  destruct (create_review user id body n1 n2 now d) as [r d'] eqn:H.
  cbn [snd]. unfold create_review in H.
  invert_handler H; injection H as _ <-; resolve_writes; now left.
Qed.

Lemma create_conversation_opens user body n now d :
  opens_a_first_conversation d (snd (create_conversation user body n now d)).
Proof.
  destruct (create_conversation user body n now d) as [r d'] eqn:H.
  cbn [snd]. unfold create_conversation in H.
  invert_handler H; injection H as _ <-;
    first
      [ now left
      | match goal with
        | Hc : insert_conversation _ _ = inr _ |- _ =>
            pose proof (insert_conversation_references _ _ _ Hc) as Hfk;
            apply insert_conversation_inr in Hc; subst
        end;
        right; eexists; split; [reflexivity|];
        cbn [Conversation.booking_id] in *; split; [exact Hfk|]; now left ].
Qed.

Lemma serve_on_store_opens req d :
  opens_a_first_conversation d (serve_on_store coerce_date req d).
Proof.
  destruct req as [req| | | | |]; cbn [serve_on_store].
  - destruct req; cbn [serve].
    + rewrite set_availability_unchanged. now left.
    + apply create_booking_opens.
    + apply update_booking_opens.
    + apply create_review_opens.
  - left. now destruct (create_property_effect user body nanoid now d)
      as [-> | (p & ->)].
  - left. destruct (delete_property user property_id d) as [r d'] eqn:H.
    cbn [snd]. unfold delete_property, delete_from_search in H.
    invert_handler H; now injection H as _ <-.
  - left. now destruct (update_property_effect user property_id body d)
      as [-> | (u & ->)].
  - apply create_conversation_opens.
  - rewrite update_notification_unchanged. now left.
Qed.

(** Run without another request in between, the statements of a
    conversation creation are [create_conversation]. *)
Lemma create_conversation_in_steps rq d :
  create_conversation_steps 3 rq (create_conversation_begin rq) d
  = (ConversationAnswered
       (fst (create_conversation (conversation_caller rq)
               (conversation_request_body rq) (conversation_nanoid rq)
               (conversation_now rq) d)),
     snd (create_conversation (conversation_caller rq)
            (conversation_request_body rq) (conversation_nanoid rq)
            (conversation_now rq) d)).
Proof.
  unfold create_conversation, create_conversation_begin. unfold_handler.
  destruct (createConversationInputSchema _) as [data|]; [|reflexivity].
  cbn [create_conversation_steps create_conversation_step]. cbn beta iota zeta.
  destruct (Nat.eqb _ 0); cbn [create_conversation_step]; cbn beta iota zeta;
    [reflexivity|].
  destruct (select_conversations_of_booking d _) as [|c l];
    cbn [create_conversation_step]; cbn beta iota zeta; [|reflexivity].
  destruct (insert_conversation _ d) as [e|d1]; reflexivity.
Qed.

Lemma seed_unanswered_well_formed : conversations_well_formed seed_unanswered.
Proof.
  assert (Hc : conversations seed_unanswered = seed_conversations)
    by (vm_compute; reflexivity).
  split.
  - intros c Hin. rewrite Hc in Hin.
    destruct Hin as [<- | [<- | []]]; vm_compute; discriminate.
  - intros k. unfold select_conversations_of_booking. rewrite Hc.
    cbn [seed_conversations filter Conversation.booking_id].
    destruct (String.eqb "book_001" k) eqn:E1;
      destruct (String.eqb "book_002" k) eqn:E2; cbn; try lia.
    apply String.eqb_eq in E1, E2. subst k. discriminate.
Qed.

(** X21.  One conversation per booking, as long as the requests are
    served one after another, each answered before the next one begins.
    On a store in which every conversation belongs to a booking and no
    booking has two, this stays so after any such sequence of the requests
    of [request_on_store]: a booking creation opens the conversation of
    the new booking, and a conversation creation opens one only for a
    booking that has none.  It rests on the lookup of the handler alone,
    [conversations] has no uniqueness constraint on [booking_id]: of two
    requests that overlap, for a booking without a conversation, each can
    look for one before the other inserts one, and then both are answered
    201 and the booking has two conversations. *)
Theorem one_conversation_per_booking_is_kept :
  (forall requests d,
      conversations_well_formed d ->
      conversations_well_formed (serve_all_on_store coerce_date requests d))
  /\ conversations_well_formed seed_unanswered
  /\ (exists ca cb d',
        interleave (create_conversation_step first_opening)
          (create_conversation_step second_opening)
          both_look_before_either_opens
          (create_conversation_begin first_opening)
          (create_conversation_begin second_opening) seed_unanswered
        = (ConversationAnswered (Json 201 (NewConversation ca)),
           ConversationAnswered (Json 201 (NewConversation cb)), d')
        /\ select_conversations_of_booking d' "book_b" = [ca; cb]).
Proof.
  split; [|split].
  - induction requests as [|req l IH]; intros d Hd; cbn; [exact Hd|].
    apply IH. apply (well_formed_step d); [exact Hd | |].
    + apply serve_on_store_grows.
    + apply serve_on_store_opens.
  - exact seed_unanswered_well_formed.
  - eexists _, _, _. split; reflexivity.
Qed.

End Requests.

(** ** Notifications are never updated *)

(** X22.  [PATCH /api/notifications/:notification_id] updates nothing.
    Its statement names a parameter past the values it is sent with, so
    a request that passes the checks of the handler (the notification
    exists, the caller owns it or is an admin, the body is valid and has a
    column) is answered 500; no request is answered 200, and the store is
    never written: a notification cannot be marked as read. *)
Theorem update_notification_never_updates user notification_id body d :
  snd (update_notification user notification_id body d) = d
  /\ (forall row, fst (update_notification user notification_id body d) <> Json 200 row)
  /\ (forall n u,
         select_notification d notification_id = Some n ->
         not_owner_nor_admin user (Notification.user_id n) = false ->
         updateNotificationInputSchema
           (spread_with body "notification_id" (JStr notification_id)) = Some u ->
         updateNotificationFields u <> 0%nat ->
         update_notification user notification_id body d
         = (internal_server_error, d)).
Proof.
  split; [apply update_notification_unchanged|]. split.
  - intros row. destruct (update_notification user notification_id body d)
      as [r d'] eqn:H.
    cbn [fst]. unfold update_notification in H. unfold_handler.
    cbn beta iota zeta in H.
    repeat first [ rewrite update_notifications_rejected in H;
                   cbn beta iota zeta in H
                 | case_split H ];
      injection H as <- _; discriminate.
  - intros n u Hsel Hown Hu Hf. unfold update_notification. unfold_handler.
    cbn beta iota zeta. rewrite Hsel. cbn beta iota zeta. rewrite Hown, Hu.
    cbn beta iota zeta. apply Nat.eqb_neq in Hf. rewrite Hf.
    cbn beta iota zeta. now rewrite update_notifications_rejected.
Qed.

(** ** Conversations *)

Lemma between_min1 s : s <> "" -> Zod.between 1 None (String.length s) = true.
Proof. destruct s; [congruence | reflexivity]. Qed.

Section Conversations.
Variable coerce_date : json -> option string.

Lemma parsed_guest_not_empty user body data :
  createBookingInputSchema coerce_date
    (spread_with body "guest_id" (JStr (User.user_id user))) = Some data ->
  User.user_id user <> "".
Proof.
  unfold createBookingInputSchema. intros H.
  change (spread_with body "guest_id" (JStr (User.user_id user)) "guest_id")
    with (Some (JStr (User.user_id user))) in H.
  cbn [Zod.optional Zod.string_ option_map] in H.
  destruct (User.user_id user) eqn:E; [|discriminate].
  cbn in H. now repeat case_split H.
Qed.

(** X23.  A booking made by [POST /api/bookings] has its conversation.
    On a store whose conversations belong to bookings, after a booking
    creation answered 201 a [POST /api/conversations] of the guest for this
    booking, with any host in its body, opens no second conversation: it
    is answered 200 with the id of the conversation the booking creation
    opened, and writes nothing. *)
Theorem booking_already_has_its_conversation
  user body n1 n2 n3 now d b d' body' host_id nanoid now' :
  conversations_reference_bookings d ->
  create_booking coerce_date user body n1 n2 n3 now d = (Json 201 b, d') ->
  body' "booking_id" = Some (JStr (Booking.booking_id b)) ->
  body' "host_id" = Some (JStr host_id) ->
  host_id <> "" ->
  create_conversation user body' nanoid now' d'
  = (Json 200 (ExistingConversation ("conv_" ++ n2)), d').
Proof.
  intros Hfk H Hb Hh Hne.
  destruct (create_booking_created _ _ _ _ _ _ _ _ _ _ H)
    as (data & p & g & d1 & d2 & Hd & Hp & Hg & Hbk & Hib & Hic & Hin).
  pose proof (parsed_guest_not_empty _ _ _ Hd) as Hu.
  rewrite (parsed_guest_is_caller _ _ _ _ Hd) in Hg. injection Hg as <-.
  apply insert_booking_inr in Hib. destruct Hib as (-> & Hfresh).
  apply insert_conversation_inr in Hic. subst d2.
  apply insert_notification_inr in Hin. subst d'.
  assert (Hid : Booking.booking_id b = "book_" ++ n1) by now subst b.
  assert (Hguest : Booking.guest_id b = User.user_id user) by now subst b.
  rewrite Hid in Hb, Hfresh.
  unfold create_conversation. unfold_handler.
  unfold createConversationInputSchema.
  change (spread_with body' "guest_id" (JStr (User.user_id user)) "booking_id")
    with (body' "booking_id").
  change (spread_with body' "guest_id" (JStr (User.user_id user)) "guest_id")
    with (Some (JStr (User.user_id user))).
  change (spread_with body' "guest_id" (JStr (User.user_id user)) "host_id")
    with (body' "host_id").
  rewrite Hb, Hh. cbn [Zod.string_].
  rewrite (between_min1 _ Hu), (between_min1 _ Hne).
  change (Zod.between 1 None (String.length ("book_" ++ n1))) with true.
  cbn beta iota zeta. cbn [CreateConversationInput.booking_id].
  unfold select_booking_of_party, select_conversations_of_booking.
  cbn [bookings conversations set_bookings set_conversations set_notifications].
  rewrite !filter_app. cbn [filter].
  rewrite Hid, Hguest, !String.eqb_refl. cbn [andb orb].
  rewrite length_app. cbn [List.length].
  replace (List.length _ + 1 =? 0)%nat with false
    by (symmetry; apply Nat.eqb_neq; lia).
  cbn beta iota zeta.
  cbn [bookings conversations set_bookings set_conversations set_notifications].
  rewrite filter_app. cbn [filter Conversation.booking_id].
  rewrite String.eqb_refl.
  rewrite (filter_none (fun c => String.eqb (Conversation.booking_id c) ("book_" ++ n1))
             (conversations d)).
  - reflexivity.
  - intros c Hc. destruct (String.eqb (Conversation.booking_id c) ("book_" ++ n1))
      eqn:E; [|reflexivity].
    apply String.eqb_eq in E. apply Hfk in Hc. now rewrite E in Hc.
Qed.

End Conversations.

(** ** [authenticateToken] *)

Lemma split_one_word s : one_word s = true -> split " " s = [s].
Proof.
  induction s as [|c s IH]; cbn [one_word split]; [reflexivity|].
  intros H. apply andb_true_iff in H. destruct H as (Hc & Hs).
  apply negb_true_iff in Hc. now rewrite Hc, (IH Hs).
Qed.

Lemma split_word_then s rest :
  one_word s = true -> split " " (s ++ " " ++ rest) = s :: split " " rest.
Proof.
  induction s as [|c s IH]; cbn [one_word split String.append]; intros H.
  - reflexivity.
  - apply andb_true_iff in H. destruct H as (Hc & Hs).
    apply negb_true_iff in Hc. rewrite Hc.
    change (String.append s (String " " rest)) with (s ++ " " ++ rest).
    now rewrite (IH Hs).
Qed.

Lemma token_of_word_then s rest :
  one_word s = true -> token_of (Some (s ++ " " ++ rest)) = hd_error (split " " rest).
Proof.
  intros H. unfold token_of. rewrite (split_word_then _ _ H).
  destruct s; cbn [String.append String.eqb]; now destruct (split " " rest).
Qed.

Section AuthenticateToken.
Variable verify : string -> option JwtPayload.t.

(** X24.  Who passes the middleware.  A request that is let through
    carries a user that is a row of [users]: the one whose id the verified
    token names in [user_id], or in [userId] when [user_id] is missing
    or empty.  A request without the header, or with a header of one word,
    is answered 401 [AUTH_TOKEN_MISSING] and does not reach the handler of
    its route.  The token is the second word of the header and its first
    word is not looked at: any scheme does as [Bearer]. *)
Theorem authentication_names_a_user_of_the_store d :
  (forall authorization user,
      authenticateToken verify d authorization = Authenticated user ->
      In user (users d)
      /\ exists header token payload,
           authorization = Some header
           /\ nth_error (split " " header) 1 = Some token
           /\ token <> ""
           /\ verify token = Some payload
           /\ User.user_id user
              = match JwtPayload.user_id payload with
                | Some id => if String.eqb id "" then
                               match JwtPayload.userId payload with
                               | Some id' => id'
                               | None => ""
                               end
                             else id
                | None => match JwtPayload.userId payload with
                          | Some id' => id'
                          | None => ""
                          end
                end)
  /\ (forall (A : Type) (handler : User.t -> database -> response A * database),
         authenticated verify handler None d
         = (ErrorResponse 401 "Access token required" "AUTH_TOKEN_MISSING", d))
  /\ (forall (A : Type) (handler : User.t -> database -> response A * database)
             header,
         one_word header = true ->
         authenticated verify handler (Some header) d
         = (ErrorResponse 401 "Access token required" "AUTH_TOKEN_MISSING", d))
  /\ (forall (A : Type) (handler : User.t -> database -> response A * database)
             scheme rest,
         one_word scheme = true ->
         authenticated verify handler (Some (scheme ++ " " ++ rest)) d
         = authenticated verify handler (Some ("Bearer " ++ rest)) d).
Proof.
  split; [|split; [|split]].
  - intros authorization user H. unfold authenticateToken in H.
    destruct (token_of authorization) as [token|] eqn:Ht; [|discriminate].
    destruct (negb (truthy_string (Some token))) eqn:Hn; [discriminate|].
    destruct (verify token) as [payload|] eqn:Hv; [|discriminate].
    destruct (select_user d _) as [u|] eqn:Hs; [|discriminate].
    injection H as <-.
    unfold select_user in Hs.
    destruct (or_else _ _) as [id|] eqn:Ho; [|discriminate].
    apply find_some in Hs. destruct Hs as (Hin & Hid).
    apply String.eqb_eq in Hid. split; [exact Hin|].
    unfold token_of in Ht. destruct authorization as [header|]; [|discriminate].
    assert (Htok : token <> "").
    { intros ->. discriminate. }
    destruct (String.eqb header "") eqn:He.
    + injection Ht as <-. congruence.
    + exists header, token, payload. repeat split; try assumption.
      rewrite Hid. unfold or_else in Ho.
      destruct (JwtPayload.user_id payload) as [a|]; cbn in Ho.
      * destruct (String.eqb a ""); cbn in Ho.
        -- now rewrite Ho.
        -- now injection Ho as <-.
      * now rewrite Ho.
  - reflexivity.
  - intros A handler header H. unfold authenticated, authenticateToken, token_of.
    destruct (String.eqb header "") eqn:He; [reflexivity|].
    now rewrite (split_one_word _ H).
  - intros A handler scheme rest H. unfold authenticated, authenticateToken.
    rewrite (token_of_word_then scheme rest H).
    change ("Bearer " ++ rest) with ("Bearer" ++ " " ++ rest).
    now rewrite (token_of_word_then "Bearer" rest eq_refl).
Qed.

End AuthenticateToken.

(** ** What was written can be read *)

(** X25.  A new property is the caller's.  A [host_id] in the body changes
    nothing in what the request does.  A creation answered 201 has added
    one row at the end of [properties], with the caller as host, the id
    built from the generated one and the time of the request as date of
    creation; the row is active unless the body says otherwise, is what
    [GET /api/properties/:property_id] answers for its id, and is in the
    listings of the caller. *)
Theorem created_property_is_the_callers user body nanoid now d :
  (forall host_id,
      create_property user (spread_with body "host_id" host_id) nanoid now d
      = create_property user body nanoid now d)
  /\ (forall p d',
         create_property user body nanoid now d = (Json 201 p, d') ->
         properties d' = (properties d ++ [p])%list
         /\ Property.host_id p = User.user_id user
         /\ Property.property_id p = "prop_" ++ nanoid
         /\ Property.created_at p = now
         /\ (body "is_active" = None -> Property.is_active p = true)
         /\ get_property d' (Property.property_id p) = Json 200 p
         /\ exists rows,
             get_user_listings d' (User.user_id user) = Json 200 rows /\ In p rows).
Proof.
  split.
  - intros x. unfold create_property.
    replace (createPropertyInputSchema
               (spread_with (spread_with body "host_id" x) "host_id"
                  (JStr (User.user_id user))))
      with (createPropertyInputSchema
              (spread_with body "host_id" (JStr (User.user_id user))))
      by reflexivity.
    reflexivity.
  - intros p d' H. unfold create_property in H. unfold_handler.
    cbn beta iota zeta in H.
    destruct (createPropertyInputSchema _) as [data|] eqn:Hd;
      cbn beta iota zeta in H; [|discriminate].
    destruct (insert_property _ _ d) as [e|d1] eqn:Hi; cbn beta iota zeta in H;
      [destruct e; discriminate|].
    injection H as <- <-.
    apply insert_property_inr in Hi. destruct Hi as (-> & Hfresh).
    cbn [Property.property_id] in Hfresh.
    assert (Hhost : CreatePropertyInput.host_id data = User.user_id user).
    { unfold createPropertyInputSchema in Hd.
      change (spread_with body "host_id" (JStr (User.user_id user)) "host_id")
        with (Some (JStr (User.user_id user))) in Hd.
      destruct (Zod.string_ 1 None (Some (JStr (User.user_id user)))) as [h|] eqn:E;
        [|discriminate].
      apply string_min1_value in E. subst h.
      repeat case_split Hd. now injection Hd as <-. }
    assert (Hactive : body "is_active" = None -> CreatePropertyInput.is_active data = true).
    { intros Hb. unfold createPropertyInputSchema in Hd.
      change (spread_with body "host_id" (JStr (User.user_id user)) "is_active")
        with (body "is_active") in Hd.
      rewrite Hb in Hd. cbn [Zod.default] in Hd.
      repeat case_split Hd. now injection Hd as <-. }
    cbn [properties set_properties Property.host_id Property.property_id
         Property.created_at Property.is_active].
    repeat split; try assumption.
    + unfold get_property, select_property. cbn [properties set_properties].
      unfold select_property in Hfresh. rewrite (find_app_none _ _ _ Hfresh).
      cbn [find Property.property_id]. now rewrite String.eqb_refl.
    + eexists. split; [reflexivity|]. apply in_order_by, filter_In.
      cbn [properties set_properties Property.host_id]. split.
      * apply in_or_app. right. now left.
      * rewrite Hhost. apply String.eqb_refl.
Qed.

(** X26.  A review that was written is listed: after a creation answered
    201, the review is among the reviews of the property of the booking,
    among those of its host and among those of the caller. *)
Theorem created_review_is_listed user booking_id body n1 n2 now d rv d' b :
  create_review user booking_id body n1 n2 now d = (Json 201 rv, d') ->
  select_booking d booking_id = Some b ->
  (exists rows, get_property_reviews d' (Booking.property_id b) = Json 200 rows
                /\ In rv rows)
  /\ (exists rows, get_user_reviews d' (Booking.host_id b) = Json 200 rows
                   /\ In rv rows)
  /\ (exists rows, get_user_reviews d' (User.user_id user) = Json 200 rows
                   /\ In rv rows).
Proof.
  intros H Hsel.
  destruct (create_review_created _ _ _ _ _ _ _ _ _ _ H Hsel)
    as (data & Hd & Hrv & Hadd & _).
  assert (Hin : In rv (reviews d')) by (rewrite Hadd; apply in_or_app; right; now left).
  assert (Hf : CreateReviewInput.property_id data = Booking.property_id b
               /\ CreateReviewInput.reviewer_id data = User.user_id user
               /\ CreateReviewInput.host_id data = Booking.host_id b).
  { unfold createReviewInputSchema in Hd.
    match type of Hd with
    | context [Zod.string_ 1 None (?o "property_id")] =>
        change (o "property_id") with (Some (JStr (Booking.property_id b))) in Hd;
        change (o "reviewer_id") with (Some (JStr (User.user_id user))) in Hd;
        change (o "host_id") with (Some (JStr (Booking.host_id b))) in Hd
    end.
    destruct (Zod.string_ 1 None (Some (JStr (Booking.property_id b)))) as [pid|] eqn:E1;
      [apply string_min1_value in E1; subst pid|now repeat case_split Hd].
    destruct (Zod.string_ 1 None (Some (JStr (User.user_id user)))) as [rid|] eqn:E2;
      [apply string_min1_value in E2; subst rid|now repeat case_split Hd].
    destruct (Zod.string_ 1 None (Some (JStr (Booking.host_id b)))) as [hid|] eqn:E3;
      [apply string_min1_value in E3; subst hid|now repeat case_split Hd].
    repeat case_split Hd. injection Hd as <-. now cbn. }
  destruct Hf as (Hp & Hr & Hh).
  assert (Review.property_id rv = Booking.property_id b) as Rp by (now subst rv).
  assert (Review.reviewer_id rv = User.user_id user) as Rr by (now subst rv).
  assert (Review.host_id rv = Booking.host_id b) as Rh by (now subst rv).
  split; [|split]; eexists; (split; [reflexivity|]);
    apply in_order_by, filter_In; (split; [exact Hin|]).
  - rewrite Rp. apply String.eqb_refl.
  - rewrite Rh, String.eqb_refl. apply orb_true_r.
  - rewrite Rr, String.eqb_refl. reflexivity.
Qed.

(** X27.  The listings of a host are all of their properties, the
    inactive ones as well: a property deleted with an answer 204 is still
    in the listings of its host, as an inactive row. *)
Theorem deleted_property_stays_in_the_listings_of_its_host user property_id d r d' p :
  delete_property user property_id d = (Json 204 r, d') ->
  select_property d property_id = Some p ->
  exists rows,
    get_user_listings d' (Property.host_id p) = Json 200 rows
    /\ In (with_is_active false p) rows
    /\ forall x, In x rows <-> In x (properties d')
                               /\ Property.host_id x = Property.host_id p.
Proof.
  intros H Hsel. destruct (delete_property_ok _ _ _ _ _ H) as (p0 & _ & _ & ->).
  eexists. split; [reflexivity|]. split.
  - apply in_order_by, filter_In. cbn [properties set_properties]. split.
    + unfold select_property in Hsel. apply find_some in Hsel.
      destruct Hsel as (Hin & Hid). apply in_map_iff. exists p.
      now rewrite Hid.
    + cbn. apply String.eqb_refl.
  - intros x. rewrite in_order_by, filter_In, String.eqb_eq. reflexivity.
Qed.

(** ** Runs on the seed store *)

(** The two cheapest properties of the seed store, cheapest first. *)
Lemma search_results_in_requested_order_witness :
  exists res,
    search_properties ilike_ascii seed cheapest_first = Json 200 res
    /\ ordered price_asc (response_properties res).
Proof.
  eexists. split; [reflexivity|].
  exact (proj1 (proj2 (search_results_in_requested_order ilike_ascii seed
                         cheapest_first 200 _ eq_refl)) eq_refl).
Defined.

Lemma search_page_within_limit_witness :
  exists res,
    search_properties ilike_ascii seed cheapest_first = Json 200 res
    /\ Z.of_nat (List.length (response_properties res)) <= 2.
Proof.
  eexists. split; [reflexivity|].
  destruct (proj1 (search_page_within_limit ilike_ascii seed cheapest_first)
              200%nat _ eq_refl) as (_ & l & o & Hl & _ & _ & _ & _ & Hlen).
  injection Hl as <-. exact Hlen.
Defined.

(** A booking creation with an empty body: 400, and the seed store as it was. *)
Lemma client_errors_write_nothing_witness :
  snd (create_booking coerce_date_utc sara empty_object "b" "c" "n"
         "2023-06-20T10:00:00.000Z" seed) = seed.
Proof.
  apply (proj1 (client_errors_write_nothing coerce_date_utc) sara empty_object
           "b" "c" "n" "2023-06-20T10:00:00.000Z" seed
           (ErrorResponse 400 "Validation error" "VALIDATION_ERROR")).
  - reflexivity.
  - cbn. lia.
Defined.

Lemma update_without_columns_is_refused_witness :
  update_booking coerce_date_utc sara "book_001" empty_object
    "2023-06-20T10:00:00.000Z" "a" "2023-06-20T10:00:00.000Z" seed
  = (ErrorResponse 400 "No valid fields to update" "NO_UPDATE_FIELDS", seed).
Proof.
  apply (proj1 (update_without_columns_is_refused coerce_date_utc sara seed)
           "book_001" empty_object "2023-06-20T10:00:00.000Z" "a"
           "2023-06-20T10:00:00.000Z" book_001).
  - reflexivity.
  - right. left. reflexivity.
  - intros k _. reflexivity.
Defined.

(** [mariam], the guest of [book_002], confirms it: she is the one notified. *)
Lemma status_change_notifies_the_other_party_witness :
  notifications
    (snd (update_booking coerce_date_utc mariam "book_002" (status_only "confirmed")
            "2023-06-20T10:00:00.000Z" "a" "2023-06-20T10:00:00.000Z" seed))
  = (notifications seed
     ++ [booking_notification "a" "user_004" "booking_confirmed" "Booking Confirmed"
           "Your booking has been confirmed by the host" "book_002"
           "2023-06-20T10:00:00.000Z"])%list.
Proof.
  apply (proj1 (status_change_notifies_the_other_party coerce_date_utc mariam
                  "book_002" (status_only "confirmed") "2023-06-20T10:00:00.000Z" "a"
                  "2023-06-20T10:00:00.000Z" seed
                  (Some (with_status confirmed "2023-06-20T10:00:00.000Z" book_002))
                  _ book_002 (status_patch "book_002" confirmed)
                  eq_refl eq_refl eq_refl));
    [reflexivity | discriminate | discriminate].
Defined.

(** The conversation id [conv_001] is taken on the seed store. *)
Lemma create_booking_is_not_atomic_witness :
  exists b d',
    create_booking coerce_date_utc sara (stay "prop_001") "b" "001" "n"
      "2023-06-20T10:00:00.000Z" seed
    = (ErrorResponse 500 "Internal server error" "INTERNAL_SERVER_ERROR", d')
    /\ bookings d' = (bookings seed ++ [b])%list
    /\ conversations d' = conversations seed.
Proof.
  edestruct (create_booking_is_not_atomic coerce_date_utc sara (stay "prop_001")
               "b" "001" "n" "2023-06-20T10:00:00.000Z" seed)
    as (b & d' & Hrun & Hb & _ & Hc & _);
    [reflexivity | reflexivity | reflexivity | reflexivity | reflexivity
    | reflexivity | reflexivity | reflexivity |].
  exists b, d'. repeat split; assumption.
Defined.

Lemma create_booking_guest_is_the_caller_witness :
  exists b d',
    create_booking coerce_date_utc sara (stay "prop_001") "b" "c" "n"
      "2023-06-20T10:00:00.000Z" seed = (Json 201 b, d')
    /\ Booking.guest_id b = "user_002".
Proof.
  eexists _, _. split; [reflexivity|].
  exact (proj1 (proj2 (create_booking_guest_is_the_caller coerce_date_utc sara
                         (stay "prop_001") "b" "c" "n" "2023-06-20T10:00:00.000Z"
                         seed) _ _ eq_refl)).
Defined.

Lemma review_records_the_booking_and_the_caller_witness :
  exists rv d',
    create_review mariam "book_002" five_stars "r" "n" "2023-06-20T10:00:00.000Z"
      seed_completed = (Json 201 rv, d')
    /\ Review.property_id rv = "prop_003"
    /\ Review.reviewer_id rv = "user_004"
    /\ Review.host_id rv = "user_003".
Proof.
  eexists _, _. split; [reflexivity|].
  destruct (review_records_the_booking_and_the_caller mariam "book_002" five_stars
              "r" "n" "2023-06-20T10:00:00.000Z" seed_completed _ _
              (with_status completed "2023-06-16T09:00:00.000Z" book_002)
              eq_refl eq_refl)
    as (_ & Hp & Hr & Hh & _).
  exact (conj Hp (conj Hr Hh)).
Defined.

Lemma review_with_invalid_rating_is_rejected_witness :
  create_review mariam "book_002" six_for_overall "r" "n"
    "2023-06-20T10:00:00.000Z" seed_completed
  = (ErrorResponse 400 "Validation error" "VALIDATION_ERROR", seed_completed).
Proof.
  apply (review_with_invalid_rating_is_rejected mariam "book_002" six_for_overall
           "r" "n" "2023-06-20T10:00:00.000Z" seed_completed
           (with_status completed "2023-06-16T09:00:00.000Z" book_002)
           "overall_rating");
    try reflexivity.
  cbn. tauto.
Defined.

(** [ahmed] deletes his studio: it is still fetched, inactive. *)
Lemma deleted_property_is_hidden_and_kept_witness :
  exists p,
    select_property seed "prop_002" = Some p
    /\ get_property (snd (delete_property ahmed "prop_002" seed)) "prop_002"
       = Json 200 (with_is_active false p).
Proof.
  exact (proj1 (proj2 (deleted_property_is_hidden_and_kept ilike_ascii ahmed
                         "prop_002" seed tt _ eq_refl))).
Defined.

Lemma property_changes_need_owner_or_admin_witness :
  owner_or_admin ahmed seed "prop_002".
Proof.
  apply (proj1 (property_changes_need_owner_or_admin ahmed "prop_002" empty_object
                  seed) (Json 204 tt) _ eq_refl).
  left. now exists tt.
Defined.

(** [ahmed] hands his studio over to [user_003] and can no longer delete it. *)
Lemma owner_who_hands_over_loses_access_witness :
  delete_property ahmed "prop_002"
    (snd (update_property ahmed "prop_002" (hand_over "user_003") seed))
  = (ErrorResponse 403 "Forbidden: Cannot delete other user properties"
       "FORBIDDEN_ACCESS",
     snd (update_property ahmed "prop_002" (hand_over "user_003") seed)).
Proof.
  refine (proj2 (proj2 (proj2 (owner_who_hands_over_loses_access ahmed "prop_002"
                                 (hand_over "user_003") seed _ _ "user_003"
                                 eq_refl eq_refl))
                   _ _
                   (snd (update_property ahmed "prop_002" (hand_over "user_003") seed))
                   _ eq_refl eq_refl));
    discriminate.
Defined.

Lemma bookings_are_shown_to_their_parties_only_witness :
  In book_001 (bookings seed)
  /\ (Booking.guest_id book_001 = User.user_id sara
      \/ Booking.host_id book_001 = User.user_id sara).
Proof.
  apply (proj1 (proj1 (bookings_are_shown_to_their_parties_only sara seed)
                  ltac:(discriminate)) "book_001" book_001).
  reflexivity.
Defined.

Lemma bookings_are_listed_newest_first_witness :
  exists rows,
    get_user_bookings ahmed seed "user_001" None = Json 200 rows
    /\ ordered booking_created_at_desc rows.
Proof.
  eexists. split; [reflexivity|].
  exact (proj2 (bookings_are_listed_newest_first ahmed seed) "user_001" None _
           eq_refl).
Defined.


Lemma notifications_of_the_caller_newest_first_witness :
  exists rows,
    get_notifications ahmed seed (Some "false") (Some 10) (Some 0) = Json 200 rows
    /\ ordered notification_created_at_desc rows.
Proof.
  eexists. split; [reflexivity|].
  exact (proj1 (notifications_of_the_caller_newest_first ahmed seed (Some "false")
                  (Some 10) (Some 0) _ eq_refl)).
Defined.

(** A booking, then a request to open its conversation once more. *)
Lemma one_conversation_per_booking_is_kept_witness :
  conversations_well_formed
    (serve_all_on_store coerce_date_utc
       [ Earlier (CreateBooking sara (stay "prop_001") "b" "c" "n"
                    "2023-06-20T10:00:00.000Z");
         CreateConversation sara (conversation_request "book_b" "user_001") "c2"
           "2023-06-20T10:05:00.000Z" ]
       seed).
Proof.
  apply (proj1 (one_conversation_per_booking_is_kept coerce_date_utc)). split.
  - intros c [<- | [<- | []]]; discriminate.
  - intros k. unfold select_conversations_of_booking.
    cbn [conversations seed seed_conversations filter Conversation.booking_id].
    destruct (String.eqb "book_001" k) eqn:E1;
      destruct (String.eqb "book_002" k) eqn:E2; cbn; try lia.
    apply String.eqb_eq in E1, E2. subst k. discriminate.
Defined.

(** The host marks [not_001] as read: 500, and the store as it was. *)
Lemma update_notification_never_updates_witness :
  update_notification ahmed "not_001" mark_read seed = (internal_server_error, seed).
Proof.
  eapply (proj2 (proj2 (update_notification_never_updates ahmed "not_001" mark_read
                          seed)));
    [reflexivity | reflexivity | reflexivity | discriminate].
Defined.

Lemma booking_already_has_its_conversation_witness :
  exists b d',
    create_booking coerce_date_utc sara (stay "prop_001") "b" "c" "n"
      "2023-06-20T10:00:00.000Z" seed = (Json 201 b, d')
    /\ create_conversation sara (conversation_request "book_b" "user_001") "c2"
         "2023-06-20T10:05:00.000Z" d'
       = (Json 200 (ExistingConversation "conv_c"), d').
Proof.
  eexists _, _. split; [reflexivity|].
  eapply (booking_already_has_its_conversation coerce_date_utc sara
            (stay "prop_001") "b" "c" "n" "2023-06-20T10:00:00.000Z" seed);
    [| reflexivity | reflexivity | reflexivity | discriminate].
  intros c [<- | [<- | []]]; discriminate.
Defined.

Lemma authentication_names_a_user_of_the_store_witness :
  authenticateToken verify_sample seed (Some "Bearer token_sara") = Authenticated sara
  /\ In sara (users seed).
Proof.
  split; [reflexivity|].
  exact (proj1 (proj1 (authentication_names_a_user_of_the_store verify_sample seed)
                  (Some "Bearer token_sara") sara eq_refl)).
Defined.

Lemma created_property_is_the_callers_witness :
  exists p d',
    create_property ahmed new_listing "x" "2023-06-20T10:00:00.000Z" seed
    = (Json 201 p, d')
    /\ Property.host_id p = "user_001"
    /\ Property.is_active p = true
    /\ get_property d' "prop_x" = Json 200 p.
Proof.
  eexists _, _. split; [reflexivity|].
  destruct (proj2 (created_property_is_the_callers ahmed new_listing "x"
                     "2023-06-20T10:00:00.000Z" seed) _ _ eq_refl)
    as (_ & Hh & _ & _ & Ha & Hg & _).
  exact (conj Hh (conj (Ha eq_refl) Hg)).
Defined.

Lemma created_review_is_listed_witness :
  exists rv d' rows,
    create_review mariam "book_002" five_stars "r" "n" "2023-06-20T10:00:00.000Z"
      seed_completed = (Json 201 rv, d')
    /\ get_property_reviews d' "prop_003" = Json 200 rows
    /\ In rv rows.
Proof.
  destruct (proj1 (created_review_is_listed mariam "book_002" five_stars "r" "n"
                     "2023-06-20T10:00:00.000Z" seed_completed _ _
                     (with_status completed "2023-06-16T09:00:00.000Z" book_002)
                     eq_refl eq_refl))
    as (rows & Hrows & Hin).
  eexists _, _, rows. split; [reflexivity|]. split; [exact Hrows | exact Hin].
Defined.

Lemma deleted_property_stays_in_the_listings_of_its_host_witness :
  exists rows,
    get_user_listings (snd (delete_property ahmed "prop_002" seed)) "user_001"
    = Json 200 rows
    /\ In (with_is_active false prop_002) rows.
Proof.
  destruct (deleted_property_stays_in_the_listings_of_its_host ahmed "prop_002" seed
              tt _ prop_002 eq_refl eq_refl)
    as (rows & Hrows & Hin & _).
  exists rows. split; [exact Hrows | exact Hin].
Defined.

